(** * GeoAnki: round records, country resolution, clue synthesis, card compilation

    A shallow embedding of the GeoGuessr/Anki userscript.  The repository
    ships two versions of the script:

    - [GeoAnki-1.0.0.user.js] (version 1.0.0), embedded in [Module V100];
    - the enhanced script (version 1.1.0), embedded in [Module V110].

    Functions whose text is identical in both versions
    ([sanitizeCoordinates], [checkCountryOverride], [panoIdDecoder],
    [isValidCoordinate], [createStreetViewLink], [arraysHaveSameElements],
    [prepareCountryClues], [fetchLocationOverview],
    [getSingleDistinctiveClue]) are embedded once, before the two modules,
    and so are the debug log [DEBUG], the predicates on the page
    ([isInGame], [isRoundEnded], [isInActiveRound], whose selectors are
    behind the [Dom] snapshot) and the fields [sendNoteToAnki] builds.

    Modelling conventions:
    - a JS number is an IEEE-754 binary64 value, [spec_float] with
      [prec = 53] and [emax = 1024];
    - a JS string is a [string]; [null]/[undefined] fields are [option]s and
      a test [if (x)] on such a field is [truthy x];
    - [gameState.roundLocations] is a [gmap string RoundData]; a record
      object is created once per key and afterwards only mutated, so a
      closure that captured [roundData] is modelled by the key it was
      looked up with;
    - what the script reads from the host page (URL, DOM) is passed in as a
      [Page] snapshot, and every suspended promise continuation is a
      first-order [Pending] value resumed by the event loop. *)

From Stdlib Require Import ZArith List String Ascii Bool Lia SpecFloat.
From stdpp Require Import base option list gmap strings pretty.

Local Open Scope Z_scope.
Local Open Scope string_scope.

(** ** JS numbers *)

Module JsNumber.

Definition prec : Z := 53.
Definition emax : Z := 1024.

Definition number : Type := spec_float.

Definition NaN : number := S754_nan.
Definition Infinity : number := S754_infinity false.
Definition NegInfinity : number := S754_infinity true.
Definition zero : number := S754_zero false.

(** The Number value of an integer literal. *)
Definition of_Z (z : Z) : number := binary_normalize prec emax z 0 false.

(** The Number value of the decimal literal [m * 10^e10] (round to nearest,
    ties to even), with the sign kept apart so that [-0] is representable. *)
Definition of_decimal (neg : bool) (m : Z) (e10 : Z) : number :=
  match m with
  | Z0 => S754_zero neg
  | Zneg _ => S754_nan
  | Zpos p =>
      match e10 with
      | Zneg k =>
          let '(q, e, l) := SFdiv_core_binary prec emax (Zpos p) 0 (Z.pow 10 (Zpos k)) 0 in
          binary_round_aux prec emax neg q e l
      | _ =>
          match Z.mul (Zpos p) (Z.pow 10 e10) with
          | Zpos q => binary_round prec emax neg q 0
          | _ => S754_nan
          end
      end
  end.

Definition isNaN (x : number) : bool :=
  match x with S754_nan => true | _ => false end.

Definition isFinite (x : number) : bool :=
  match x with S754_zero _ | S754_finite _ _ _ => true | _ => false end.

Definition add (x y : number) : number := SFadd prec emax x y.
Definition sub (x y : number) : number := SFsub prec emax x y.
Definition mul (x y : number) : number := SFmul prec emax x y.
Definition div (x y : number) : number := SFdiv prec emax x y.
Definition abs (x : number) : number := SFabs x.
Definition ltb (x y : number) : bool := SFltb x y.
Definition leb (x y : number) : bool := SFleb x y.

(** [x || d] on numbers: [0], [-0] and [NaN] are falsy. *)
Definition falsy (x : number) : bool :=
  match x with S754_zero _ | S754_nan => true | _ => false end.
Definition or_default (x d : number) : number := if falsy x then d else x.

(** [Math.min(x, y)]: NaN if either is NaN; [-0] is smaller than [+0]. *)
Definition Math_min (x y : number) : number :=
  if isNaN x || isNaN y then NaN
  else if ltb x y then x
  else if ltb y x then y
  else match x with S754_zero true => x | _ => y end.

(** [Math.max(x, y)]: NaN if either is NaN; [+0] is larger than [-0]. *)
Definition Math_max (x y : number) : number :=
  if isNaN x || isNaN y then NaN
  else if ltb y x then x
  else if ltb x y then y
  else match x with S754_zero false => x | _ => y end.

(** The literals of the script. *)
Definition n90 : number := Eval vm_compute in of_Z 90.
Definition n180 : number := Eval vm_compute in of_Z 180.
Definition neg90 : number := Eval vm_compute in of_Z (-90).
Definition neg180 : number := Eval vm_compute in of_Z (-180).
Definition n4 : number := Eval vm_compute in of_Z 4.
Definition n1 : number := Eval vm_compute in of_Z 1.
Definition n10 : number := Eval vm_compute in of_Z 10.
Definition n100 : number := Eval vm_compute in of_Z 100.
Definition n360 : number := Eval vm_compute in of_Z 360.
Definition n2_75 : number := Eval vm_compute in of_decimal false 275 (-2).

End JsNumber.
Import JsNumber.

(** ** JS strings *)

(** A JS string is kept as the bytes of its UTF-8 encoding, so that the
    literals of the script can be written as they are; [js_length] is its
    [.length] (the number of UTF-16 code units). *)
Module JsString.

Definition code (a : ascii) : N := N_of_ascii a.

Definition is_continuation (a : ascii) : bool :=
  ((128 <=? code a)%N && (code a <? 192)%N)%bool.

Fixpoint js_length (s : string) : nat :=
  match s with
  | EmptyString => 0%nat
  | String a r =>
      ((if is_continuation a then 0 else if (240 <=? code a)%N then 2 else 1)
       + js_length r)%nat
  end.

(** [String.fromCharCode(n)]: the encoding of the code unit [n]. *)
Definition fromCharCode (n : N) : string :=
  if (n <? 128)%N then String (ascii_of_N n) EmptyString
  else if (n <? 2048)%N then
    String (ascii_of_N (192 + n / 64))
      (String (ascii_of_N (128 + n mod 64)) EmptyString)
  else
    String (ascii_of_N (224 + n / 4096))
      (String (ascii_of_N (128 + (n / 64) mod 64))
         (String (ascii_of_N (128 + n mod 64)) EmptyString)).

(** One white-space character or line terminator at the head of [s]
    (TAB, LF, VT, FF, CR, SP, U+00A0, U+1680, U+2000..U+200A, U+2028,
    U+2029, U+202F, U+205F, U+3000, U+FEFF): the rest of [s] behind it. *)
Definition ws_head (s : string) : option string :=
  match s with
  | String a r =>
      let c := code a in
      if ((c =? 32) || ((9 <=? c) && (c <=? 13)))%N%bool then Some r
      else
        match r with
        | String b r' =>
            let d := code b in
            if ((c =? 194) && (d =? 160))%N%bool then Some r'
            else
              match r' with
              | String e r'' =>
                  let f := code e in
                  if (((c =? 225) && (d =? 154) && (f =? 128))
                      || ((c =? 226) && (d =? 128) &&
                          (((128 <=? f) && (f <=? 138)) || (f =? 168) || (f =? 169) || (f =? 175)))
                      || ((c =? 226) && (d =? 129) && (f =? 159))
                      || ((c =? 227) && (d =? 128) && (f =? 128))
                      || ((c =? 239) && (d =? 187) && (f =? 191)))%N%bool
                  then Some r'' else None
              | EmptyString => None
              end
        | EmptyString => None
        end
  | EmptyString => None
  end.

Fixpoint trimStart_fuel (fuel : nat) (s : string) : string :=
  match fuel with
  | O => s
  | S fuel' =>
      match ws_head s with
      | Some r => trimStart_fuel fuel' r
      | None => s
      end
  end.

(** [s.trimStart()]: every step removes at least one byte. *)
Definition trimStart (s : string) : string := trimStart_fuel (String.length s) s.

Definition all_ws (s : string) : bool :=
  match trimStart s with EmptyString => true | _ => false end.

Fixpoint trimEnd (s : string) : string :=
  match s with
  | EmptyString => EmptyString
  | String a r => if all_ws s then EmptyString else String a (trimEnd r)
  end.

(** [s.trim()] *)
Definition trim (s : string) : string := trimEnd (trimStart s).

(** [s.split(c)[0]] for a one-character separator. *)
Fixpoint split_first (c : ascii) (s : string) : string :=
  match s with
  | EmptyString => EmptyString
  | String a r => if Ascii.eqb a c then EmptyString else String a (split_first c r)
  end.

(** [s.startsWith(p)] *)
Fixpoint startsWith (p s : string) : bool :=
  match p, s with
  | EmptyString, _ => true
  | String a p', String b s' => Ascii.eqb a b && startsWith p' s'
  | _, _ => false
  end.

(** [s.includes(t)] *)
Fixpoint includes (t s : string) : bool :=
  startsWith t s ||
  match s with
  | EmptyString => false
  | String _ r => includes t r
  end.

(** [s.toLowerCase()] for an ASCII text [s]: there the case mapping of JS
    changes the letters A-Z and nothing else.  It is used for the country
    codes of the override table only, which are ASCII; the case mappings
    of texts that come from outside are the built-ins [toLowerCase] and
    [toUpperCase] of [Builtins]. *)
Definition lower_ascii (a : ascii) : ascii :=
  let c := code a in
  if ((65 <=? c) && (c <=? 90))%N%bool then ascii_of_N (c + 32) else a.

Fixpoint map_string (f : ascii -> ascii) (s : string) : string :=
  match s with
  | EmptyString => EmptyString
  | String a r => String (f a) (map_string f r)
  end.

Definition asciiToLowerCase : string -> string := map_string lower_ascii.

(** [arr.join(sep)] *)
Fixpoint join (sep : string) (l : list string) : string :=
  match l with
  | [] => EmptyString
  | [x] => x
  | x :: r => x ++ sep ++ join sep r
  end.

(** The double quote, for the HTML attributes of the card text. *)
Definition dq : string := String (ascii_of_N 34) EmptyString.

(** Truthiness of a string: every string but the empty one. *)
Definition nonempty (s : string) : bool :=
  match s with EmptyString => false | _ => true end.

(** Truthiness of a field that holds a string, [null] or [undefined]. *)
Definition truthy (o : option string) : bool :=
  match o with Some s => nonempty s | None => false end.

(** A field in a template literal: [undefined] prints as itself. *)
Definition tpl (o : option string) : string :=
  match o with Some s => s | None => "undefined" end.

(** [a !== b] on two such fields. *)
Definition strict_ne (a b : option string) : bool :=
  if decide (a = b) then false else true.

End JsString.
Import JsString.

(** ** [parseFloat] *)

(** The values [sanitizeCoordinates] is called with: numbers (parsed
    coordinates, JSON numbers) and strings ([toFixed] output, JSON
    strings). *)
Inductive jsval : Type :=
| JNum (n : number)
| JStr (s : string).

Module ParseFloat.

Definition digit_of (a : ascii) : option Z :=
  let c := Z.of_nat (nat_of_ascii a) in
  if ((48 <=? c)%Z && (c <=? 57)%Z)%bool then Some (c - 48) else None.

(** Reads a maximal run of decimal digits: its value (on top of [acc]), the
    number of digits read and the rest of the input. *)
Fixpoint digits (s : string) (acc : Z) (n : Z) : Z * Z * string :=
  match s with
  | String a r =>
      match digit_of a with
      | Some d => digits r (10 * acc + d) (n + 1)
      | None => (acc, n, s)
      end
  | EmptyString => (acc, n, s)
  end.

(** [ExponentPart], when one can be read in full; [0] otherwise (the longest
    prefix that is a literal then stops before the [e]). *)
Definition exponent (s : string) : Z :=
  match s with
  | String a r =>
      if (Ascii.eqb a "e" || Ascii.eqb a "E")%bool then
        let '(neg, r') :=
          match r with
          | String b r' =>
              if Ascii.eqb b "-" then (true, r')
              else if Ascii.eqb b "+" then (false, r')
              else (false, r)
          | EmptyString => (false, r)
          end in
        let '(v, n, _) := digits r' 0 0 in
        if (n =? 0)%Z then 0 else if neg then - v else v
      else 0
  | EmptyString => 0
  end.

(** [StrUnsignedDecimalLiteral], longest prefix. *)
Definition unsigned_literal (neg : bool) (s : string) : number :=
  if startsWith "Infinity" s then S754_infinity neg
  else
    let '(ip, nip, r1) := digits s 0 0 in
    match r1 with
    | String "."%char r2 =>
        let '(m, nall, r3) := digits r2 ip nip in
        if (nall =? 0)%Z then NaN
        else of_decimal neg m (exponent r3 - (nall - nip))
    | _ => if (nip =? 0)%Z then NaN else of_decimal neg ip (exponent r1)
    end.

Definition parse_string (s : string) : number :=
  match trimStart s with
  | String a r =>
      if Ascii.eqb a "-" then unsigned_literal true r
      else if Ascii.eqb a "+" then unsigned_literal false r
      else unsigned_literal false (String a r)
  | EmptyString => NaN
  end.

(** [parseFloat(v)] is [parse_string (ToString v)].  [ToString] of a number
    prints the shortest decimal that reads back as the same number, so a
    number comes back unchanged, except that [-0] prints as ["0"]. *)
Definition parseFloat (v : jsval) : number :=
  match v with
  | JNum (S754_zero _) => S754_zero false
  | JNum n => n
  | JStr s => parse_string s
  end.

End ParseFloat.
Import ParseFloat.

(** ** Coordinates *)

Record Coordinate : Type := mkCoordinate { lat : number; lng : number }.

(** [sanitizeCoordinates(lat, lng)]; [None] is the [null] result. *)
Definition sanitizeCoordinates (lat lng : jsval) : option Coordinate :=
  let lat := parseFloat lat in
  let lng := parseFloat lng in
  if (isNaN lat || isNaN lng)%bool then None
  else
    let lat := Math_max neg90 (Math_min n90 lat) in
    let lng := Math_max neg180 (Math_min n180 lng) in
    Some (mkCoordinate lat lng).

(** [isValidCoordinate(coord)]: the fields of a stored coordinate are
    numbers, so the [typeof] tests hold. *)
Definition isValidCoordinate (coord : option Coordinate) : bool :=
  match coord with
  | None => false
  | Some c =>
      negb (isNaN (lat c)) && negb (isNaN (lng c)) &&
      leb (abs (lat c)) n90 && leb (abs (lng c)) n180
  end.

(** ** Data model *)

(** [additionalInfo]: the enrichment of a country.  The objects the script
    builds from the DOM text carry only some of the fields (or none), so
    every field may be [undefined]. *)
Record AdditionalInfo : Type := mkAdditionalInfo {
  tld : option string;
  drivingSide : option string;
  languages : option (list string);
  currency : option string;
  flagUrl : option string;
  continent : option string;
  capital : option string }.

(** The [address] object of a reverse-geocoding response, also kept as
    [details] of a country fact. *)
Record Address : Type := mkAddress {
  addr_country : option string;
  addr_country_code : option string;
  addr_state : option string;
  addr_county : option string;
  addr_city : option string;
  addr_town : option string;
  addr_village : option string }.

(** A country fact ([countryData], [guessCountryData]). *)
Module CountryData.
Record t : Type := mk {
  country : string;
  countryCode : option string;
  state : option string;
  city : option string;
  details : option Address;
  additionalInfo : option AdditionalInfo }.
End CountryData.

(** One generated clue, [{category, clue}]. *)
Record Clue : Type := mkClue { category : string; clue : string }.

(** The [location-overview] response, as far as the script reads it. *)
Record Overview : Type := mkOverview {
  region : option string;
  coverage_type : option (option string)  (* [coverage], and [coverage.type] in it *) }.

(** The record of one round, [gameState.roundLocations[roundKey]].  Records
    are created with some of the fields only; a field that is missing or
    [null] is [None]. *)
Module RoundData.

Record t : Type := mk {
  panoId : option string;
  location : option Coordinate;
  heading : number;
  pitch : number;
  zoom : number;
  country : option string;
  countryData : option CountryData.t;
  guessLocation : option Coordinate;
  guessCountry : option string;
  guessCountryData : option CountryData.t;
  score : option number;
  missedClues : option (list Clue);
  locationOverview : option Overview;
  cardCreated : bool }.

Definition set_country (v : option string) (r : t) : t :=
  {| panoId := panoId r; location := location r; heading := heading r; pitch :=
     pitch r; zoom := zoom r; country := v; countryData := countryData r;
     guessLocation := guessLocation r; guessCountry := guessCountry r;
     guessCountryData := guessCountryData r; score := score r; missedClues :=
     missedClues r; locationOverview := locationOverview r; cardCreated :=
     cardCreated r |}.
Definition set_countryData (v : option CountryData.t) (r : t) : t :=
  {| panoId := panoId r; location := location r; heading := heading r; pitch :=
     pitch r; zoom := zoom r; country := country r; countryData := v; guessLocation
     := guessLocation r; guessCountry := guessCountry r; guessCountryData :=
     guessCountryData r; score := score r; missedClues := missedClues r;
     locationOverview := locationOverview r; cardCreated := cardCreated r |}.
Definition set_guessCountry (v : option string) (r : t) : t :=
  {| panoId := panoId r; location := location r; heading := heading r; pitch :=
     pitch r; zoom := zoom r; country := country r; countryData := countryData r;
     guessLocation := guessLocation r; guessCountry := v; guessCountryData :=
     guessCountryData r; score := score r; missedClues := missedClues r;
     locationOverview := locationOverview r; cardCreated := cardCreated r |}.
Definition set_guessCountryData (v : option CountryData.t) (r : t) : t :=
  {| panoId := panoId r; location := location r; heading := heading r; pitch :=
     pitch r; zoom := zoom r; country := country r; countryData := countryData r;
     guessLocation := guessLocation r; guessCountry := guessCountry r;
     guessCountryData := v; score := score r; missedClues := missedClues r;
     locationOverview := locationOverview r; cardCreated := cardCreated r |}.
Definition set_missedClues (v : option (list Clue)) (r : t) : t :=
  {| panoId := panoId r; location := location r; heading := heading r; pitch :=
     pitch r; zoom := zoom r; country := country r; countryData := countryData r;
     guessLocation := guessLocation r; guessCountry := guessCountry r;
     guessCountryData := guessCountryData r; score := score r; missedClues := v;
     locationOverview := locationOverview r; cardCreated := cardCreated r |}.
Definition set_locationOverview (v : option Overview) (r : t) : t :=
  {| panoId := panoId r; location := location r; heading := heading r; pitch :=
     pitch r; zoom := zoom r; country := country r; countryData := countryData r;
     guessLocation := guessLocation r; guessCountry := guessCountry r;
     guessCountryData := guessCountryData r; score := score r; missedClues :=
     missedClues r; locationOverview := v; cardCreated := cardCreated r |}.
Definition set_cardCreated (v : bool) (r : t) : t :=
  {| panoId := panoId r; location := location r; heading := heading r; pitch :=
     pitch r; zoom := zoom r; country := country r; countryData := countryData r;
     guessLocation := guessLocation r; guessCountry := guessCountry r;
     guessCountryData := guessCountryData r; score := score r; missedClues :=
     missedClues r; locationOverview := locationOverview r; cardCreated := v |}.

End RoundData.

(** [gameState].  [cancelCardCreation] and [dataSource] exist in version
    1.1.0 only; [gameDataToken] is [gameState.gameData.token]. *)
Module GameState.

Record t : Type := mk {
  inGame : bool;
  inRound : bool;
  roundNumber : nat;
  currentLocation : option Coordinate;
  panoId : option string;
  heading : number;
  pitch : number;
  zoom : number;
  guessLocation : option Coordinate;
  guessCountry : option string;
  actualLocation : option Coordinate;
  actualCountry : option string;
  score : option number;
  countryData : option CountryData.t;
  guessCountryData : option CountryData.t;
  missedClues : list Clue;
  locationOverview : option Overview;
  userMissedClues : string;
  userReminder : string;
  roundLocations : gmap string RoundData.t;
  currentRoundKey : option string;
  cardCreatedForRound : bool;
  cancelCardCreation : bool;
  dataSource : option string;
  gameDataToken : option string }.

Definition set_guessCountry (v : option string) (r : t) : t :=
  {| inGame := inGame r; inRound := inRound r; roundNumber := roundNumber r;
     currentLocation := currentLocation r; panoId := panoId r; heading := heading r;
     pitch := pitch r; zoom := zoom r; guessLocation := guessLocation r;
     guessCountry := v; actualLocation := actualLocation r; actualCountry :=
     actualCountry r; score := score r; countryData := countryData r;
     guessCountryData := guessCountryData r; missedClues := missedClues r;
     locationOverview := locationOverview r; userMissedClues := userMissedClues r;
     userReminder := userReminder r; roundLocations := roundLocations r;
     currentRoundKey := currentRoundKey r; cardCreatedForRound :=
     cardCreatedForRound r; cancelCardCreation := cancelCardCreation r; dataSource
     := dataSource r; gameDataToken := gameDataToken r |}.
Definition set_actualLocation (v : option Coordinate) (r : t) : t :=
  {| inGame := inGame r; inRound := inRound r; roundNumber := roundNumber r;
     currentLocation := currentLocation r; panoId := panoId r; heading := heading r;
     pitch := pitch r; zoom := zoom r; guessLocation := guessLocation r;
     guessCountry := guessCountry r; actualLocation := v; actualCountry :=
     actualCountry r; score := score r; countryData := countryData r;
     guessCountryData := guessCountryData r; missedClues := missedClues r;
     locationOverview := locationOverview r; userMissedClues := userMissedClues r;
     userReminder := userReminder r; roundLocations := roundLocations r;
     currentRoundKey := currentRoundKey r; cardCreatedForRound :=
     cardCreatedForRound r; cancelCardCreation := cancelCardCreation r; dataSource
     := dataSource r; gameDataToken := gameDataToken r |}.
Definition set_actualCountry (v : option string) (r : t) : t :=
  {| inGame := inGame r; inRound := inRound r; roundNumber := roundNumber r;
     currentLocation := currentLocation r; panoId := panoId r; heading := heading r;
     pitch := pitch r; zoom := zoom r; guessLocation := guessLocation r;
     guessCountry := guessCountry r; actualLocation := actualLocation r;
     actualCountry := v; score := score r; countryData := countryData r;
     guessCountryData := guessCountryData r; missedClues := missedClues r;
     locationOverview := locationOverview r; userMissedClues := userMissedClues r;
     userReminder := userReminder r; roundLocations := roundLocations r;
     currentRoundKey := currentRoundKey r; cardCreatedForRound :=
     cardCreatedForRound r; cancelCardCreation := cancelCardCreation r; dataSource
     := dataSource r; gameDataToken := gameDataToken r |}.
Definition set_countryData (v : option CountryData.t) (r : t) : t :=
  {| inGame := inGame r; inRound := inRound r; roundNumber := roundNumber r;
     currentLocation := currentLocation r; panoId := panoId r; heading := heading r;
     pitch := pitch r; zoom := zoom r; guessLocation := guessLocation r;
     guessCountry := guessCountry r; actualLocation := actualLocation r;
     actualCountry := actualCountry r; score := score r; countryData := v;
     guessCountryData := guessCountryData r; missedClues := missedClues r;
     locationOverview := locationOverview r; userMissedClues := userMissedClues r;
     userReminder := userReminder r; roundLocations := roundLocations r;
     currentRoundKey := currentRoundKey r; cardCreatedForRound :=
     cardCreatedForRound r; cancelCardCreation := cancelCardCreation r; dataSource
     := dataSource r; gameDataToken := gameDataToken r |}.
Definition set_guessCountryData (v : option CountryData.t) (r : t) : t :=
  {| inGame := inGame r; inRound := inRound r; roundNumber := roundNumber r;
     currentLocation := currentLocation r; panoId := panoId r; heading := heading r;
     pitch := pitch r; zoom := zoom r; guessLocation := guessLocation r;
     guessCountry := guessCountry r; actualLocation := actualLocation r;
     actualCountry := actualCountry r; score := score r; countryData := countryData
     r; guessCountryData := v; missedClues := missedClues r; locationOverview :=
     locationOverview r; userMissedClues := userMissedClues r; userReminder :=
     userReminder r; roundLocations := roundLocations r; currentRoundKey :=
     currentRoundKey r; cardCreatedForRound := cardCreatedForRound r;
     cancelCardCreation := cancelCardCreation r; dataSource := dataSource r;
     gameDataToken := gameDataToken r |}.
Definition set_missedClues (v : list Clue) (r : t) : t :=
  {| inGame := inGame r; inRound := inRound r; roundNumber := roundNumber r;
     currentLocation := currentLocation r; panoId := panoId r; heading := heading r;
     pitch := pitch r; zoom := zoom r; guessLocation := guessLocation r;
     guessCountry := guessCountry r; actualLocation := actualLocation r;
     actualCountry := actualCountry r; score := score r; countryData := countryData
     r; guessCountryData := guessCountryData r; missedClues := v; locationOverview
     := locationOverview r; userMissedClues := userMissedClues r; userReminder :=
     userReminder r; roundLocations := roundLocations r; currentRoundKey :=
     currentRoundKey r; cardCreatedForRound := cardCreatedForRound r;
     cancelCardCreation := cancelCardCreation r; dataSource := dataSource r;
     gameDataToken := gameDataToken r |}.
Definition set_locationOverview (v : option Overview) (r : t) : t :=
  {| inGame := inGame r; inRound := inRound r; roundNumber := roundNumber r;
     currentLocation := currentLocation r; panoId := panoId r; heading := heading r;
     pitch := pitch r; zoom := zoom r; guessLocation := guessLocation r;
     guessCountry := guessCountry r; actualLocation := actualLocation r;
     actualCountry := actualCountry r; score := score r; countryData := countryData
     r; guessCountryData := guessCountryData r; missedClues := missedClues r;
     locationOverview := v; userMissedClues := userMissedClues r; userReminder :=
     userReminder r; roundLocations := roundLocations r; currentRoundKey :=
     currentRoundKey r; cardCreatedForRound := cardCreatedForRound r;
     cancelCardCreation := cancelCardCreation r; dataSource := dataSource r;
     gameDataToken := gameDataToken r |}.
Definition set_userMissedClues (v : string) (r : t) : t :=
  {| inGame := inGame r; inRound := inRound r; roundNumber := roundNumber r;
     currentLocation := currentLocation r; panoId := panoId r; heading := heading r;
     pitch := pitch r; zoom := zoom r; guessLocation := guessLocation r;
     guessCountry := guessCountry r; actualLocation := actualLocation r;
     actualCountry := actualCountry r; score := score r; countryData := countryData
     r; guessCountryData := guessCountryData r; missedClues := missedClues r;
     locationOverview := locationOverview r; userMissedClues := v; userReminder :=
     userReminder r; roundLocations := roundLocations r; currentRoundKey :=
     currentRoundKey r; cardCreatedForRound := cardCreatedForRound r;
     cancelCardCreation := cancelCardCreation r; dataSource := dataSource r;
     gameDataToken := gameDataToken r |}.
Definition set_userReminder (v : string) (r : t) : t :=
  {| inGame := inGame r; inRound := inRound r; roundNumber := roundNumber r;
     currentLocation := currentLocation r; panoId := panoId r; heading := heading r;
     pitch := pitch r; zoom := zoom r; guessLocation := guessLocation r;
     guessCountry := guessCountry r; actualLocation := actualLocation r;
     actualCountry := actualCountry r; score := score r; countryData := countryData
     r; guessCountryData := guessCountryData r; missedClues := missedClues r;
     locationOverview := locationOverview r; userMissedClues := userMissedClues r;
     userReminder := v; roundLocations := roundLocations r; currentRoundKey :=
     currentRoundKey r; cardCreatedForRound := cardCreatedForRound r;
     cancelCardCreation := cancelCardCreation r; dataSource := dataSource r;
     gameDataToken := gameDataToken r |}.
Definition set_roundLocations (v : gmap string RoundData.t) (r : t) : t :=
  {| inGame := inGame r; inRound := inRound r; roundNumber := roundNumber r;
     currentLocation := currentLocation r; panoId := panoId r; heading := heading r;
     pitch := pitch r; zoom := zoom r; guessLocation := guessLocation r;
     guessCountry := guessCountry r; actualLocation := actualLocation r;
     actualCountry := actualCountry r; score := score r; countryData := countryData
     r; guessCountryData := guessCountryData r; missedClues := missedClues r;
     locationOverview := locationOverview r; userMissedClues := userMissedClues r;
     userReminder := userReminder r; roundLocations := v; currentRoundKey :=
     currentRoundKey r; cardCreatedForRound := cardCreatedForRound r;
     cancelCardCreation := cancelCardCreation r; dataSource := dataSource r;
     gameDataToken := gameDataToken r |}.
Definition set_currentRoundKey (v : option string) (r : t) : t :=
  {| inGame := inGame r; inRound := inRound r; roundNumber := roundNumber r;
     currentLocation := currentLocation r; panoId := panoId r; heading := heading r;
     pitch := pitch r; zoom := zoom r; guessLocation := guessLocation r;
     guessCountry := guessCountry r; actualLocation := actualLocation r;
     actualCountry := actualCountry r; score := score r; countryData := countryData
     r; guessCountryData := guessCountryData r; missedClues := missedClues r;
     locationOverview := locationOverview r; userMissedClues := userMissedClues r;
     userReminder := userReminder r; roundLocations := roundLocations r;
     currentRoundKey := v; cardCreatedForRound := cardCreatedForRound r;
     cancelCardCreation := cancelCardCreation r; dataSource := dataSource r;
     gameDataToken := gameDataToken r |}.
Definition set_cardCreatedForRound (v : bool) (r : t) : t :=
  {| inGame := inGame r; inRound := inRound r; roundNumber := roundNumber r;
     currentLocation := currentLocation r; panoId := panoId r; heading := heading r;
     pitch := pitch r; zoom := zoom r; guessLocation := guessLocation r;
     guessCountry := guessCountry r; actualLocation := actualLocation r;
     actualCountry := actualCountry r; score := score r; countryData := countryData
     r; guessCountryData := guessCountryData r; missedClues := missedClues r;
     locationOverview := locationOverview r; userMissedClues := userMissedClues r;
     userReminder := userReminder r; roundLocations := roundLocations r;
     currentRoundKey := currentRoundKey r; cardCreatedForRound := v;
     cancelCardCreation := cancelCardCreation r; dataSource := dataSource r;
     gameDataToken := gameDataToken r |}.
Definition set_cancelCardCreation (v : bool) (r : t) : t :=
  {| inGame := inGame r; inRound := inRound r; roundNumber := roundNumber r;
     currentLocation := currentLocation r; panoId := panoId r; heading := heading r;
     pitch := pitch r; zoom := zoom r; guessLocation := guessLocation r;
     guessCountry := guessCountry r; actualLocation := actualLocation r;
     actualCountry := actualCountry r; score := score r; countryData := countryData
     r; guessCountryData := guessCountryData r; missedClues := missedClues r;
     locationOverview := locationOverview r; userMissedClues := userMissedClues r;
     userReminder := userReminder r; roundLocations := roundLocations r;
     currentRoundKey := currentRoundKey r; cardCreatedForRound :=
     cardCreatedForRound r; cancelCardCreation := v; dataSource := dataSource r;
     gameDataToken := gameDataToken r |}.
Definition set_inGame (v : bool) (r : t) : t :=
  {| inGame := v; inRound := inRound r; roundNumber := roundNumber r;
     currentLocation := currentLocation r; panoId := panoId r; heading := heading r;
     pitch := pitch r; zoom := zoom r; guessLocation := guessLocation r;
     guessCountry := guessCountry r; actualLocation := actualLocation r;
     actualCountry := actualCountry r; score := score r; countryData := countryData
     r; guessCountryData := guessCountryData r; missedClues := missedClues r;
     locationOverview := locationOverview r; userMissedClues := userMissedClues r;
     userReminder := userReminder r; roundLocations := roundLocations r;
     currentRoundKey := currentRoundKey r; cardCreatedForRound :=
     cardCreatedForRound r; cancelCardCreation := cancelCardCreation r; dataSource
     := dataSource r; gameDataToken := gameDataToken r |}.
Definition set_inRound (v : bool) (r : t) : t :=
  {| inGame := inGame r; inRound := v; roundNumber := roundNumber r; currentLocation
     := currentLocation r; panoId := panoId r; heading := heading r; pitch := pitch
     r; zoom := zoom r; guessLocation := guessLocation r; guessCountry :=
     guessCountry r; actualLocation := actualLocation r; actualCountry :=
     actualCountry r; score := score r; countryData := countryData r;
     guessCountryData := guessCountryData r; missedClues := missedClues r;
     locationOverview := locationOverview r; userMissedClues := userMissedClues r;
     userReminder := userReminder r; roundLocations := roundLocations r;
     currentRoundKey := currentRoundKey r; cardCreatedForRound :=
     cardCreatedForRound r; cancelCardCreation := cancelCardCreation r; dataSource
     := dataSource r; gameDataToken := gameDataToken r |}.
Definition set_roundNumber (v : nat) (r : t) : t :=
  {| inGame := inGame r; inRound := inRound r; roundNumber := v; currentLocation :=
     currentLocation r; panoId := panoId r; heading := heading r; pitch := pitch r;
     zoom := zoom r; guessLocation := guessLocation r; guessCountry := guessCountry
     r; actualLocation := actualLocation r; actualCountry := actualCountry r; score
     := score r; countryData := countryData r; guessCountryData := guessCountryData
     r; missedClues := missedClues r; locationOverview := locationOverview r;
     userMissedClues := userMissedClues r; userReminder := userReminder r;
     roundLocations := roundLocations r; currentRoundKey := currentRoundKey r;
     cardCreatedForRound := cardCreatedForRound r; cancelCardCreation :=
     cancelCardCreation r; dataSource := dataSource r; gameDataToken :=
     gameDataToken r |}.
Definition set_guessLocation (v : option Coordinate) (r : t) : t :=
  {| inGame := inGame r; inRound := inRound r; roundNumber := roundNumber r;
     currentLocation := currentLocation r; panoId := panoId r; heading := heading r;
     pitch := pitch r; zoom := zoom r; guessLocation := v; guessCountry :=
     guessCountry r; actualLocation := actualLocation r; actualCountry :=
     actualCountry r; score := score r; countryData := countryData r;
     guessCountryData := guessCountryData r; missedClues := missedClues r;
     locationOverview := locationOverview r; userMissedClues := userMissedClues r;
     userReminder := userReminder r; roundLocations := roundLocations r;
     currentRoundKey := currentRoundKey r; cardCreatedForRound :=
     cardCreatedForRound r; cancelCardCreation := cancelCardCreation r; dataSource
     := dataSource r; gameDataToken := gameDataToken r |}.
Definition set_score (v : option number) (r : t) : t :=
  {| inGame := inGame r; inRound := inRound r; roundNumber := roundNumber r;
     currentLocation := currentLocation r; panoId := panoId r; heading := heading r;
     pitch := pitch r; zoom := zoom r; guessLocation := guessLocation r;
     guessCountry := guessCountry r; actualLocation := actualLocation r;
     actualCountry := actualCountry r; score := v; countryData := countryData r;
     guessCountryData := guessCountryData r; missedClues := missedClues r;
     locationOverview := locationOverview r; userMissedClues := userMissedClues r;
     userReminder := userReminder r; roundLocations := roundLocations r;
     currentRoundKey := currentRoundKey r; cardCreatedForRound :=
     cardCreatedForRound r; cancelCardCreation := cancelCardCreation r; dataSource
     := dataSource r; gameDataToken := gameDataToken r |}.

End GameState.

(** What a handler reads from the host page when it runs. *)
Record Page : Type := mkPage {
  gameId : option string;        (* [window.location.href.split('/')[4]] *)
  currentRoundNumber : nat;      (* [getCurrentRoundNumber()] *)
  gameToken : option string;     (* group 1 of [/\/game\/([^\/]+)/] on the URL *)
  domCountry : option string;    (* [extractCountryFromDOM()] *)
  domGuess : option string       (* first result element matching
                                    [/You\s+guessed\s+([A-Za-z\s]+)/i]: group 1, trimmed *) }.

(** [settings], as far as the card compiler reads it. *)
Record Settings : Type := mkSettings { hideLocationInFrontCard : bool }.

(** Requests the script sends and later gets the answer of. *)
Inductive Request : Type :=
| NominatimReverse (c : Coordinate)            (* reverse geocoding of [c] *)
| RestCountriesAlpha (code : string)           (* enrichment by country code *)
| LocationOverview (token : string) (round : nat).

(** The answer of the reverse-geocoding service, [data.address]. *)
Record NominatimData : Type := mkNominatimData { address : option Address }.

(** One entry of the answer of the enrichment service, [restData[0]].
    [rc_languages] is [Object.values(languages)]; [rc_currencies] lists the
    [name] of each of [Object.values(currencies)], [None] for a value that
    has none. *)
Record RestCountry : Type := mkRestCountry {
  rc_tld : option (list string);
  rc_car_side : option string;
  rc_languages : option (list string);
  rc_currencies : option (list (option string));
  rc_continents : option (list string);
  rc_capital : option (list string) }.

(** JS built-ins on numbers and strings that the script calls and that are
    not spelled out here. *)
Record Builtins : Type := mkBuiltins {
  toFixed6 : number -> string;            (* [x.toFixed(6)] *)
  numberToString : number -> string;      (* a number in a template literal *)
  Math_round : number -> number;
  remainder : number -> number -> number; (* [x % y] *)
  encodeURIComponent : string -> string;
  toLowerCase : string -> string;         (* [s.toLowerCase()], on any text *)
  toUpperCase : string -> string;         (* [s.toUpperCase()], on any text *)
  match_detail : string -> option string
    (* group 1 of [/has (.+?) (?:signs|poles|antennas|coverage)/i] *) }.

(** ** The country override table *)

Module Override.
Record t : Type := mk {
  coordinates : Coordinate;
  tolerance : option number;
  country : string;
  countryCode : string;
  additionalInfo : AdditionalInfo }.
End Override.

Definition n0_1 : number := Eval vm_compute in parse_string "0.1".
Definition n0_2 : number := Eval vm_compute in parse_string "0.2".
Definition guatemala_lat : number := Eval vm_compute in parse_string "40.97989806962013".
Definition guatemala_lng : number := Eval vm_compute in parse_string "-67.5".

Definition guatemala : Override.t :=
  {| Override.coordinates := {| lat := guatemala_lat; lng := guatemala_lng |};
     Override.tolerance := Some n0_2;
     Override.country := "Guatemala";
     Override.countryCode := "GT";
     Override.additionalInfo :=
       {| tld := Some ".gt";
          drivingSide := Some "right";
          languages := Some ["Spanish"];
          currency := Some "Guatemalan quetzal";
          flagUrl := None;
          continent := Some "North America";
          capital := Some "Guatemala City" |} |}.

Definition COUNTRY_OVERRIDES : list Override.t := [guatemala].

(** [override.tolerance || 0.1] *)
Definition toleranceOf (ov : Override.t) : number :=
  match Override.tolerance ov with
  | Some t => or_default t n0_1
  | None => n0_1
  end.

(** The test of the loop body: both coordinate differences are within the
    tolerance of the entry. *)
Definition withinTolerance (ov : Override.t) (lat0 lng0 : number) : bool :=
  leb (abs (sub lat0 (lat (Override.coordinates ov)))) (toleranceOf ov) &&
  leb (abs (sub lng0 (lng (Override.coordinates ov)))) (toleranceOf ov).

Fixpoint checkCountryOverrideIn (table : list Override.t) (lat0 lng0 : number)
  : option Override.t :=
  match table with
  | [] => None
  | ov :: rest =>
      if withinTolerance ov lat0 lng0 then Some ov
      else checkCountryOverrideIn rest lat0 lng0
  end.

(** [checkCountryOverride(lat, lng)] *)
Definition checkCountryOverride (lat0 lng0 : number) : option Override.t :=
  checkCountryOverrideIn COUNTRY_OVERRIDES lat0 lng0.

(** The country fact every caller builds from a matching entry.  The
    country code of an entry is ASCII, so its [toLowerCase()] is
    [asciiToLowerCase]. *)
Definition overrideCountryData (ov : Override.t) : CountryData.t :=
  {| CountryData.country := Override.country ov;
     CountryData.countryCode := Some (Override.countryCode ov);
     CountryData.state := None;
     CountryData.city := None;
     CountryData.details :=
       Some {| addr_country := Some (Override.country ov);
               addr_country_code := Some (asciiToLowerCase (Override.countryCode ov));
               addr_state := None; addr_county := None; addr_city := None;
               addr_town := None; addr_village := None |};
     CountryData.additionalInfo := Some (Override.additionalInfo ov) |}.

(** ** Round keys *)

(** [generateRoundKey()] *)
Definition generateRoundKey (page : Page) : string :=
  (if truthy (gameId page) then tpl (gameId page) else "unknown")
  ++ "-round-" ++ pretty (currentRoundNumber page).

(** The key a function works on: its argument, or [gameState.currentRoundKey]
    when the argument is missing; [None] when both are. *)
Definition resolveRoundKey (roundKey : option string) (gs : GameState.t) : option string :=
  if truthy roundKey then roundKey
  else if truthy (GameState.currentRoundKey gs) then GameState.currentRoundKey gs
  else None.

(** The update of the record stored under [key], in place. *)
Definition updateRound (key : string) (f : RoundData.t -> RoundData.t) (gs : GameState.t)
  : GameState.t :=
  GameState.set_roundLocations (alter f key (GameState.roundLocations gs)) gs.

(** ** The panorama-id decoder *)

Definition isHexDigit (a : ascii) : bool :=
  let c := code a in
  (((48 <=? c) && (c <=? 57)) || ((97 <=? c) && (c <=? 102)) || ((65 <=? c) && (c <=? 70)))%N%bool.

Definition hexDigitValue (a : ascii) : N :=
  let c := code a in
  if ((48 <=? c) && (c <=? 57))%N%bool then (c - 48)%N
  else if ((97 <=? c) && (c <=? 102))%N%bool then (c - 87)%N
  else (c - 55)%N.

(** [/^[0-9a-fA-F]+$/.test(s)] *)
Fixpoint allHex (s : string) : bool :=
  match s with
  | EmptyString => true
  | String a r => isHexDigit a && allHex r
  end.
Definition isHexString (s : string) : bool := nonempty s && allHex s.

(** [parseInt(seq, 16)] on a string of hexadecimal digits. *)
Fixpoint parseInt16_from (acc : N) (s : string) : N :=
  match s with
  | EmptyString => acc
  | String a r => parseInt16_from (16 * acc + hexDigitValue a)%N r
  end.
Definition parseInt16 (s : string) : N := parseInt16_from 0%N s.

(** [s.substring(i, j)] for [i <= j] *)
Definition substring (i j : nat) (s : string) : string := String.substring i (j - i) s.

(** The [for] loop of the decoder, at index [i] with [gsvPanoId] built so
    far.  On a string of hexadecimal digits [.length] is the number of
    bytes. *)
Fixpoint decodeLoop (fuel : nat) (id : string) (i : nat) (gsvPanoId : string) : string :=
  match fuel with
  | O => gsvPanoId
  | S fuel' =>
      if (i <? String.length id)%nat then
        if (String.length id <=? i + 1)%nat then gsvPanoId
        else
          let seq := substring i (i + 2) id in
          decodeLoop fuel' id (i + 2) (gsvPanoId ++ fromCharCode (parseInt16 seq))
      else gsvPanoId
  end.

(** [panoIdDecoder(geoguessrPanoId)] *)
Definition panoIdDecoder (geoguessrPanoId : option string) : string :=
  match geoguessrPanoId with
  | None => ""
  | Some id =>
      if negb (nonempty id) then ""
      else if negb (isHexString id) then ""
      else decodeLoop (String.length id) id 0 ""
  end.

(** ** Clue synthesis *)

(** [arraysHaveSameElements(arr1, arr2)] on two arrays: [set1] is
    [new Set(arr1)]. *)
Definition arraysHaveSameElements (arr1 arr2 : list string) : bool :=
  if negb (length arr1 =? length arr2)%nat then false
  else
    let set1 : gset string := list_to_set arr1 in
    forallb (fun item => bool_decide (item ∈ set1)) arr2.

Definition drivingSideOf (cd : CountryData.t) : option string :=
  match CountryData.additionalInfo cd with Some ai => drivingSide ai | None => None end.

Section Clues.
Variable rd : RoundData.t.

Let country : string := tpl (RoundData.country rd).
Let guessCountry : string := tpl (RoundData.guessCountry rd).

(** Both [countryData.additionalInfo] and [guessCountryData.additionalInfo],
    when both country facts and both enrichments are there. *)
Definition bothInfos : option (AdditionalInfo * AdditionalInfo) :=
    match RoundData.countryData rd, RoundData.guessCountryData rd with
    | Some cd, Some gcd =>
        match CountryData.additionalInfo cd, CountryData.additionalInfo gcd with
        | Some ai, Some gai => Some (ai, gai)
        | _, _ => None
        end
    | _, _ => None
    end.

Definition drivingSideClue : option Clue :=
    match bothInfos with
    | Some (ai, gai) =>
        if strict_ne (drivingSide ai) (drivingSide gai) then
          Some {| category := "Driving Side";
                  clue := country ++ " drives on the " ++ tpl (drivingSide ai)
                          ++ " side of the road (" ++ guessCountry ++ " drives on the "
                          ++ tpl (drivingSide gai) ++ " side)." |}
        else None
    | None => None
    end.

Definition languageClue : option Clue :=
    match bothInfos with
    | Some (ai, gai) =>
        match languages ai, languages gai with
        | Some actualLangs, Some guessLangs =>
            if negb (arraysHaveSameElements actualLangs guessLangs) then
              Some {| category := "Language";
                      clue := country ++ "'s language(s): " ++ join ", " actualLangs
                              ++ " (different from " ++ guessCountry ++ "'s: "
                              ++ join ", " guessLangs ++ ")" |}
            else None
        | _, _ => None
        end
    | None => None
    end.

Definition tldClue : option Clue :=
    match bothInfos with
    | Some (ai, gai) =>
        if strict_ne (tld ai) (tld gai) then
          Some {| category := "Internet TLD";
                  clue := country ++ "'s internet domain is " ++ tpl (tld ai) ++ " ("
                          ++ guessCountry ++ "'s is " ++ tpl (tld gai) ++ ")." |}
        else None
    | None => None
    end.

Definition regionClue : option Clue :=
    match RoundData.locationOverview rd with
    | Some ov =>
        if truthy (region ov) then
          Some {| category := "Geographic Region";
                  clue := "This location is in the " ++ tpl (region ov) ++ " region of "
                          ++ country ++ "." |}
        else None
    | None => None
    end.

Definition coverageClue : option Clue :=
    match RoundData.locationOverview rd with
    | Some ov =>
        match coverage_type ov with
        | Some ty =>
            if truthy ty then
              Some {| category := "Coverage Type";
                      clue := "This is " ++ tpl ty ++ " coverage in " ++ country ++ "." |}
            else None
        | None => None
        end
    | None => None
    end.

Definition genericClue : Clue :=
    {| category := "General Appearance";
       clue := "Pay closer attention to license plates, road markings, and signage in "
               ++ country ++ " to distinguish it from " ++ guessCountry ++ "." |}.

Definition fallbackClue : Clue :=
    {| category := "General";
       clue := "Pay attention to distinctive features in "
               ++ (if truthy (RoundData.country rd) then country else "this country") ++ "." |}.

(** The conditional pushes of the [try] block, in the order of the text;
    [None] where the condition of a push fails. *)
Definition conditionalPushes : list (option Clue) :=
    [drivingSideClue; languageClue; tldClue; regionClue; coverageClue].

(** [missedClues] after the pushes, and the generic reminder behind them
    when there are fewer than two. *)
Definition withGeneric (pushed : list Clue) : list Clue :=
    if (length pushed <? 2)%nat then pushed ++ [genericClue] else pushed.

(** The guard of the [try] block. *)
Definition countriesDiffer : bool :=
    truthy (RoundData.country rd) && truthy (RoundData.guessCountry rd) &&
    strict_ne (RoundData.country rd) (RoundData.guessCountry rd).

(** The [try]/[catch] of [prepareCountryClues], from [missedClues = []].
    On the records of this model no statement of the block throws;
    [fault = Some k] lets the [k]-th statement of the guarded block throw
    (0 to 4: the conditional pushes, 5: the generic reminder), so that the
    [catch] handler, which pushes the fallback clue behind what was pushed
    so far, can be reasoned about.  The guard itself only reads fields. *)
Definition generateClues (fault : option nat) : list Clue :=
    if countriesDiffer then
      match fault with
      | Some k =>
          if (k <? 6)%nat then omap id (take k conditionalPushes) ++ [fallbackClue]
          else withGeneric (omap id conditionalPushes)
      | None => withGeneric (omap id conditionalPushes)
      end
    else [].
End Clues.

(** [prepareCountryClues(roundKey)] *)
Definition prepareCountryClues (fault : option nat) (roundKey : option string)
    (gs : GameState.t) : GameState.t :=
  match resolveRoundKey roundKey gs with
  | None => gs
  | Some key =>
      match GameState.roundLocations gs !! key with
      | None => gs
      | Some roundData =>
          let missedClues := generateClues roundData fault in
          GameState.set_missedClues missedClues
            (updateRound key (RoundData.set_missedClues (Some missedClues)) gs)
      end
  end.

(** ** The location overview *)

(** A suspended [fetchLocationOverview]: the [.then] callback keeps
    [roundKey] and the record it was looked up with. *)
Inductive OverviewTask : Type :=
| AwaitOverview (roundKey : string) (token : string) (round : nat).

Definition overviewRequest (t : OverviewTask) : Request :=
  match t with AwaitOverview _ token round => LocationOverview token round end.

(** [fetchLocationOverview(roundKey)]: the new state and the request that
    was sent, if one was. *)
Definition fetchLocationOverview (page : Page) (roundKey : option string)
    (gs : GameState.t) : GameState.t * option OverviewTask :=
  match resolveRoundKey roundKey gs with
  | None => (gs, None)
  | Some key =>
      match GameState.roundLocations gs !! key with
      | None => (gs, None)
      | Some roundData =>
          if negb (truthy (RoundData.country roundData))
             || negb (truthy (RoundData.guessCountry roundData)) then (gs, None)
          else if bool_decide (is_Some (RoundData.locationOverview roundData)) then (gs, None)
          else
            let gameToken :=
              if truthy (gameToken page) then tpl (gameToken page)
              else if truthy (GameState.gameDataToken gs) then tpl (GameState.gameDataToken gs)
              else "" in
            if negb (nonempty gameToken) then (prepareCountryClues None (Some key) gs, None)
            else (gs, Some (AwaitOverview key gameToken (currentRoundNumber page)))
      end
  end.

(** The [.then] callback of [fetchLocationOverview], with the answer
    ([None]: the call failed or timed out). *)
Definition resumeOverview (t : OverviewTask) (data : option Overview) (gs : GameState.t)
  : GameState.t :=
  match t with
  | AwaitOverview roundKey _ _ =>
      match data with
      | None => prepareCountryClues None (Some roundKey) gs
      | Some _ =>
          prepareCountryClues None (Some roundKey)
            (GameState.set_locationOverview data
               (updateRound roundKey (RoundData.set_locationOverview data) gs))
      end
  end.

(** ** The card compiler *)

(** What [buildAnkiCardData] returns. *)
Record CardData : Type := mkCardData {
  frontField : string;
  backField : string;
  mapsLink : string;
  card_actualCountry : option string;
  card_guessCountry : option string;
  card_roundKey : string }.

(** The pictographs of the card text; the two versions of the script differ
    in the bytes of these literals only. *)
Record Glyphs : Type := mkGlyphs {
  g_globe : string; g_link : string; g_check : string; g_cross : string;
  g_pin : string; g_earth : string; g_car : string; g_stop : string;
  g_bolt : string; g_arrow : string }.

Section CardCompiler.
Variable B : Builtins.
Variable glyphs : Glyphs.

Definition simpleLink (c : Coordinate) : string :=
    "https://www.google.com/maps/@" ++ toFixed6 B (lat c) ++ "," ++ toFixed6 B (lng c)
    ++ ",3a,90y,0h,0t/data=!3m1!1e1".

(** [createStreetViewLink(lat, lng, panoId, heading, pitch, zoom)], called
    with all six arguments. *)
Definition createStreetViewLink (lat0 lng0 : jsval) (panoId : option string)
      (heading pitch zoom : number) : string :=
    match sanitizeCoordinates lat0 lng0 with
    | None => "#"
    | Some coords =>
        let heading := or_default (parseFloat (JNum heading)) zero in
        let pitch := or_default (parseFloat (JNum pitch)) zero in
        let zoom := or_default (parseFloat (JNum zoom)) n1 in
        let heading := remainder B (add (remainder B heading n360) n360) n360 in
        let pitch := Math_max neg90 (Math_min n90 pitch) in
        let zoom := Math_max zero (Math_min n4 zoom) in
        if negb (truthy panoId) then simpleLink coords
        else
          let pid := panoIdDecoder panoId in
          if negb (nonempty pid) then simpleLink coords
          else
            let h := div (Math_round B (mul heading n100)) n100 in
            let p := div (Math_round B (mul (add n90 pitch) n100)) n100 in
            let z := div (Math_round B (mul (sub n90 (mul (div zoom n2_75) n90)) n10)) n10 in
            "https://www.google.com/maps/@" ++ toFixed6 B (lat coords) ++ ","
            ++ toFixed6 B (lng coords) ++ ",3a," ++ numberToString B z ++ "y,"
            ++ numberToString B h ++ "h," ++ numberToString B p
            ++ "t/data=!3m6!1e1!3m4!1s" ++ encodeURIComponent B pid ++ "!2e0!7i13312!8i6656"
    end.

Definition specificCategory (c : string) : bool :=
    bool_decide (c ∈ ["Driving Side"; "Language"; "Coverage Type"]).

(** The [for] loop of [getSingleDistinctiveClue]: [Some] for a [return]
    from inside the loop. *)
Fixpoint firstSpecificClue (clues : list Clue) : option string :=
    match clues with
    | [] => None
    | c :: rest =>
        if specificCategory (category c) then
          match match_detail B (clue c) with
          | Some d =>
              if nonempty d then Some d
              else
                let shortClue := trim (split_first "(" (clue c)) in
                if (js_length shortClue <? 50)%nat then Some shortClue
                else firstSpecificClue rest
          | None =>
              let shortClue := trim (split_first "(" (clue c)) in
              if (js_length shortClue <? 50)%nat then Some shortClue
              else firstSpecificClue rest
          end
        else firstSpecificClue rest
    end.

Definition drivingSideFallback (roundData : RoundData.t) : string :=
    match RoundData.countryData roundData with
    | Some cd =>
        match CountryData.additionalInfo cd with
        | Some ai =>
            if strict_ne (drivingSide ai) (Some "Unknown")
            then "drives on the " ++ tpl (drivingSide ai) ++ " side"
            else "distinctive local features"
        | None => "distinctive local features"
        end
    | None => "distinctive local features"
    end.

(** [getSingleDistinctiveClue(roundKey)] *)
Definition getSingleDistinctiveClue (roundKey : option string) (gs : GameState.t) : string :=
    match resolveRoundKey roundKey gs with
    | None => "distinctive local features"
    | Some key =>
        match GameState.roundLocations gs !! key with
        | None => "distinctive local features"
        | Some roundData =>
            match RoundData.missedClues roundData with
            | Some (first :: rest) =>
                match firstSpecificClue (first :: rest) with
                | Some s => s
                | None =>
                    if nonempty (clue first) then
                      let shortened := split_first "." (clue first) in
                      if (js_length shortened <? 40)%nat then shortened
                      else "different road markings or signs"
                    else drivingSideFallback roundData
                end
            | _ => drivingSideFallback roundData
            end
        end
    end.

Definition cityOf (cd : option CountryData.t) : string :=
    match cd with
    | Some d => if truthy (CountryData.city d) then tpl (CountryData.city d) else "Unknown location"
    | None => "Unknown location"
    end.

Definition infoOr (f : AdditionalInfo -> option string) (cd : option CountryData.t) : string :=
    match cd with
    | Some d =>
        match CountryData.additionalInfo d with
        | Some ai => if truthy (f ai) then tpl (f ai) else "Unknown"
        | None => "Unknown"
        end
    | None => "Unknown"
    end.

(** The Street View link of the card, ["#"] when the record has no valid
    location. *)
Definition cardMapsLink (roundData : RoundData.t) : string :=
    if isValidCoordinate (RoundData.location roundData) then
      match RoundData.location roundData with
      | Some loc =>
          let lat0 := toFixed6 B (lat loc) in
          let lng0 := toFixed6 B (lng loc) in
          let link :=
            if truthy (RoundData.panoId roundData) then
              createStreetViewLink (JStr lat0) (JStr lng0) (RoundData.panoId roundData)
                (or_default (RoundData.heading roundData) zero)
                (or_default (RoundData.pitch roundData) zero)
                (or_default (RoundData.zoom roundData) zero)
            else "https://www.google.com/maps/@" ++ lat0 ++ "," ++ lng0
                 ++ ",3a,90y,0h,0t/data=!3m1!1e1" in
          if negb (nonempty link) || bool_decide (link = "#") || negb (startsWith "http" link)
          then "https://www.google.com/maps/@" ++ lat0 ++ "," ++ lng0 ++ ",12z"
          else link
      | None => "#"
      end
    else "#".

Definition clueItem (c : Clue) : string :=
    if nonempty (category c) && nonempty (clue c) then
      "<li><strong>" ++ category c ++ ":</strong> " ++ clue c ++ "</li>"
    else "".

(** The body of [buildAnkiCardData] behind its guards, on the record
    [roundData] stored under [roundKey].  [useDefaults] is the parameter of
    version 1.1.0; the text of version 1.0.0 is the case [false]. *)
Definition compileCard (settings : Settings) (useDefaults : bool) (roundKey : string)
      (roundData : RoundData.t) (gs : GameState.t) : CardData :=
    let country := tpl (RoundData.country roundData) in
    let guessCountry := tpl (RoundData.guessCountry roundData) in
    let mapsLink := cardMapsLink roundData in
    let guessCity := cityOf (RoundData.guessCountryData roundData) in
    let actualCity := cityOf (RoundData.countryData roundData) in
    let continent := infoOr continent (RoundData.countryData roundData) in
    let drivingSide := infoOr drivingSide (RoundData.countryData roundData) in
    let hasLink := nonempty mapsLink && negb (bool_decide (mapsLink = "#")) in
    let question :=
      "You guessed " ++ guessCountry ++ ", but the correct answer was " ++ country
      ++ ". What clues did you miss? " ++ g_globe glyphs in
    let frontField :=
      if hasLink && negb (hideLocationInFrontCard settings) then
        question ++ "<br><br>
" ++ g_link glyphs ++ " <a href=" ++ dq ++ mapsLink ++ dq ++ " target=" ++ dq ++ "_blank" ++ dq
        ++ ">Google Maps Link: View Correct Location</a>"
      else question in
    let flagHtml :=
      match RoundData.countryData roundData with
      | Some cd =>
          if truthy (CountryData.countryCode cd) then
            let flagUrl := "https://flagcdn.com/w320/"
                           ++ toLowerCase B (tpl (CountryData.countryCode cd)) ++ ".png" in
            " <img src=" ++ dq ++ flagUrl ++ dq ++ " class=" ++ dq ++ "flag-image" ++ dq
            ++ " alt=" ++ dq ++ "Flag of " ++ country ++ dq ++ " onerror=" ++ dq
            ++ "this.style.display='none'" ++ dq ++ ">"
          else ""
      | None => ""
      end in
    let backField :=
      "<h3>" ++ g_check glyphs ++ " Correct Answer: <strong>" ++ country ++ "</strong>"
      ++ flagHtml ++ "</h3>
<h3>" ++ g_cross glyphs ++ " Mistake: Guessed " ++ guessCountry ++ "</h3>

<p>" ++ g_pin glyphs ++ " <strong>Your Guess:</strong> " ++ guessCity ++ ", <strong>"
      ++ guessCountry ++ "</strong></p>
<p>" ++ g_pin glyphs ++ " <strong>Correct Location:</strong> " ++ actualCity ++ ", <strong>"
      ++ country ++ "</strong></p>" in
    let backField :=
      if hasLink then
        backField ++ "
<p>" ++ g_link glyphs ++ " <a href=" ++ dq ++ mapsLink ++ dq ++ " target=" ++ dq ++ "_blank" ++ dq
        ++ ">View on Google Maps</a></p>"
      else backField in
    let backField :=
      backField ++ "
<p>" ++ g_earth glyphs ++ " <strong>Continent:</strong> <strong>" ++ continent ++ "</strong></p>
<p>" ++ g_car glyphs ++ " <strong>Driving Side:</strong> <strong>" ++ drivingSide
      ++ "</strong></p>" in
    let backField :=
      if nonempty (GameState.userMissedClues gs)
         && nonempty (trim (GameState.userMissedClues gs)) && negb useDefaults then
        backField ++ "
<h3>" ++ g_stop glyphs ++ " Key Clues You Missed:</h3>
<p>" ++ GameState.userMissedClues gs ++ "</p>"
      else
        backField ++ "
<h3>" ++ g_stop glyphs ++ " Key Clues You Missed:</h3>
<ul>"
        ++ match RoundData.missedClues roundData with
           | Some (c :: rest) => String.concat "" (map clueItem (c :: rest))
           | _ => "<li><strong>General:</strong> Pay attention to distinctive features in "
                  ++ country ++ ".</li>"
           end
        ++ "</ul>" in
    let backField :=
      if nonempty (GameState.userReminder gs)
         && nonempty (trim (GameState.userReminder gs)) && negb useDefaults then
        backField ++ "
<h3>Next Time, Remember:</h3>
<p>" ++ g_bolt glyphs ++ " <em>" ++ GameState.userReminder gs ++ "</em></p>"
      else
        backField ++ "
<h3>Next Time, Remember:</h3>
<p>" ++ g_bolt glyphs ++ " <em>" ++ dq ++ "If it looks like " ++ guessCountry ++ " but has "
        ++ getSingleDistinctiveClue (Some roundKey) gs ++ " " ++ g_arrow glyphs ++ " Think "
        ++ country ++ "!" ++ dq ++ "</em></p>" in
    {| frontField := frontField;
       backField := backField;
       mapsLink := mapsLink;
       card_actualCountry := RoundData.country roundData;
       card_guessCountry := RoundData.guessCountry roundData;
       card_roundKey := roundKey |}.
End CardCompiler.

(** ** Reverse geocoding, the part both versions share *)

(** [a || b] and [a || b || null] on string fields. *)
Definition orElse (a b : option string) : option string :=
  if truthy a then a else if truthy b then b else None.

Definition defaultAdditionalInfo : AdditionalInfo :=
  {| tld := Some "Unknown"; drivingSide := Some "Unknown"; languages := Some ["Unknown"];
     currency := Some "Unknown"; flagUrl := None; continent := Some "Unknown";
     capital := Some "Unknown" |}.

Definition firstOr (l : option (list string)) : option string :=
  match l with
  | Some (x :: _) => Some x
  | _ => Some "Unknown"
  end.

(** The enrichment built from the answer of the enrichment service, inside
    its own [try]: [None] when [Object.values(currencies)[0].name] throws. *)
Definition enrichmentOf (B : Builtins) (countryCode : string) (countryData : RestCountry)
  : option AdditionalInfo :=
  match
    match rc_currencies countryData with
    | Some (name :: _) => Some name
    | Some [] => None
    | None => Some (Some "Unknown")
    end
  with
  | None => None
  | Some currency0 =>
      Some {| tld := firstOr (rc_tld countryData);
              drivingSide := if truthy (rc_car_side countryData) then rc_car_side countryData
                             else Some "Unknown";
              languages := match rc_languages countryData with
                           | Some l => Some l
                           | None => Some ["Unknown"]
                           end;
              currency := currency0;
              flagUrl := Some ("https://flagcdn.com/w320/" ++ toLowerCase B countryCode
                              ++ ".png");
              continent := firstOr (rc_continents countryData);
              capital := firstOr (rc_capital countryData) |}
  end.

(** [additionalInfo] behind the second [await]. *)
Definition additionalInfoFrom (B : Builtins) (countryCode : string)
    (restData : option (list RestCountry))
  : AdditionalInfo :=
  match restData with
  | Some (countryData :: _) =>
      match enrichmentOf B countryCode countryData with
      | Some ai => ai
      | None => defaultAdditionalInfo
      end
  | _ => defaultAdditionalInfo
  end.

(** [result] *)
Definition geocodingResult (addr : Address) (country : string) (countryCode : option string)
    (ai : AdditionalInfo) : CountryData.t :=
  {| CountryData.country := country;
     CountryData.countryCode := countryCode;
     CountryData.state := orElse (addr_state addr) (addr_county addr);
     CountryData.city := orElse (addr_city addr) (orElse (addr_town addr) (addr_village addr));
     CountryData.details := Some addr;
     CountryData.additionalInfo := Some ai |}.

(** An [async] geocoding function suspended at one of its two [await]s. *)
Inductive Geocoding : Type :=
| AwaitNominatim (coords : Coordinate)
| AwaitRestCountries (addr : Address) (country : string) (countryCode : string).

Definition geocodingRequest (t : Geocoding) : Request :=
  match t with
  | AwaitNominatim coords => NominatimReverse coords
  | AwaitRestCountries _ _ countryCode => RestCountriesAlpha countryCode
  end.

(** From the answer of the geocoding service to the second [await], or to
    the result when there is no country code to enrich ([inl]); [None] is
    the [return null] of a failed call or an answer without a country. *)
Definition readNominatim (B : Builtins) (data : option NominatimData)
  : option (CountryData.t + Geocoding) :=
  match data with
  | None => None
  | Some d =>
      match address d with
      | None => None
      | Some addr =>
          if negb (truthy (addr_country addr)) then None
          else
            let country := tpl (addr_country addr) in
            if truthy (addr_country_code addr) then
              let countryCode := toUpperCase B (tpl (addr_country_code addr)) in
              if nonempty countryCode
              then Some (inr (AwaitRestCountries addr country countryCode))
              else Some (inl (geocodingResult addr country (Some countryCode)
                                defaultAdditionalInfo))
            else Some (inl (geocodingResult addr country None defaultAdditionalInfo))
      end
  end.

(** ** The end of a round, the part both versions share *)

(** The record [handleRoundEnd] creates for a key that has none. *)
Definition recordFromState (gs : GameState.t) : RoundData.t :=
  {| RoundData.panoId := GameState.panoId gs;
     RoundData.location := GameState.actualLocation gs;
     RoundData.heading := GameState.heading gs;
     RoundData.pitch := GameState.pitch gs;
     RoundData.zoom := GameState.zoom gs;
     RoundData.country := GameState.actualCountry gs;
     RoundData.countryData := GameState.countryData gs;
     RoundData.guessLocation := GameState.guessLocation gs;
     RoundData.guessCountry := GameState.guessCountry gs;
     RoundData.guessCountryData := GameState.guessCountryData gs;
     RoundData.score := GameState.score gs;
     RoundData.missedClues := Some (GameState.missedClues gs);
     RoundData.locationOverview := GameState.locationOverview gs;
     RoundData.cardCreated := false |}.

Definition ensureRecord (roundKey : string) (gs : GameState.t) : GameState.t :=
  match GameState.roundLocations gs !! roundKey with
  | Some _ => gs
  | None =>
      GameState.set_roundLocations
        (<[roundKey := recordFromState gs]> (GameState.roundLocations gs)) gs
  end.

Definition domCountryData (extractedCountry : string) : CountryData.t :=
  {| CountryData.country := extractedCountry;
     CountryData.countryCode := None;
     CountryData.state := None;
     CountryData.city := None;
     CountryData.details := None;
     CountryData.additionalInfo :=
       Some {| tld := None; drivingSide := Some "Unknown"; languages := None;
               currency := None; flagUrl := None; continent := Some "Unknown";
               capital := None |} |}.

Definition emptyAdditionalInfo : AdditionalInfo :=
  {| tld := None; drivingSide := None; languages := None; currency := None;
     flagUrl := None; continent := None; capital := None |}.

Definition domGuessData (guessCountry : string) : CountryData.t :=
  {| CountryData.country := guessCountry;
     CountryData.countryCode := None;
     CountryData.state := None;
     CountryData.city := None;
     CountryData.details := None;
     CountryData.additionalInfo := Some emptyAdditionalInfo |}.

(** The DOM fallback of [handleRoundEnd], entered when the record has no
    country. *)
Definition domFallback (page : Page) (roundKey : string) (gs : GameState.t) : GameState.t :=
  match GameState.roundLocations gs !! roundKey with
  | Some roundData =>
      if negb (truthy (RoundData.country roundData)) then
        if truthy (domCountry page) then
          let extractedCountry := tpl (domCountry page) in
          let gs1 :=
            GameState.set_actualCountry (Some extractedCountry)
              (updateRound roundKey (RoundData.set_country (Some extractedCountry)) gs) in
          let gs2 :=
            match RoundData.countryData roundData with
            | Some _ => gs1
            | None =>
                GameState.set_countryData (Some (domCountryData extractedCountry))
                  (updateRound roundKey
                     (RoundData.set_countryData (Some (domCountryData extractedCountry))) gs1)
            end in
          let gs3 :=
            match domGuess page with
            | Some guessCountry =>
                GameState.set_guessCountryData (Some (domGuessData guessCountry))
                  (GameState.set_guessCountry (Some guessCountry)
                     (updateRound roundKey
                        (fun r => RoundData.set_guessCountryData (Some (domGuessData guessCountry))
                                    (RoundData.set_guessCountry (Some guessCountry) r))
                        gs2))
            | None => gs2
            end in
          match RoundData.missedClues roundData with
          | Some (_ :: _) => gs3
          | _ => prepareCountryClues None (Some roundKey) gs3
          end
        else gs
      else gs
  | None => gs
  end.

(** ** The debug log *)

(** The object [DEBUG]: its flag, its buffer and the bound of the buffer. *)
Module Debug.

(** The last field of an entry: [data] for [log] and [warn], [error] for
    [error]; [None] is [null]. *)
Inductive Payload : Type :=
| DataField (data : option string)
| ErrorField (error : option string).

Record Entry : Type := mkEntry {
  time : string;
  level : string;
  message : string;
  payload : Payload }.

Record t : Type := mk { enabled : bool; logs : list Entry; maxLogs : nat }.

(** [arr.slice(-n)]: the last [n] elements, and all of them when there are
    fewer; [slice(-0)] is [slice(0)], the whole array. *)
Definition sliceFromEnd {A : Type} (n : nat) (arr : list A) : list A :=
  if (n =? 0)%nat then arr else drop (length arr - n) arr.

(** [trimLogs()] *)
Definition trimLogs (d : t) : t :=
  if (maxLogs d <? length (logs d))%nat then
    {| enabled := enabled d; logs := sliceFromEnd (maxLogs d) (logs d); maxLogs := maxLogs d |}
  else d.

(** [this.logs.push(entry); this.trimLogs()] *)
Definition push (entry : Entry) (d : t) : t :=
  trimLogs {| enabled := enabled d; logs := (logs d ++ [entry])%list; maxLogs := maxLogs d |}.

(** [log(message, data)] at the time [timestamp]; [data] is the value of
    [data ? JSON.stringify(data) : null]. *)
Definition log (timestamp message : string) (data : option string) (d : t) : t :=
  if negb (enabled d) then d
  else push {| time := timestamp; level := "INFO"; message := message;
               payload := DataField data |} d.

(** [error(message, error)]; [err] is the value of
    [error ? (error.stack || error.toString()) : null].  Errors are logged
    whatever the flag. *)
Definition error (timestamp message : string) (err : option string) (d : t) : t :=
  push {| time := timestamp; level := "ERROR"; message := message;
          payload := ErrorField err |} d.

(** [warn(message, data)] *)
Definition warn (timestamp message : string) (data : option string) (d : t) : t :=
  if negb (enabled d) then d
  else push {| time := timestamp; level := "WARN"; message := message;
               payload := DataField data |} d.

(** [DEBUG.enabled = checked], the assignment of the settings panel. *)
Definition setEnabled (checked : bool) (d : t) : t :=
  {| enabled := checked; logs := logs d; maxLogs := maxLogs d |}.

End Debug.

(** ** What the script reads from the document *)

(** The address of the page and the elements the round detection queries,
    each element given by whether it is rendered
    ([el.offsetParent !== null]), in document order. *)
Record Dom : Type := mkDom {
  href : string;                  (* [window.location.href] *)
  resultElements : list bool;     (* [querySelectorAll] of the result-screen selectors *)
  nextRoundButton : option bool;  (* [querySelector] of the next-round button *)
  gameplayElements : list bool    (* [querySelectorAll] of the gameplay selectors *) }.

(** [isInGame()] *)
Definition isInGame (dom : Dom) : bool :=
  includes "/game/" (href dom) || includes "/challenge/" (href dom)
  || includes "/duel/" (href dom) || includes "/battle-royale/" (href dom).

(** [isRoundEnded()] *)
Definition isRoundEnded (dom : Dom) : bool :=
  if existsb id (resultElements dom) then true
  else
    match nextRoundButton dom with
    | Some rendered => rendered
    | None => false
    end.

(** [isInActiveRound()] *)
Definition isInActiveRound (dom : Dom) : bool :=
  if negb (isInGame dom) then false
  else if isRoundEnded dom then false
  else existsb id (gameplayElements dom).

(** [isBetweenRounds()] *)
Definition isBetweenRounds (dom : Dom) : bool := isInGame dom && isRoundEnded dom.

(** [getGameType()]; [None] is [null]. *)
Definition getGameType (dom : Dom) : option string :=
  if negb (isInGame dom) then None
  else if includes "/battle-royale/" (href dom) then Some "battle-royale"
  else if includes "/duel/" (href dom) then Some "duel"
  else if includes "/challenge/" (href dom) then Some "challenge"
  else Some "standard".

(** The record the game loop and the interceptors of the game API create
    for a round that has none, with all its fields. *)
Definition newRoundRecord : RoundData.t :=
  {| RoundData.panoId := None; RoundData.location := None;
     RoundData.heading := zero; RoundData.pitch := zero; RoundData.zoom := zero;
     RoundData.country := None; RoundData.countryData := None;
     RoundData.guessLocation := None; RoundData.guessCountry := None;
     RoundData.guessCountryData := None; RoundData.score := Some zero;
     RoundData.missedClues := Some []; RoundData.locationOverview := None;
     RoundData.cardCreated := false |}.

(** ** Notes for Anki *)

(** [ANKI deck and note type], read from the settings when the script
    starts. *)
Record AnkiConfig : Type := mkAnkiConfig { DECK_NAME : string; MODEL_NAME : string }.

(** The note of an [addNote] request.  [fields] is a JS object used as a
    map from field names to texts. *)
Record Note : Type := mkNote {
  deckName : string;
  modelName : string;
  fields : gmap string string }.

(** [obj[key] = value] on an object created by [{}]: the key [__proto__]
    reaches the accessor of [Object.prototype], which ignores a string, so
    no property is created for it. *)
Definition assignField (key value : string) (obj : gmap string string) : gmap string string :=
  if bool_decide (key = "__proto__") then obj else <[key := value]> obj.

Section NoteFields.
(** [String.prototype.toLowerCase], which is not spelled out here: the
    names of the fields of a note type may hold any character. *)
Variable toLowerCaseJs : string -> string.
Variables Front Back : string.   (* [note.fields.Front], [note.fields.Back] *)

(** The text the [forEach] callback of [sendNoteToAnki] gives the field
    [field]. *)
Definition fieldText (field : string) : string :=
  let fieldLower := toLowerCaseJs field in
  if bool_decide (fieldLower = "front") || includes "question" fieldLower then Front
  else if bool_decide (fieldLower = "back") || includes "answer" fieldLower then Back
  else "".

(** [adaptedFields] for the fields [availableFields] of the note type. *)
Definition adaptFields (availableFields : list string) : gmap string string :=
  if bool_decide ("Front" ∈ availableFields) && bool_decide ("Back" ∈ availableFields) then
    <["Back" := Back]> (<["Front" := Front]> ∅)
  else
    foldl (fun adaptedFields field => assignField field (fieldText field) adaptedFields)
          ∅ availableFields.

(** The first [.then] callback of [sendNoteToAnki], on the answer
    [{error, result}] of [modelFieldNames]: the note of the [addNote]
    request it sends, if it sends one.  With [result] missing the call of
    [includes] throws and the [.catch] handler only notifies. *)
Definition adaptedNote (cfg : AnkiConfig) (error : option string)
    (result : option (list string)) : option Note :=
  if truthy error then None
  else
    match result with
    | None => None
    | Some availableFields =>
        Some {| deckName := DECK_NAME cfg; modelName := MODEL_NAME cfg;
                fields := adaptFields availableFields |}
    end.
End NoteFields.

(** The second [.then] callback of [sendNoteToAnki], on the answer of
    [addNote]: [None] when there is none (the first callback returned
    nothing), [Some error] with its [error] field otherwise. *)
Definition noteAdded (addResult : option (option string)) (roundKey : string)
    (gs : GameState.t) : GameState.t :=
  match addResult with
  | None => gs
  | Some error =>
      if truthy error then gs
      else
        let gs :=
          if nonempty roundKey then
            updateRound roundKey (RoundData.set_cardCreated true)
              (GameState.set_cardCreatedForRound true gs)
          else gs in
        GameState.set_userReminder "" (GameState.set_userMissedClues "" gs)
  end.

(** The country fact the card dialogs build for a guess the user typed. *)
Definition typedGuessData (guess : string) : CountryData.t :=
  {| CountryData.country := guess;
     CountryData.countryCode := None;
     CountryData.state := None;
     CountryData.city := Some "Unknown location";
     CountryData.details := None;
     CountryData.additionalInfo := Some emptyAdditionalInfo |}.

(** The DOM fallback of the card dialogs for a record without a country:
    [None] where they give up. *)
Definition countryFromDom (page : Page) (roundKey : string) (roundData : RoundData.t)
    (gs : GameState.t) : option GameState.t :=
  if negb (truthy (RoundData.country roundData)) then
    if truthy (domCountry page) then
      let extractedCountry := tpl (domCountry page) in
      let gs :=
        GameState.set_actualCountry (Some extractedCountry)
          (updateRound roundKey (RoundData.set_country (Some extractedCountry)) gs) in
      match RoundData.countryData roundData with
      | Some _ => Some gs
      | None =>
          Some (GameState.set_countryData (Some (domCountryData extractedCountry))
                  (updateRound roundKey
                     (RoundData.set_countryData (Some (domCountryData extractedCountry))) gs))
      end
    else None
  else Some gs.

(** ** Version 1.0.0 *)

Module V100.

Definition glyphs : Glyphs :=
  {| g_globe := "🌍";
     g_link := "🔗";
     g_check := "✅";
     g_cross := "❌";
     g_pin := "📍";
     g_earth := "🌎";
     g_car := "🚗";
     g_stop := "🛑";
     g_bolt := "⚡";
     g_arrow := "→" |}.

(** What a call of [getCountryInfoFromCoordinates] has come to: its promise
    is resolved, or it waits for the answer of a request. *)
Inductive Outcome : Type :=
| Resolved (result : option CountryData.t)
| Suspended (task : Geocoding).

(** [getCountryInfoFromCoordinates(lat, lng)], up to its first [await]. *)
Definition getCountryInfoFromCoordinates (lat0 lng0 : number) : Outcome :=
  match sanitizeCoordinates (JNum lat0) (JNum lng0) with
  | None => Resolved None
  | Some coords =>
      match checkCountryOverride lat0 lng0 with
      | Some override => Resolved (Some (overrideCountryData override))
      | None => Suspended (AwaitNominatim coords)
      end
  end.

(** The same function resumed with the answer it waited for. *)
Definition afterNominatim (B : Builtins) (data : option NominatimData) : Outcome :=
  match readNominatim B data with
  | None => Resolved None
  | Some (inl result) => Resolved (Some result)
  | Some (inr task) => Suspended task
  end.

Definition afterRestCountries (B : Builtins) (addr : Address) (country countryCode : string)
    (restData : option (list RestCountry)) : Outcome :=
  Resolved (Some (geocodingResult addr country (Some countryCode)
                    (additionalInfoFrom B countryCode restData))).





(** The country a geocoding call of [processLocationData] is for. *)
Inductive Role : Type := GuessRole | ActualRole.

(** The [.then] callbacks of [processLocationData], which captured
    [roundData] and [roundKey] when the call was made: the answer is
    written to that record, whatever the current round is when it comes,
    and to [gameState].  The record object stays in [roundLocations] under
    its key, so the lookup finds it. *)
Definition locationCallback (role : Role) (roundKey : string)
    (countryData : option CountryData.t) (page : Page) (gs : GameState.t)
  : GameState.t * option OverviewTask :=
  match countryData with
  | None => (gs, None)
  | Some cd =>
      match role with
      | GuessRole =>
          let gs :=
            updateRound roundKey
              (fun r => RoundData.set_guessCountry (Some (CountryData.country cd))
                          (RoundData.set_guessCountryData (Some cd) r)) gs in
          let gs :=
            GameState.set_guessCountry (Some (CountryData.country cd))
              (GameState.set_guessCountryData (Some cd) gs) in
          match GameState.roundLocations gs !! roundKey with
          | Some r =>
              if truthy (RoundData.country r)
              then fetchLocationOverview page (Some roundKey) gs
              else (gs, None)
          | None => (gs, None)
          end
      | ActualRole =>
          let gs :=
            updateRound roundKey
              (fun r => RoundData.set_country (Some (CountryData.country cd))
                          (RoundData.set_countryData (Some cd) r)) gs in
          let gs :=
            GameState.set_actualCountry (Some (CountryData.country cd))
              (GameState.set_countryData (Some cd) gs) in
          match GameState.roundLocations gs !! roundKey with
          | Some r =>
              if truthy (RoundData.guessCountry r)
              then fetchLocationOverview page (Some roundKey) gs
              else (gs, None)
          | None => (gs, None)
          end
      end
  end.


(** A geocoding call of [processLocationData] with what its callback
    captured. *)
Record LocationCall : Type := mkLocationCall {
  lc_outcome : Outcome;
  lc_role : Role;
  lc_roundKey : string }.

(** What [processLocationData] leaves to run later: a country call, whose
    callback runs when its promise is resolved, or an overview call. *)
Inductive Pending : Type :=
| PendingCountry (call : LocationCall)
| PendingOverview (task : OverviewTask).

Definition pendingOverview (t : option OverviewTask) : list Pending :=
  match t with Some task => [PendingOverview task] | None => [] end.

(** [processLocationData(roundKey)]: the new state and the calls it
    starts. *)
Definition processLocationData (page : Page) (roundKey : option string) (gs : GameState.t)
  : GameState.t * list Pending :=
  match resolveRoundKey roundKey gs with
  | None => (gs, [])
  | Some key =>
      match GameState.roundLocations gs !! key with
      | None => (gs, [])
      | Some roundData =>
          let guessCalls :=
            if isValidCoordinate (RoundData.guessLocation roundData) then
              match RoundData.guessLocation roundData with
              | Some c =>
                  [PendingCountry
                     (mkLocationCall (getCountryInfoFromCoordinates (lat c) (lng c))
                        GuessRole key)]
              | None => []
              end
            else [] in
          if isValidCoordinate (RoundData.location roundData) then
            match RoundData.location roundData with
            | Some c =>
                match checkCountryOverride (lat c) (lng c) with
                | Some override =>
                    let countryData := overrideCountryData override in
                    let gs :=
                      updateRound key
                        (fun r => RoundData.set_country (Some (CountryData.country countryData))
                                    (RoundData.set_countryData (Some countryData) r)) gs in
                    let gs :=
                      GameState.set_actualCountry (Some (CountryData.country countryData))
                        (GameState.set_countryData (Some countryData) gs) in
                    if truthy (RoundData.guessCountry roundData) then
                      let '(gs, t) := fetchLocationOverview page (Some key) gs in
                      (gs, (guessCalls ++ pendingOverview t)%list)
                    else (gs, guessCalls)
                | None =>
                    (gs,
                     (guessCalls
                      ++ [PendingCountry
                            (mkLocationCall (getCountryInfoFromCoordinates (lat c) (lng c))
                               ActualRole key)])%list)
                end
            | None => (gs, guessCalls)
            end
          else (gs, guessCalls)
      end
  end.

(** A country call of [processLocationData] goes on with [answer], the
    outcome of the function resumed: its promise is resolved and the
    callback runs, or it waits for the next answer. *)
Definition settle (call : LocationCall) (answer : Outcome) (page : Page) (gs : GameState.t)
  : GameState.t * list Pending :=
  match answer with
  | Resolved result =>
      let '(gs, t) := locationCallback (lc_role call) (lc_roundKey call) result page gs in
      (gs, pendingOverview t)
  | Suspended task =>
      (gs, [PendingCountry (mkLocationCall (Suspended task) (lc_role call) (lc_roundKey call))])
  end.

(** A country call whose promise was resolved without a request: its
    callback runs. *)
Definition runResolved (call : LocationCall) (page : Page) (gs : GameState.t)
  : GameState.t * list Pending :=
  match lc_outcome call with
  | Resolved result => settle call (Resolved result) page gs
  | Suspended _ => (gs, [])
  end.


(** The answer of the enrichment service arrives for a country call. *)
Definition resumeLocationRestCountries (B : Builtins) (call : LocationCall)
    (restData : option (list RestCountry)) (page : Page) (gs : GameState.t)
  : GameState.t * list Pending :=
  match lc_outcome call with
  | Suspended (AwaitRestCountries addr country countryCode) =>
      settle call (afterRestCountries B addr country countryCode restData) page gs
  | _ => (gs, [])
  end.

(** The override step of [handleRoundEnd]. *)
Definition overrideAtRoundEnd (roundKey : string) (gs : GameState.t) : GameState.t :=
  match GameState.roundLocations gs !! roundKey with
  | Some roundData =>
      if isValidCoordinate (RoundData.location roundData) then
        match RoundData.location roundData with
        | Some loc =>
            match checkCountryOverride (lat loc) (lng loc) with
            | Some override =>
                let countryData := overrideCountryData override in
                GameState.set_countryData (Some countryData)
                  (GameState.set_actualCountry (Some (Override.country override))
                     (updateRound roundKey
                        (fun r => RoundData.set_countryData (Some countryData)
                                    (RoundData.set_country (Some (Override.country override)) r))
                        gs))
            | None => gs
            end
        | None => gs
        end
      else gs
  | None => gs
  end.

(** [handleRoundEnd()].  The timers it clears and the UI update at its end
    are outside the model. *)
Definition handleRoundEnd (page : Page) (gs : GameState.t) : GameState.t :=
  let roundKey := generateRoundKey page in
  let gs := GameState.set_currentRoundKey (Some roundKey) gs in
  let gs := ensureRecord roundKey gs in
  let gs := overrideAtRoundEnd roundKey gs in
  let gs := GameState.set_userMissedClues "" gs in
  let gs := GameState.set_userReminder "" gs in
  let gs := GameState.set_cardCreatedForRound false gs in
  domFallback page roundKey gs.

(** [buildAnkiCardData()]; [None] is [null]. *)
Definition buildAnkiCardData (B : Builtins) (settings : Settings) (gs : GameState.t)
  : option CardData :=
  if truthy (GameState.currentRoundKey gs) then
    let roundKey := tpl (GameState.currentRoundKey gs) in
    match GameState.roundLocations gs !! roundKey with
    | None => None
    | Some roundData =>
        if negb (truthy (RoundData.country roundData))
           || negb (truthy (RoundData.guessCountry roundData)) then None
        else Some (compileCard B glyphs settings false roundKey roundData gs)
    end
  else None.

(** Timers [updateGameState] sets. *)
Inductive Timer : Type :=
| RoundEndTimer.   (* after 1500 ms: [handleRoundEnd()], then the automatic card *)

(** The first [if] of [updateGameState]: the end of a round, or the start
    of a new one. *)
Definition trackRound (dom : Dom) (page : Page) (gs : GameState.t)
  : GameState.t * list Timer :=
  if isRoundEnded dom && GameState.inRound gs then
    (GameState.set_inRound false gs, [RoundEndTimer])
  else if isInGame dom && negb (GameState.inRound gs) && isInActiveRound dom then
    let gs := GameState.set_inRound true gs in
    let gs := GameState.set_roundNumber (currentRoundNumber page) gs in
    let gs := GameState.set_currentRoundKey (Some (generateRoundKey page)) gs in
    let gs :=
      match GameState.roundLocations gs !! generateRoundKey page with
      | Some _ => gs
      | None =>
          GameState.set_roundLocations
            (<[generateRoundKey page := newRoundRecord]> (GameState.roundLocations gs)) gs
      end in
    let gs := GameState.set_guessLocation None gs in
    let gs := GameState.set_guessCountry None gs in
    let gs := GameState.set_userMissedClues "" gs in
    let gs := GameState.set_userReminder "" gs in
    let gs := GameState.set_cardCreatedForRound false gs in
    let gs := GameState.set_score (Some zero) gs in
    let gs := GameState.set_missedClues [] gs in
    let gs := GameState.set_locationOverview None gs in
    (gs, [])
  else (gs, []).

(** The second [if] of [updateGameState]: leaving or entering a game. *)
Definition trackGame (dom : Dom) (gs : GameState.t) : GameState.t :=
  if negb (isInGame dom) && GameState.inGame gs then
    let gs := GameState.set_inGame false gs in
    let gs := GameState.set_actualCountry None gs in
    let gs := GameState.set_guessCountry None gs in
    let gs := GameState.set_countryData None gs in
    let gs := GameState.set_guessCountryData None gs in
    GameState.set_cardCreatedForRound false gs
  else if isInGame dom && negb (GameState.inGame gs) then GameState.set_inGame true gs
  else gs.

(** [updateGameState()], one tick of the game loop.  The UI calls at its
    start are outside the model, and so are the write-only fields
    [roundStartTime] and [userGuess]. *)
Definition updateGameState (dom : Dom) (page : Page) (gs : GameState.t)
  : GameState.t * list Timer :=
  let '(gs, timers) := trackRound dom page gs in
  (trackGame dom gs, timers).

(** What the user answers to the dialogs of [prepareAndCreateAnkiCard]:
    [confirm] for another card, and the three [prompt]s ([None] when a
    prompt is dismissed). *)
Record Answers : Type := mkAnswers {
  confirmAnother : bool;
  guessedLocation : option string;
  missedCluesAnswer : option string;
  reminderAnswer : option string }.

(** [prompt(...)] answered with a text that is not blank: the text,
    trimmed. *)
Definition answered (answer : option string) : option string :=
  match answer with
  | Some text => if nonempty text && nonempty (trim text) then Some (trim text) else None
  | None => None
  end.

(** [prepareAndCreateAnkiCard()]: the state it leaves and the card it hands
    to [createAnkiCard], if it comes that far.  [enableAnkiIntegration] is
    the setting of that name. *)
Definition prepareAndCreateAnkiCard (B : Builtins) (settings : Settings)
    (enableAnkiIntegration : bool) (dom : Dom) (page : Page) (answers : Answers)
    (gs : GameState.t) : GameState.t * option CardData :=
  if negb enableAnkiIntegration then (gs, None)
  else if isInActiveRound dom then (gs, None)
  else if negb (truthy (GameState.currentRoundKey gs)) then (gs, None)
  else
    let roundKey := tpl (GameState.currentRoundKey gs) in
    if GameState.cardCreatedForRound gs && negb (confirmAnother answers) then (gs, None)
    else
      let gs :=
        if GameState.cardCreatedForRound gs then GameState.set_cardCreatedForRound false gs
        else gs in
      match GameState.roundLocations gs !! roundKey with
      | None => (gs, None)
      | Some roundData =>
          match countryFromDom page roundKey roundData gs with
          | None => (gs, None)
          | Some gs =>
              match answered (guessedLocation answers) with
              | None => (gs, None)
              | Some guess =>
                  let guessData :=
                    match RoundData.guessCountryData roundData with
                    | Some data => data
                    | None => typedGuessData guess
                    end in
                  let gs :=
                    GameState.set_guessCountry (Some guess)
                      (updateRound roundKey (RoundData.set_guessCountry (Some guess)) gs) in
                  let gs :=
                    GameState.set_guessCountryData (Some guessData)
                      (updateRound roundKey (RoundData.set_guessCountryData (Some guessData)) gs) in
                  let gs :=
                    match answered (missedCluesAnswer answers) with
                    | Some text => GameState.set_userMissedClues text gs
                    | None => gs
                    end in
                  let gs :=
                    match answered (reminderAnswer answers) with
                    | Some text => GameState.set_userReminder text gs
                    | None => gs
                    end in
                  let gs :=
                    match RoundData.missedClues roundData with
                    | Some (_ :: _) => gs
                    | _ => prepareCountryClues None (Some roundKey) gs
                    end in
                  match buildAnkiCardData B settings gs with
                  | Some cardData =>
                      (updateRound roundKey (RoundData.set_cardCreated true)
                         (GameState.set_cardCreatedForRound true gs),
                       Some cardData)
                  | None => (gs, None)
                  end
              end
          end
      end.

(** [createAnkiCard(cardData)]: the note and the round key it passes to
    [sendNoteToAnki]. *)
Definition createAnkiCard (B : Builtins) (settings : Settings) (cfg : AnkiConfig)
    (cardData : option CardData) (gs : GameState.t) : option (Note * string) :=
  let cardData :=
    match cardData with
    | Some data => Some data
    | None => buildAnkiCardData B settings gs
    end in
  match cardData with
  | None => None
  | Some data =>
      Some ({| deckName := DECK_NAME cfg; modelName := MODEL_NAME cfg;
               fields := <["Back" := backField data]> (<["Front" := frontField data]> ∅) |},
            card_roundKey data)
  end.

End V100.

(** ** Version 1.1.0 *)

Module V110.

Definition glyphs : Glyphs :=
  {| g_globe := "ðŸŒ";
     g_link := "ðŸ”—";
     g_check := "âœ…";
     g_cross := "âŒ";
     g_pin := "ðŸ“";
     g_earth := "ðŸŒŽ";
     g_car := "ðŸš—";
     g_stop := "ðŸ›‘";
     g_bolt := "âš¡";
     g_arrow := "â†’" |}.

(** [processCountryOverride(override, roundKey)] *)
Definition processCountryOverride (override : Override.t) (roundKey : option string)
    (gs : GameState.t) : GameState.t :=
  let roundKey := if truthy roundKey then roundKey else GameState.currentRoundKey gs in
  let countryData := overrideCountryData override in
  let gs :=
    if truthy roundKey then
      updateRound (tpl roundKey)
        (fun r => RoundData.set_countryData (Some countryData)
                    (RoundData.set_country (Some (Override.country override)) r)) gs
    else gs in
  GameState.set_countryData (Some countryData)
    (GameState.set_actualCountry (Some (Override.country override)) gs).

(** A call in flight: a suspended [getCountryFromCoordinates] with its
    [isGuess], or a suspended [fetchLocationOverview]. *)
Inductive Pending : Type :=
| PendingGeocoding (task : Geocoding) (isGuess : bool)
| PendingOverview (task : OverviewTask).

Definition request (p : Pending) : Request :=
  match p with
  | PendingGeocoding task _ => geocodingRequest task
  | PendingOverview task => overviewRequest task
  end.

Definition pendingOverview (t : option OverviewTask) : list Pending :=
  match t with Some task => [PendingOverview task] | None => [] end.

(** [if (!gameState.currentRoundKey) gameState.currentRoundKey = generateRoundKey()] *)
Definition ensureRoundKey (page : Page) (gs : GameState.t) : GameState.t :=
  if truthy (GameState.currentRoundKey gs) then gs
  else GameState.set_currentRoundKey (Some (generateRoundKey page)) gs.

(** The end of [getCountryFromCoordinates], behind its last [await]: the
    result is written to the record of the round key that is current now. *)
Definition storeResult (isGuess : bool) (result : CountryData.t) (page : Page)
    (gs : GameState.t) : GameState.t * list Pending :=
  let country := CountryData.country result in
  let gs := ensureRoundKey page gs in
  let key := tpl (GameState.currentRoundKey gs) in
  if isGuess then
    let gs :=
      updateRound key
        (fun r => RoundData.set_guessCountryData (Some result)
                    (RoundData.set_guessCountry (Some country) r)) gs in
    let gs :=
      GameState.set_guessCountryData (Some result)
        (GameState.set_guessCountry (Some country) gs) in
    match GameState.roundLocations gs !! key with
    | Some r =>
        if truthy (RoundData.country r) then
          let '(gs', t) := fetchLocationOverview page (GameState.currentRoundKey gs) gs in
          (gs', pendingOverview t)
        else (gs, [])
    | None => (gs, [])
    end
  else
    let gs :=
      updateRound key
        (fun r => RoundData.set_countryData (Some result)
                    (RoundData.set_country (Some country) r)) gs in
    let gs :=
      GameState.set_countryData (Some result)
        (GameState.set_actualCountry (Some country) gs) in
    match GameState.roundLocations gs !! key with
    | Some r =>
        if truthy (RoundData.guessCountry r) then
          let '(gs', t) := fetchLocationOverview page (GameState.currentRoundKey gs) gs in
          (gs', pendingOverview t)
        else (gs, [])
    | None => (gs, [])
    end.

(** [getCountryFromCoordinates(lat, lng, isGuess)], up to its first
    [await]: the new state and the calls now in flight. *)
Definition getCountryFromCoordinates (lat0 lng0 : number) (isGuess : bool)
    (gs : GameState.t) : GameState.t * list Pending :=
  match sanitizeCoordinates (JNum lat0) (JNum lng0) with
  | None => (gs, [])
  | Some coords =>
      match checkCountryOverride lat0 lng0 with
      | Some override =>
          if negb isGuess then (processCountryOverride override None gs, [])
          else (gs, [PendingGeocoding (AwaitNominatim coords) isGuess])
      | None => (gs, [PendingGeocoding (AwaitNominatim coords) isGuess])
      end
  end.

(** The same function resumed with the answer of the geocoding service. *)
Definition afterNominatim (B : Builtins) (isGuess : bool) (data : option NominatimData)
    (page : Page) (gs : GameState.t) : GameState.t * list Pending :=
  match readNominatim B data with
  | None => (gs, [])
  | Some (inl result) => storeResult isGuess result page gs
  | Some (inr task) => (gs, [PendingGeocoding task isGuess])
  end.

(** The same function resumed with the answer of the enrichment service. *)
Definition afterRestCountries (B : Builtins) (addr : Address) (country countryCode : string)
    (isGuess : bool) (restData : option (list RestCountry)) (page : Page)
    (gs : GameState.t) : GameState.t * list Pending :=
  storeResult isGuess
    (geocodingResult addr country (Some countryCode) (additionalInfoFrom B countryCode restData))
    page gs.

(** [handleRoundEnd()].  The timers it clears and sets (the delayed prompt
    for a card) and the UI update at its end are outside the model. *)
Definition handleRoundEnd (page : Page) (gs : GameState.t) : GameState.t :=
  let roundKey := generateRoundKey page in
  let gs := GameState.set_currentRoundKey (Some roundKey) gs in
  let gs := ensureRecord roundKey gs in
  let gs :=
    match GameState.roundLocations gs !! roundKey with
    | Some roundData =>
        if isValidCoordinate (RoundData.location roundData) then
          match RoundData.location roundData with
          | Some loc =>
              match checkCountryOverride (lat loc) (lng loc) with
              | Some override => processCountryOverride override (Some roundKey) gs
              | None => gs
              end
          | None => gs
          end
        else gs
    | None => gs
    end in
  let gs := GameState.set_userMissedClues "" gs in
  let gs := GameState.set_userReminder "" gs in
  let gs := GameState.set_cardCreatedForRound false gs in
  let gs := GameState.set_cancelCardCreation false gs in
  domFallback page roundKey gs.

(** The guards of [buildAnkiCardData(useDefaults)]: the state behind them,
    or [None] where the function returns [null]. *)
Definition cardGuards (useDefaults : bool) (page : Page) (roundKey : string)
    (roundData : RoundData.t) (gs : GameState.t) : option GameState.t :=
  if useDefaults then
    let gs :=
      if negb (truthy (RoundData.country roundData)) then
        let c := if truthy (domCountry page) then tpl (domCountry page)
                 else "Unknown Country" in
        GameState.set_actualCountry (Some c)
          (updateRound roundKey (RoundData.set_country (Some c)) gs)
      else gs in
    let gs :=
      if negb (truthy (RoundData.guessCountry roundData)) then
        GameState.set_guessCountry (Some "Unknown Guess")
          (updateRound roundKey (RoundData.set_guessCountry (Some "Unknown Guess")) gs)
      else gs in
    Some gs
  else if negb (truthy (RoundData.country roundData))
          || negb (truthy (RoundData.guessCountry roundData)) then None
  else Some gs.

(** [buildAnkiCardData(useDefaults)]: the state it leaves, and its result
    ([None] is [null]). *)
Definition buildAnkiCardData (B : Builtins) (settings : Settings) (useDefaults : bool)
    (page : Page) (gs : GameState.t) : GameState.t * option CardData :=
  if truthy (GameState.currentRoundKey gs) then
    let roundKey := tpl (GameState.currentRoundKey gs) in
    match GameState.roundLocations gs !! roundKey with
    | None => (gs, None)
    | Some roundData =>
        match cardGuards useDefaults page roundKey roundData gs with
        | None => (gs, None)
        | Some gs' =>
            match GameState.roundLocations gs' !! roundKey with
            | Some roundData' =>
                (gs', Some (compileCard B glyphs settings useDefaults roundKey roundData' gs'))
            | None => (gs', None)
            end
        end
    end
  else (gs, None).

(** [resetRoundData()]: the records of the rounds and the current round
    key stay as they are. *)
Definition resetRoundData (gs : GameState.t) : GameState.t :=
  {| GameState.inGame := GameState.inGame gs;
     GameState.inRound := GameState.inRound gs;
     GameState.roundNumber := GameState.roundNumber gs;
     GameState.currentLocation := None;
     GameState.panoId := None;
     GameState.heading := zero;
     GameState.pitch := zero;
     GameState.zoom := zero;
     GameState.guessLocation := None;
     GameState.guessCountry := None;
     GameState.actualLocation := None;
     GameState.actualCountry := None;
     GameState.score := Some zero;
     GameState.countryData := None;
     GameState.guessCountryData := None;
     GameState.missedClues := [];
     GameState.locationOverview := None;
     GameState.userMissedClues := "";
     GameState.userReminder := "";
     GameState.roundLocations := GameState.roundLocations gs;
     GameState.currentRoundKey := GameState.currentRoundKey gs;
     GameState.cardCreatedForRound := false;
     GameState.cancelCardCreation := false;
     GameState.dataSource := None;
     GameState.gameDataToken := GameState.gameDataToken gs |}.

(** [gameState] with the two fields of the round detection that
    [GameState.t] leaves out. *)
Record Tracker : Type := mkTracker {
  state : GameState.t;
  lastRoundId : option string;
  isProcessingRound : bool }.

(** What the round detection calls or schedules. *)
Inductive Effect : Type :=
| InterceptedLocationData      (* [interceptLocationData()] was called *)
| RoundEndHandled              (* [handleRoundEnd()] was called *)
| ProcessingTimer              (* after 1000 ms: [isProcessingRound = false] *)
| InterceptTimer               (* after 500 ms: [interceptLocationData()] *)
| RoundEndTimer.               (* after 1000 ms: [handleRoundEnd()], [isProcessingRound = false] *)

Section RoundDetection.
(** [interceptLocationData()], as far as it changes [gameState] before it
    returns; it is not spelled out here. *)
Variable interceptLocationData : GameState.t -> GameState.t.

(** [gameLoop(forceCheck)].  [lucky] is [Math.random() < 0.2]; the UI calls
    at its start are outside the model. *)
Definition gameLoop (dom : Dom) (page : Page) (forceCheck lucky : bool) (s : Tracker)
  : Tracker * list Effect :=
  let nowInGame := isInGame dom in
  let nowInRound := isInActiveRound dom in
  let currentRound := currentRoundNumber page in
  let gs := state s in
  let gs :=
    if negb (Bool.eqb nowInGame (GameState.inGame gs)) || forceCheck then
      let gs := GameState.set_inGame nowInGame gs in
      if negb nowInGame then resetRoundData gs else gs
    else gs in
  let '(s, effects) :=
    if negb (Bool.eqb nowInRound (GameState.inRound gs))
       || (nowInRound && negb (currentRound =? GameState.roundNumber gs)%nat)
       || forceCheck then
      let gs := GameState.set_inRound nowInRound gs in
      let gs := GameState.set_roundNumber currentRound gs in
      if nowInRound then
        let gs := GameState.set_currentRoundKey (Some (generateRoundKey page)) gs in
        (mkTracker (interceptLocationData gs) (lastRoundId s) (isProcessingRound s),
         [InterceptedLocationData])
      else if negb nowInRound && GameState.inRound gs then
        if negb (isProcessingRound s) then
          (mkTracker (handleRoundEnd page gs) (lastRoundId s) true,
           [RoundEndHandled; ProcessingTimer])
        else (mkTracker gs (lastRoundId s) (isProcessingRound s), [])
      else (mkTracker gs (lastRoundId s) (isProcessingRound s), [])
    else (mkTracker gs (lastRoundId s) (isProcessingRound s), []) in
  if nowInRound && negb (bool_decide (is_Some (GameState.actualLocation (state s)))) then
    if lucky then
      (mkTracker (interceptLocationData (state s)) (lastRoundId s) (isProcessingRound s),
       (effects ++ [InterceptedLocationData])%list)
    else (s, effects)
  else (s, effects).

(** [checkForRoundTransition()]; [currentRoundId] is [extractRoundId()]. *)
Definition checkForRoundTransition (dom : Dom) (page : Page) (currentRoundId : option string)
    (lucky : bool) (s : Tracker) : Tracker * list Effect :=
  let '(s, effects) :=
    if truthy currentRoundId && strict_ne currentRoundId (lastRoundId s) then
      let s := mkTracker (resetRoundData (state s)) currentRoundId (isProcessingRound s) in
      let '(s, effects) := gameLoop dom page true lucky s in
      (s, (effects ++ [InterceptTimer])%list)
    else (s, []) in
  if isRoundEnded dom && negb (isProcessingRound s) && GameState.inRound (state s) then
    (mkTracker (state s) (lastRoundId s) true, (effects ++ [RoundEndTimer])%list)
  else (s, effects).

(** The callback of the timer [RoundEndTimer]. *)
Definition roundEndTimer (page : Page) (s : Tracker) : Tracker :=
  mkTracker (handleRoundEnd page (state s)) (lastRoundId s) false.
End RoundDetection.

(** [processLocationData(roundKey)]: the new state and the geocoding calls
    it starts. *)
Definition processLocationData (roundKey : option string) (gs : GameState.t)
  : GameState.t * list Pending :=
  match resolveRoundKey roundKey gs with
  | None => (gs, [])
  | Some key =>
      match GameState.roundLocations gs !! key with
      | None => (gs, [])
      | Some roundData =>
          let '(gs, guessCalls) :=
            if isValidCoordinate (RoundData.guessLocation roundData) then
              match RoundData.guessLocation roundData with
              | Some c => getCountryFromCoordinates (lat c) (lng c) true gs
              | None => (gs, [])
              end
            else (gs, []) in
          if isValidCoordinate (RoundData.location roundData) then
            match RoundData.location roundData with
            | Some c =>
                match checkCountryOverride (lat c) (lng c) with
                | Some override => (processCountryOverride override (Some key) gs, guessCalls)
                | None =>
                    let '(gs, actualCalls) :=
                      getCountryFromCoordinates (lat c) (lng c) false gs in
                    (gs, (guessCalls ++ actualCalls)%list)
                end
            | None => (gs, guessCalls)
            end
          else (gs, guessCalls)
      end
  end.

(** [createAnkiCard(cardData, useDefaults)]: the state it leaves, and the
    note and the round key it passes to [sendNoteToAnki]. *)
Definition createAnkiCard (B : Builtins) (settings : Settings) (cfg : AnkiConfig)
    (cardData : option CardData) (useDefaults : bool) (page : Page) (gs : GameState.t)
  : GameState.t * option (Note * string) :=
  let '(gs, cardData) :=
    match cardData with
    | Some data => (gs, Some data)
    | None => buildAnkiCardData B settings useDefaults page gs
    end in
  match cardData with
  | None => (gs, None)
  | Some data =>
      (gs,
       Some ({| deckName := DECK_NAME cfg; modelName := MODEL_NAME cfg;
                fields := <["Back" := backField data]> (<["Front" := frontField data]> ∅) |},
             card_roundKey data))
  end.

(** [promptForCardCreation()]: the round key whose record the handlers of
    the dialog capture, when the dialog is shown. *)
Definition promptForCardCreation (gs : GameState.t) : option string :=
  if GameState.cancelCardCreation gs then None
  else if negb (truthy (GameState.currentRoundKey gs)) then None
  else
    match GameState.roundLocations gs !! tpl (GameState.currentRoundKey gs) with
    | None => None
    | Some roundData =>
        if negb (truthy (RoundData.country roundData)) then None
        else Some (tpl (GameState.currentRoundKey gs))
    end.

(** How a call of [createCardWithOptions] ends. *)
Inductive CardFlow : Type :=
| NoCard                                   (* it returned before any card or dialog *)
| NoteSent (note : option (Note * string)) (* instant add: what [createAnkiCard] sends *)
| Dialog (shown : option string).          (* [promptForCardCreation()] was called *)

(** [createCardWithOptions(useInstantAdd)].  [enableAnkiIntegration] and
    [instantAddEnabled] are the settings of these names, [confirmAnother]
    the answer to [confirm]. *)
Definition createCardWithOptions (B : Builtins) (settings : Settings) (cfg : AnkiConfig)
    (enableAnkiIntegration instantAddEnabled : bool) (dom : Dom) (page : Page)
    (confirmAnother useInstantAdd : bool) (gs : GameState.t) : GameState.t * CardFlow :=
  if negb enableAnkiIntegration then (gs, NoCard)
  else if isInActiveRound dom then (gs, NoCard)
  else if negb (truthy (GameState.currentRoundKey gs)) then (gs, NoCard)
  else if GameState.cancelCardCreation gs then (gs, NoCard)
  else if GameState.cardCreatedForRound gs && negb confirmAnother then (gs, NoCard)
  else
    let roundKey := tpl (GameState.currentRoundKey gs) in
    let gs :=
      if GameState.cardCreatedForRound gs then GameState.set_cardCreatedForRound false gs
      else gs in
    if useInstantAdd || instantAddEnabled then
      let '(gs, note) := createAnkiCard B settings cfg None true page gs in
      (gs, NoteSent note)
    else
      match GameState.roundLocations gs !! roundKey with
      | None => (gs, NoCard)
      | Some roundData =>
          match countryFromDom page roundKey roundData gs with
          | None => (gs, NoCard)
          | Some gs => (gs, Dialog (promptForCardCreation gs))
          end
      end.

(** The handlers of the dialog. *)

(** [handleCancel] *)
Definition handleCancel (gs : GameState.t) : GameState.t :=
  GameState.set_cancelCardCreation true gs.

(** [handleInstantAdd] *)
Definition handleInstantAdd (B : Builtins) (settings : Settings) (cfg : AnkiConfig)
    (page : Page) (gs : GameState.t) : GameState.t * option (Note * string) :=
  createAnkiCard B settings cfg None true page gs.

(** [handleCreateCard], of a dialog shown for the record under [shownKey],
    with the texts of its three inputs. *)
Definition handleCreateCard (B : Builtins) (settings : Settings) (cfg : AnkiConfig)
    (page : Page) (shownKey : string) (guessInput cluesInput reminderInput : string)
    (gs : GameState.t) : GameState.t * option (Note * string) :=
  let guessValue := trim guessInput in
  let cluesValue := trim cluesInput in
  let reminderValue := trim reminderInput in
  let gs :=
    if nonempty guessValue then
      updateRound shownKey
        (fun r =>
           RoundData.set_guessCountryData
             (Some match RoundData.guessCountryData r with
                   | Some data => data
                   | None => typedGuessData guessValue
                   end)
             (RoundData.set_guessCountry (Some guessValue) r))
        (GameState.set_guessCountry (Some guessValue) gs)
    else gs in
  let gs := if nonempty cluesValue then GameState.set_userMissedClues cluesValue gs else gs in
  let gs := if nonempty reminderValue then GameState.set_userReminder reminderValue gs else gs in
  createAnkiCard B settings cfg None false page gs.

End V110.

(** ** Notions the statements below are phrased with *)

(** The byte values the decoder reads, pair by pair; a last digit without a
    partner is dropped. *)
Fixpoint pairValues (s : string) : list N :=
  match s with
  | String a (String b r) => (16 * hexDigitValue a + hexDigitValue b)%N :: pairValues r
  | _ => []
  end.

Definition decodePairs (s : string) : string :=
  String.concat "" (map fromCharCode (pairValues s)).

(** [Math.max(lo, Math.min(hi, x))] *)
Definition clamp (lo hi x : number) : number := Math_max lo (Math_min hi x).

(** The Chebyshev distance of a coordinate from the centre of an override
    entry: the larger of the two absolute coordinate differences. *)
Definition chebyshev (ov : Override.t) (lat0 lng0 : number) : number :=
  Math_max (abs (sub lat0 (lat (Override.coordinates ov))))
           (abs (sub lng0 (lng (Override.coordinates ov)))).

(** A list of clues holds a language clue. *)
Definition hasLanguageClue (clues : list Clue) : bool :=
  existsb (fun c => bool_decide (category c = "Language")) clues.

(** The record of the current round, the one the card compiler reads. *)
Definition currentRecord (gs : GameState.t) : option RoundData.t :=
  if truthy (GameState.currentRoundKey gs)
  then GameState.roundLocations gs !! tpl (GameState.currentRoundKey gs)
  else None.

(** Both countries of the current record are known. *)
Definition countriesKnown (gs : GameState.t) : bool :=
  match currentRecord gs with
  | Some rd => truthy (RoundData.country rd) && truthy (RoundData.guessCountry rd)
  | None => false
  end.

(** The round an overview call was started for. *)
Definition taskKey (t : OverviewTask) : string :=
  match t with AwaitOverview roundKey _ _ => roundKey end.


(** The actual country stored under [key], if there is a record. *)
Definition countryAt (key : string) (gs : GameState.t) : option (option string) :=
  RoundData.country <$> GameState.roundLocations gs !! key.

(** The override entry for the location of a record, as [handleRoundEnd]
    looks it up. *)
Definition overrideAt (loc : option Coordinate) : option Override.t :=
  if isValidCoordinate loc then
    match loc with
    | Some c => checkCountryOverride (lat c) (lng c)
    | None => None
    end
  else None.

(** The record [handleRoundEnd] works on: the one stored under the key of
    the page, or the one it creates from [gameState]. *)
Definition recordAtRoundEnd (page : Page) (gs : GameState.t) : RoundData.t :=
  match GameState.roundLocations gs !! generateRoundKey page with
  | Some rd => rd
  | None => recordFromState gs
  end.

(** The order of precedence at the end of a round: an override entry, then
    the country the record already has, then the text of the page. *)
Definition countryAfterRoundEnd (page : Page) (incumbent : RoundData.t) : option string :=
  match overrideAt (RoundData.location incumbent) with
  | Some ov => Some (Override.country ov)
  | None =>
      if truthy (RoundData.country incumbent) then RoundData.country incumbent
      else if truthy (domCountry page) then domCountry page
      else RoundData.country incumbent
  end.

(** The head of every Street View link the script builds. *)
Definition mapsPrefix : string := "https://www.google.com/maps/@".




(** A use of the debug log by the script. *)
Inductive DebugCall : Type :=
| CallLog (timestamp message : string) (data : option string)
| CallError (timestamp message : string) (error : option string)
| CallWarn (timestamp message : string) (data : option string)
| CallTrimLogs
| CallSetEnabled (checked : bool).

Definition debugCall (c : DebugCall) (d : Debug.t) : Debug.t :=
  match c with
  | CallLog timestamp message data => Debug.log timestamp message data d
  | CallError timestamp message error => Debug.error timestamp message error d
  | CallWarn timestamp message data => Debug.warn timestamp message data d
  | CallTrimLogs => Debug.trimLogs d
  | CallSetEnabled checked => Debug.setEnabled checked d
  end.

(** The entries a sequence of calls asks to record, oldest first, when it
    starts with the flag [enabled]. *)
Fixpoint requestedEntries (enabled : bool) (calls : list DebugCall) : list Debug.Entry :=
  match calls with
  | [] => []
  | CallLog timestamp message data :: rest =>
      (if enabled then [Debug.mkEntry timestamp "INFO" message (Debug.DataField data)] else [])
      ++ requestedEntries enabled rest
  | CallError timestamp message error :: rest =>
      Debug.mkEntry timestamp "ERROR" message (Debug.ErrorField error)
      :: requestedEntries enabled rest
  | CallWarn timestamp message data :: rest =>
      (if enabled then [Debug.mkEntry timestamp "WARN" message (Debug.DataField data)] else [])
      ++ requestedEntries enabled rest
  | CallTrimLogs :: rest => requestedEntries enabled rest
  | CallSetEnabled checked :: rest => requestedEntries checked rest
  end%list.

(** The last [n] elements of a list. *)
Definition keepLast {A : Type} (n : nat) (l : list A) : list A := drop (length l - n) l.

(** What [handleRoundEnd] has done when it returns: the round of the page
    is the current one and has a record, the card flag and the texts of
    the user are reset, and the records of the other rounds are as they
    were. *)
Definition roundEndDone (page : Page) (before after : GameState.t) : Prop :=
  GameState.currentRoundKey after = Some (generateRoundKey page) /\
  is_Some (GameState.roundLocations after !! generateRoundKey page) /\
  GameState.cardCreatedForRound after = false /\
  GameState.userMissedClues after = "" /\
  GameState.userReminder after = "" /\
  (forall other : string,
     other <> generateRoundKey page ->
     GameState.roundLocations after !! other = GameState.roundLocations before !! other).

(** The fields of [gameState] the card dialogs read. *)
Definition dialogFields (gs : GameState.t) : bool * bool * string * string :=
  (GameState.cardCreatedForRound gs, GameState.cancelCardCreation gs,
   GameState.userMissedClues gs, GameState.userReminder gs).

(** The categories of the clues of the guarded block of
    [prepareCountryClues], in the order of its pushes. *)
Definition clueCategories : list string :=
  ["Driving Side"; "Language"; "Internet TLD"; "Geographic Region"; "Coverage Type";
   "General Appearance"].

(** The country the card dialogs go on with: the one of the record, or
    else the one read from the page. *)
Definition countryForCard (page : Page) (rd : RoundData.t) : option string :=
  if truthy (RoundData.country rd) then RoundData.country rd
  else if truthy (domCountry page) then Some (tpl (domCountry page))
  else None.

(** What makes the round detection of version 1.1.0 run: the interval of
    the game loop, a change of the page seen by the observer or by the
    poll of the address, and the timer that calls
    [interceptLocationData]. *)
Inductive Trigger : Type :=
| Tick (dom : Dom) (page : Page) (forceCheck lucky : bool)
| Changed (dom : Dom) (page : Page) (currentRoundId : option string) (lucky : bool)
| InterceptDue.

(** The page a trigger runs on shows no active round. *)
Definition inactive (t : Trigger) : bool :=
  match t with
  | Tick dom _ _ _ | Changed dom _ _ _ => negb (isInActiveRound dom)
  | InterceptDue => true
  end.

Section Reactions.
Variable interceptLocationData : GameState.t -> GameState.t.

Definition react (t : Trigger) (s : V110.Tracker) : V110.Tracker * list V110.Effect :=
  match t with
  | Tick dom page forceCheck lucky =>
      V110.gameLoop interceptLocationData dom page forceCheck lucky s
  | Changed dom page currentRoundId lucky =>
      V110.checkForRoundTransition interceptLocationData dom page currentRoundId lucky s
  | InterceptDue =>
      (V110.mkTracker (interceptLocationData (V110.state s)) (V110.lastRoundId s)
         (V110.isProcessingRound s), [])
  end.

(** The effects of a sequence of triggers, in order. *)
Fixpoint reactAll (ts : list Trigger) (s : V110.Tracker) : list V110.Effect :=
  match ts with
  | [] => []
  | t :: rest => ((react t s).2 ++ reactAll rest (react t s).1)%list
  end.
End Reactions.

(** The geocoding call [processLocationData] starts for a stored
    coordinate: none unless the coordinate is valid. *)
Definition geocodeCall (isGuess : bool) (loc : option Coordinate) : list V110.Pending :=
  if isValidCoordinate loc then
    match loc with
    | Some c =>
        [V110.PendingGeocoding
           (AwaitNominatim {| lat := parseFloat (JNum (lat c));
                              lng := parseFloat (JNum (lng c)) |}) isGuess]
    | None => []
    end
  else [].

(** The hexadecimal digit of a value below 16, in lower case. *)
Definition hexDigit (n : N) : ascii :=
  ascii_of_N (if (n <? 10)%N then 48 + n else 87 + n).

(** Two hexadecimal digits for each byte of [s]: the form in which a
    panorama id arrives. *)
Fixpoint hexEncode (s : string) : string :=
  match s with
  | EmptyString => EmptyString
  | String a r =>
      String (hexDigit (code a / 16)) (String (hexDigit (code a mod 16)) (hexEncode r))
  end.

Fixpoint allAscii (s : string) : bool :=
  match s with
  | EmptyString => true
  | String a r => (code a <? 128)%N && allAscii r
  end.

(** ** States and answers for the examples *)

Module Examples.

(** [gameState] as the script initialises it. *)
Definition initialGameState : GameState.t :=
  {| GameState.inGame := false; GameState.inRound := false; GameState.roundNumber := 0;
     GameState.currentLocation := None; GameState.panoId := None;
     GameState.heading := zero; GameState.pitch := zero; GameState.zoom := zero;
     GameState.guessLocation := None; GameState.guessCountry := None;
     GameState.actualLocation := None; GameState.actualCountry := None;
     GameState.score := Some zero; GameState.countryData := None;
     GameState.guessCountryData := None; GameState.missedClues := [];
     GameState.locationOverview := None; GameState.userMissedClues := "";
     GameState.userReminder := ""; GameState.roundLocations := ∅;
     GameState.currentRoundKey := None; GameState.cardCreatedForRound := false;
     GameState.cancelCardCreation := false; GameState.dataSource := None;
     GameState.gameDataToken := None |}.

(** The record the interceptors create for a round they have no record of. *)
Definition emptyRound : RoundData.t :=
  {| RoundData.panoId := None; RoundData.location := None;
     RoundData.heading := zero; RoundData.pitch := zero; RoundData.zoom := zero;
     RoundData.country := None; RoundData.countryData := None;
     RoundData.guessLocation := None; RoundData.guessCountry := None;
     RoundData.guessCountryData := None; RoundData.score := None;
     RoundData.missedClues := None; RoundData.locationOverview := None;
     RoundData.cardCreated := false |}.

Definition page1 : Page :=
  {| gameId := Some "abc123"; currentRoundNumber := 1; gameToken := Some "abc123";
     domCountry := None; domGuess := None |}.

Definition key1 : string := "abc123-round-1".
Definition key2 : string := "abc123-round-2".

(** Round 1 is running and has an empty record. *)
Definition gsRound1 : GameState.t :=
  GameState.set_roundLocations {[ key1 := emptyRound ]}
    (GameState.set_currentRoundKey (Some key1) initialGameState).

(** A geocoding answer for a place in Australia, without a country code. *)
Definition australiaAnswer : NominatimData :=
  {| address := Some {| addr_country := Some "Australia"; addr_country_code := None;
                        addr_state := Some "Northern Territory"; addr_county := None;
                        addr_city := None; addr_town := None; addr_village := None |} |}.

(** Built-ins for the examples: the records of the examples have no
    location, no country code and no clue of a specific category, so none
    of them is reached. *)
Definition unusedBuiltins : Builtins :=
  {| toFixed6 := fun _ => ""; numberToString := fun _ => ""; Math_round := fun x => x;
     remainder := fun x _ => x; encodeURIComponent := fun s => s;
     toLowerCase := fun s => s; toUpperCase := fun s => s;
     match_detail := fun _ => None |}.

(** Round 1 after an override match was applied to it. *)
Definition gsOverridden : GameState.t :=
  (V110.getCountryFromCoordinates guatemala_lat guatemala_lng false gsRound1).1.

(** The same state after the answer of an earlier geocoding call came in. *)
Definition gsLateAnswer : GameState.t :=
  (V110.afterNominatim unusedBuiltins false (Some australiaAnswer) page1 gsOverridden).1.

Definition countryFact (name : string) (langs : list string) : CountryData.t :=
  {| CountryData.country := name; CountryData.countryCode := None;
     CountryData.state := None; CountryData.city := None; CountryData.details := None;
     CountryData.additionalInfo :=
       Some {| tld := Some "Unknown"; drivingSide := Some "right"; languages := Some langs;
               currency := Some "Unknown"; flagUrl := None; continent := Some "Unknown";
               capital := Some "Unknown" |} |}.

(** A finished round: actual country [actual], guessed country [guess],
    each with its list of languages. *)
Definition guessedRound (actual : string) (actualLangs : list string)
    (guess : string) (guessLangs : list string) : RoundData.t :=
  RoundData.set_guessCountryData (Some (countryFact guess guessLangs))
    (RoundData.set_guessCountry (Some guess)
       (RoundData.set_countryData (Some (countryFact actual actualLangs))
          (RoundData.set_country (Some actual) emptyRound))).

Definition gsGuessed (rd : RoundData.t) : GameState.t :=
  GameState.set_roundLocations {[ key1 := rd ]} gsRound1.

(** Round 2 has started while the record of round 1 is kept. *)
Definition gsRound2 : GameState.t :=
  GameState.set_roundLocations
    (<[ key2 := emptyRound ]> (GameState.roundLocations
                                 (gsGuessed (guessedRound "France" ["French"] "Spain" ["Spanish"]))))
    (GameState.set_currentRoundKey (Some key2) gsRound1).

Definition defaultSettings : Settings := {| hideLocationInFrontCard := true |}.

(** A record that holds a clue of an earlier run while its actual country
    is missing. *)
Definition staleCluesRound : RoundData.t :=
  RoundData.set_missedClues
    (Some [{| category := "Language"; clue := "France's language(s): French" |}])
    (RoundData.set_guessCountry (Some "Spain") emptyRound).

(** A running round of a game. *)
Definition gsPlaying : GameState.t :=
  GameState.set_inRound true
    (GameState.set_inGame true
       (gsGuessed (guessedRound "France" ["French"] "Spain" ["Spanish"]))).




Definition page2 : Page :=
  {| gameId := Some "abc123"; currentRoundNumber := 2; gameToken := Some "abc123";
     domCountry := None; domGuess := None |}.

(** The debug log when the script starts. *)
Definition debug0 : Debug.t := {| Debug.enabled := true; Debug.logs := []; Debug.maxLogs := 100 |}.

(** A result screen of a standard game: a result element is rendered and
    no gameplay element is. *)
Definition resultDom : Dom :=
  {| href := "https://www.geoguessr.com/game/abc123"; resultElements := [true];
     nextRoundButton := Some true; gameplayElements := [] |}.

(** A result page outside the addresses of a game. *)
Definition resultsPage : Dom :=
  {| href := "https://www.geoguessr.com/results/abc123"; resultElements := [true];
     nextRoundButton := None; gameplayElements := [] |}.

(** The round detection of version 1.1.0 when the script starts. *)
Definition tracker0 : V110.Tracker :=
  {| V110.state := initialGameState; V110.lastRoundId := None;
     V110.isProcessingRound := false |}.

(** A record with a location the override table knows. *)
Definition guatemalaRound : RoundData.t :=
  {| RoundData.panoId := None;
     RoundData.location := Some {| lat := guatemala_lat; lng := guatemala_lng |};
     RoundData.heading := zero; RoundData.pitch := zero; RoundData.zoom := zero;
     RoundData.country := None; RoundData.countryData := None;
     RoundData.guessLocation := Some {| lat := zero; lng := n90 |};
     RoundData.guessCountry := None;
     RoundData.guessCountryData := None; RoundData.score := None;
     RoundData.missedClues := None; RoundData.locationOverview := None;
     RoundData.cardCreated := false |}.

Definition ankiConfig : AnkiConfig := {| DECK_NAME := "GeoguessrAnki"; MODEL_NAME := "GeoguessrBasic" |}.

End Examples.

(** * Properties *)

(** ** Comparison of JS numbers *)

Section NumberOrder.

Lemma SFcompare_antisym (x y : spec_float) :
  SFcompare y x = option_map CompOpp (SFcompare x y).
Proof.
  destruct x as [sx|sx| |sx mx ex], y as [sy|sy| |sy my ey]; simpl;
    try reflexivity; try (destruct sx; reflexivity); try (destruct sy; reflexivity);
    try (destruct sx, sy; reflexivity).
  pose proof (Pos.compare_cont_antisym mx my Eq) as Hm. simpl in Hm.
  destruct sx, sy; simpl; try reflexivity;
    rewrite (Z.compare_antisym ex ey); destruct (ex ?= ey)%Z; simpl;
    rewrite <- ?Hm, ?CompOpp_involutive; reflexivity.
Qed.

Lemma ltb_leb (x y : number) : ltb x y = true -> leb x y = true.
Proof. unfold ltb, leb, SFltb, SFleb. destruct (SFcompare x y) as [[]|]; congruence. Qed.

Lemma SFcompare_not_nan (x y : number) :
  isNaN x = false -> isNaN y = false -> is_Some (SFcompare x y).
Proof. destruct x, y; simpl; try discriminate; eauto. Qed.

Lemma not_ltb_leb (x y : number) :
  isNaN x = false -> isNaN y = false -> ltb y x = false -> leb x y = true.
Proof.
  unfold ltb, leb, SFltb, SFleb. intros Hx Hy.
  destruct (SFcompare_not_nan x y Hx Hy) as [c Hc].
  rewrite (SFcompare_antisym x y), Hc. destruct c; simpl; congruence.
Qed.

Lemma leb_refl (x : number) : isNaN x = false -> leb x x = true.
Proof.
  intros Hx. apply not_ltb_leb; try assumption.
  unfold ltb, SFltb. pose proof (SFcompare_antisym x x) as H.
  destruct (SFcompare x x) as [[]|]; simpl in H; congruence.
Qed.

Lemma Math_min_cases (hi x : number) :
  isNaN hi = false -> isNaN x = false ->
  (Math_min hi x = hi \/ Math_min hi x = x) /\ leb (Math_min hi x) hi = true.
Proof.
  intros Hhi Hx. unfold Math_min. rewrite Hhi, Hx. simpl.
  destruct (ltb hi x) eqn:E1; [split; [by left | by apply leb_refl] |].
  destruct (ltb x hi) eqn:E2; [split; [by right | by apply ltb_leb] |].
  destruct hi as [[]| | |]; try discriminate;
    (split; [ (by left) || (by right) | ]);
    solve [ by apply leb_refl | by apply not_ltb_leb ].
Qed.

Lemma Math_max_cases (lo v : number) :
  isNaN lo = false -> isNaN v = false ->
  (Math_max lo v = lo \/ Math_max lo v = v) /\ leb lo (Math_max lo v) = true.
Proof.
  intros Hlo Hv. unfold Math_max. rewrite Hlo, Hv. simpl.
  destruct (ltb v lo) eqn:E1; [split; [by left | by apply leb_refl] |].
  destruct (ltb lo v) eqn:E2; [split; [by right | by apply ltb_leb] |].
  destruct lo as [[]| | |]; try discriminate;
    (split; [ (by left) || (by right) | ]);
    solve [ by apply leb_refl | by apply not_ltb_leb ].
Qed.

(** Exponent first, then mantissa: the order of two finite numbers of the
    same sign is transitive. *)
Lemma finite_compare_trans (e1 e2 e3 : Z) (m1 m2 m3 : positive) :
  let c e m e' m' :=
    match (e ?= e')%Z with Lt => Lt | Gt => Gt | Eq => Pos.compare_cont Eq m m' end in
  c e1 m1 e2 m2 <> Gt -> c e2 m2 e3 m3 <> Gt -> c e1 m1 e3 m3 <> Gt.
Proof.
  cbv beta zeta. change (Pos.compare_cont Eq) with Pos.compare. intros H1 H2.
  destruct (Z.compare_spec e1 e2), (Z.compare_spec e2 e3), (Z.compare_spec e1 e3);
    destruct (Pos.compare_spec m1 m2), (Pos.compare_spec m2 m3), (Pos.compare_spec m1 m3);
    try congruence; try (exfalso; lia).
Qed.

Lemma finite_compare_trans_opp (e1 e2 e3 : Z) (m1 m2 m3 : positive) :
  let c e m e' m' :=
    match (e ?= e')%Z with
    | Lt => Gt | Gt => Lt | Eq => CompOpp (Pos.compare_cont Eq m m')
    end in
  c e1 m1 e2 m2 <> Gt -> c e2 m2 e3 m3 <> Gt -> c e1 m1 e3 m3 <> Gt.
Proof.
  cbv beta zeta. change (Pos.compare_cont Eq) with Pos.compare. intros H1 H2.
  destruct (Z.compare_spec e1 e2), (Z.compare_spec e2 e3), (Z.compare_spec e1 e3);
    destruct (Pos.compare_spec m1 m2), (Pos.compare_spec m2 m3), (Pos.compare_spec m1 m3);
    simpl in *; try congruence; try (exfalso; lia).
Qed.

Lemma leb_not_Gt (x y : number) :
  leb x y = true <-> exists c, SFcompare x y = Some c /\ c <> Gt.
Proof.
  unfold leb, SFleb. destruct (SFcompare x y) as [[]|]; split;
    try (intros _; eexists; split; [reflexivity | discriminate]);
    try discriminate; try reflexivity;
    intros (c & H & Hc); congruence.
Qed.

(** [<=] on JS numbers is transitive (a comparison with NaN is false). *)
Lemma leb_trans (x y z : number) : leb x y = true -> leb y z = true -> leb x z = true.
Proof.
  rewrite !leb_not_Gt. intros (c1 & H1 & Hc1) (c2 & H2 & Hc2).
  destruct x as [sx|sx| |sx mx ex], y as [sy|sy| |sy my ey], z as [sz|sz| |sz mz ez];
    try discriminate; simpl in *;
    try (destruct sx); try (destruct sy); try (destruct sz);
    simplify_eq; try (eexists; split; [reflexivity | discriminate]);
    try congruence.
  - eexists; split; [reflexivity|].
    eapply finite_compare_trans_opp; eassumption.
  - eexists; split; [reflexivity|].
    eapply finite_compare_trans; eassumption.
Qed.

(** [Math.max(a, b) <= t] holds exactly when [a <= t && b <= t]. *)
Lemma leb_Math_max (a b t : number) :
  leb (Math_max a b) t = leb a t && leb b t.
Proof.
  unfold Math_max.
  destruct (isNaN a) eqn:Ha; [destruct a; try discriminate; reflexivity|].
  destruct (isNaN b) eqn:Hb;
    [destruct b; try discriminate; cbn; unfold leb; simpl;
     destruct (SFleb a t); reflexivity|].
  cbn [orb].
  destruct (ltb b a) eqn:E1.
  - destruct (leb a t) eqn:Hat; [|reflexivity]. symmetry. cbn.
    eapply leb_trans; [|exact Hat]. by apply ltb_leb.
  - assert (leb a b = true) as Hab by (by apply not_ltb_leb).
    assert ((if ltb a b then b else match a with S754_zero false => a | _ => b end) = b
            \/ (a = S754_zero false /\ ltb a b = false)) as [-> | [-> Hlt]].
    { destruct (ltb a b); [by left|]. destruct a as [[]| | |]; auto. }
    + destruct (leb b t) eqn:Hbt; [|by rewrite andb_false_r].
      rewrite andb_true_r. symmetry. by eapply leb_trans.
    + rewrite Hlt. clear Ha.
      destruct b as [sb|sb| |sb mb eb]; try discriminate.
      * destruct t as [[]|[]| |[]]; reflexivity.
      * destruct sb; discriminate.
      * destruct sb; discriminate.
Qed.

(** A clamped number lies between the bounds. *)
Lemma clamp_bounds (lo hi x : number) :
  isNaN lo = false -> isNaN hi = false -> leb lo hi = true -> isNaN x = false ->
  leb lo (clamp lo hi x) = true /\ leb (clamp lo hi x) hi = true.
Proof.
  intros Hlo Hhi Hlh Hx. unfold clamp.
  destruct (Math_min_cases hi x Hhi Hx) as [Hm Hmle].
  assert (isNaN (Math_min hi x) = false) as Hmn by (destruct Hm as [-> | ->]; assumption).
  destruct (Math_max_cases lo (Math_min hi x) Hlo Hmn) as [HM HMle].
  split; [assumption|]. destruct HM as [-> | ->]; assumption.
Qed.

(** A number between the bounds is left as it is. *)
Lemma clamp_in_range (lo hi x : number) :
  isNaN lo = false -> isNaN hi = false -> isNaN x = false ->
  falsy lo = false -> falsy hi = false ->
  leb lo x = true -> leb x hi = true -> clamp lo hi x = x.
Proof.
  intros Hlo Hhi Hx Zlo Zhi H1 H2. unfold clamp.
  assert (Math_min hi x = x) as ->.
  { unfold Math_min. rewrite Hhi, Hx. simpl.
    assert (ltb hi x = false) as ->.
    { unfold ltb, leb, SFltb, SFleb in *. rewrite (SFcompare_antisym x hi).
      destruct (SFcompare x hi) as [[]|]; simpl; congruence. }
    destruct (ltb x hi); [reflexivity|].
    destruct hi as [[]| | |]; try discriminate; reflexivity. }
  unfold Math_max. rewrite Hlo, Hx. simpl.
  assert (ltb x lo = false) as ->.
  { unfold ltb, leb, SFltb, SFleb in *. rewrite (SFcompare_antisym lo x).
    destruct (SFcompare lo x) as [[]|]; simpl; congruence. }
  destruct (ltb lo x); [reflexivity|].
  destruct lo as [[]| | |]; try discriminate; reflexivity.
Qed.

End NumberOrder.

(** ** The coordinate sanitizer *)

Section Sanitizer.

Example parseFloat_latitude : parse_string "40.97989806962013" = guatemala_lat.
Proof. reflexivity. Qed.

Example parseFloat_prefix : parse_string "  -67.5abc" = guatemala_lng.
Proof. vm_compute. reflexivity. Qed.

Example parseFloat_garbage : parseFloat (JStr "north") = NaN.
Proof. reflexivity. Qed.

Example sanitize_garbage : sanitizeCoordinates (JStr "north") (JNum zero) = None.
Proof. reflexivity. Qed.

Example sanitize_clamps_finite :
  sanitizeCoordinates (JStr "123.5") (JStr "-200")
  = Some {| lat := n90; lng := neg180 |}.
Proof. vm_compute. reflexivity. Qed.

(** C7 (amended).  The sanitizer is a total function on numbers and strings.
    It returns the invalid marker exactly when one of the two parsed
    components is NaN; otherwise it returns the coordinate obtained by
    clamping, whose latitude lies in [-90, 90] and whose longitude lies in
    [-180, 180].  An infinite component is not rejected: it is clamped to
    the bound of its sign. *)
Theorem sanitizeCoordinates_total (lat0 lng0 : jsval) :
  match sanitizeCoordinates lat0 lng0 with
  | None => isNaN (parseFloat lat0) || isNaN (parseFloat lng0) = true
  | Some c =>
      isNaN (parseFloat lat0) || isNaN (parseFloat lng0) = false /\
      lat c = clamp neg90 n90 (parseFloat lat0) /\
      lng c = clamp neg180 n180 (parseFloat lng0) /\
      leb neg90 (lat c) = true /\ leb (lat c) n90 = true /\
      leb neg180 (lng c) = true /\ leb (lng c) n180 = true
  end /\
  (forall s1 s2 : bool,
     sanitizeCoordinates (JNum (S754_infinity s1)) (JNum (S754_infinity s2))
     = Some {| lat := if s1 then neg90 else n90; lng := if s2 then neg180 else n180 |}).
Proof.
  split.
  - unfold sanitizeCoordinates.
    destruct (isNaN (parseFloat lat0)) eqn:Hlat; [reflexivity|].
    destruct (isNaN (parseFloat lng0)) eqn:Hlng; [reflexivity|]. simpl.
    destruct (clamp_bounds neg90 n90 (parseFloat lat0)) as [? ?];
      try reflexivity; try assumption.
    destruct (clamp_bounds neg180 n180 (parseFloat lng0)) as [? ?];
      try reflexivity; try assumption.
    repeat split; assumption.
  - intros [] []; reflexivity.
Qed.

(** C7, counterexample.  Positive infinity is not a finite number, and the
    sanitizer still returns a coordinate for it (latitude 90) instead of the
    invalid marker. *)
Lemma sanitizeCoordinates_accepts_infinity :
  isFinite Infinity = false /\
  sanitizeCoordinates (JNum Infinity) (JNum zero) = Some {| lat := n90; lng := zero |}.
Proof. split; reflexivity. Qed.

End Sanitizer.

(** ** Strings *)

Section Strings.

Lemma string_app_cons (x : ascii) (a b : string) : String x a ++ b = String x (a ++ b).
Proof. reflexivity. Qed.

Lemma string_app_nil_l (a : string) : "" ++ a = a.
Proof. reflexivity. Qed.

Lemma string_app_assoc (a b c : string) : (a ++ b) ++ c = a ++ (b ++ c).
Proof.
  induction a as [|x a IH]; [reflexivity|].
  rewrite !string_app_cons. f_equal. exact IH.
Qed.

Lemma string_app_nil_r (a : string) : a ++ "" = a.
Proof.
  induction a as [|x a IH]; [reflexivity|].
  rewrite string_app_cons. f_equal. exact IH.
Qed.

Lemma string_length_app (a b : string) :
  String.length (a ++ b) = (String.length a + String.length b)%nat.
Proof.
  induction a as [|x a IH]; [reflexivity|].
  rewrite string_app_cons. simpl. f_equal. exact IH.
Qed.

Lemma substring_skip (pre s : string) (m : nat) :
  String.substring (String.length pre) m (pre ++ s) = String.substring 0 m s.
Proof.
  induction pre as [|x pre IH]; [reflexivity|].
  rewrite string_app_cons. simpl. exact IH.
Qed.

Lemma concat_cons (x : string) (l : list string) :
  String.concat "" (x :: l) = x ++ String.concat "" l.
Proof. destruct l; simpl; [by rewrite string_app_nil_r | reflexivity]. Qed.

Lemma js_length_app (a b : string) : js_length (a ++ b) = (js_length a + js_length b)%nat.
Proof.
  induction a as [|x a IH]; [reflexivity|].
  rewrite string_app_cons. simpl. rewrite IH. lia.
Qed.

(** A code unit below 256 is one character, whether it takes one byte or
    two. *)
Lemma js_length_fromCharCode (n : N) : (n < 256)%N -> js_length (fromCharCode n) = 1%nat.
Proof.
  intros Hn. unfold fromCharCode.
  destruct (n <? 128)%N eqn:E.
  - apply N.ltb_lt in E. simpl. unfold is_continuation, code.
    rewrite N_ascii_embedding by lia.
    replace (128 <=? n)%N with false by (symmetry; apply N.leb_gt; lia).
    replace (240 <=? n)%N with false by (symmetry; apply N.leb_gt; lia). reflexivity.
  - apply N.ltb_ge in E.
    replace (n <? 2048)%N with true by (symmetry; apply N.ltb_lt; lia).
    assert (n / 64 < 4)%N by (apply N.Div0.div_lt_upper_bound; lia).
    assert (n mod 64 < 64)%N by (apply N.mod_upper_bound; discriminate).
    set (q := (n / 64)%N) in *. set (r := (n mod 64)%N) in *.
    simpl. unfold is_continuation, code. rewrite !N_ascii_embedding by lia.
    replace (128 <=? 192 + q)%N with true by (symmetry; apply N.leb_le; lia).
    replace (192 + q <? 192)%N with false by (symmetry; apply N.ltb_ge; lia).
    replace (240 <=? 192 + q)%N with false by (symmetry; apply N.leb_gt; lia).
    replace (128 <=? 128 + r)%N with true by (symmetry; apply N.leb_le; lia).
    replace (128 + r <? 192)%N with true by (symmetry; apply N.ltb_lt; lia).
    reflexivity.
Qed.

Lemma nonempty_app (a b : string) : nonempty a = true -> nonempty (a ++ b) = true.
Proof. destruct a; [discriminate | reflexivity]. Qed.

End Strings.

(** ** The panorama-id decoder *)

Section PanoId.

Example decode_hello : panoIdDecoder (Some "48656c6c6F") = "Hello".
Proof. reflexivity. Qed.

Example decode_odd_length : panoIdDecoder (Some "48656c6c6F7") = "Hello".
Proof. reflexivity. Qed.

Example decode_not_hex : panoIdDecoder (Some "48656g") = "".
Proof. reflexivity. Qed.

Lemma decodePairs_step (a b : ascii) (r : string) :
  decodePairs (String a (String b r)) =
  fromCharCode (16 * hexDigitValue a + hexDigitValue b) ++ decodePairs r.
Proof. unfold decodePairs. simpl pairValues. rewrite map_cons. apply concat_cons. Qed.

(** The loop at index [length pre] of [pre ++ rest] appends the pairs of
    [rest]; one unit of fuel per pair, and one for the exit, is enough. *)
Lemma decodeLoop_spec (fuel : nat) : forall (pre rest acc : string),
  (String.length rest <= 2 * fuel + 1)%nat ->
  decodeLoop fuel (pre ++ rest) (String.length pre) acc = acc ++ decodePairs rest.
Proof.
  induction fuel as [|fuel IH]; intros pre rest acc Hfuel.
  - destruct rest as [|a [|b r]]; simpl in Hfuel; try lia;
      simpl; by rewrite string_app_nil_r.
  - cbn [decodeLoop]. rewrite string_length_app.
    destruct rest as [|a [|b r]].
    + simpl String.length.
      replace (String.length pre <? String.length pre + 0)%nat with false
        by (symmetry; apply Nat.ltb_ge; lia).
      by rewrite string_app_nil_r.
    + simpl String.length.
      replace (String.length pre <? String.length pre + 1)%nat with true
        by (symmetry; apply Nat.ltb_lt; lia).
      replace (String.length pre + 1 <=? String.length pre + 1)%nat with true
        by (symmetry; apply Nat.leb_le; lia).
      by rewrite string_app_nil_r.
    + simpl String.length.
      replace (String.length pre <? String.length pre + S (S (String.length r)))%nat
        with true by (symmetry; apply Nat.ltb_lt; lia).
      replace (String.length pre + S (S (String.length r)) <=? String.length pre + 1)%nat
        with false by (symmetry; apply Nat.leb_gt; lia).
      unfold substring.
      replace (String.length pre + 2 - String.length pre)%nat with 2%nat by lia.
      rewrite substring_skip. simpl String.substring.
      assert (String.substring 0 0 r = "") as -> by (destruct r; reflexivity).
      assert (parseInt16 (String a (String b "")) = (16 * hexDigitValue a + hexDigitValue b)%N)
        as -> by (unfold parseInt16; simpl; lia).
      replace (pre ++ String a (String b r)) with ((pre ++ String a (String b "")) ++ r)
        by (rewrite string_app_assoc; reflexivity).
      replace (String.length pre + 2)%nat with (String.length (pre ++ String a (String b "")))
        by (rewrite string_length_app; simpl; lia).
      rewrite IH by (simpl in Hfuel; lia).
      rewrite decodePairs_step, string_app_assoc. reflexivity.
Qed.

Lemma hexDigitValue_lt (a : ascii) : isHexDigit a = true -> (hexDigitValue a < 16)%N.
Proof.
  unfold isHexDigit, hexDigitValue. intros H.
  destruct ((48 <=? code a)%N && (code a <=? 57)%N) eqn:E1.
  - apply andb_true_iff in E1 as [?%N.leb_le ?%N.leb_le]. lia.
  - destruct ((97 <=? code a)%N && (code a <=? 102)%N) eqn:E2.
    + apply andb_true_iff in E2 as [?%N.leb_le ?%N.leb_le]. lia.
    + simpl in H. apply andb_true_iff in H as [?%N.leb_le ?%N.leb_le]. lia.
Qed.

Lemma pairValues_length : forall (n : nat) (s : string),
  (String.length s <= n)%nat -> length (pairValues s) = (String.length s / 2)%nat.
Proof.
  induction n as [|n IH]; intros s Hn.
  - destruct s; simpl in *; [reflexivity | lia].
  - destruct s as [|a [|b r]]; try reflexivity.
    simpl pairValues. simpl length. simpl String.length. rewrite IH by (simpl in Hn; lia).
    change (S (S (String.length r))) with (1 * 2 + String.length r)%nat.
    rewrite (Nat.add_comm (1 * 2)), Nat.div_add by lia. lia.
Qed.

Lemma js_length_decodePairs : forall (n : nat) (s : string),
  (String.length s <= n)%nat -> allHex s = true ->
  js_length (decodePairs s) = length (pairValues s).
Proof.
  induction n as [|n IH]; intros s Hn Hhex.
  - destruct s; simpl in *; [reflexivity | lia].
  - destruct s as [|a [|b r]]; try reflexivity.
    rewrite decodePairs_step, js_length_app. simpl in Hhex.
    apply andb_true_iff in Hhex as [Ha Hhex]. apply andb_true_iff in Hhex as [Hb Hr].
    apply hexDigitValue_lt in Ha, Hb.
    rewrite js_length_fromCharCode by lia.
    rewrite IH by (simpl in Hn; try lia; assumption). reflexivity.
Qed.

(** C10.  The decoder is a total function to strings.  A missing, empty or
    non-hexadecimal id gives the empty string; a hexadecimal id of length [n]
    gives the characters of its consecutive digit pairs, [n / 2] of them, a
    last digit without a partner being dropped. *)
Theorem panoIdDecoder_total (geoguessrPanoId : option string) :
  panoIdDecoder geoguessrPanoId =
    match geoguessrPanoId with
    | Some id =>
        if isHexString id then String.concat "" (map fromCharCode (pairValues id)) else ""
    | None => ""
    end /\
  js_length (panoIdDecoder geoguessrPanoId) =
    match geoguessrPanoId with
    | Some id => if isHexString id then (String.length id / 2)%nat else 0%nat
    | None => 0%nat
    end.
Proof.
  destruct geoguessrPanoId as [id|]; [|split; reflexivity].
  unfold panoIdDecoder, isHexString.
  destruct id as [|a r]; [split; reflexivity|].
  cbn [nonempty negb andb].
  destruct (allHex (String a r)) eqn:Hhex; [|split; reflexivity].
  cbn [negb].
  pose proof (decodeLoop_spec (String.length (String a r)) "" (String a r) "") as H.
  rewrite !string_app_nil_l in H. change (String.length "") with 0%nat in H.
  rewrite H by lia. fold (decodePairs (String a r)).
  split; [reflexivity|].
  rewrite (js_length_decodePairs _ _ (le_n _) Hhex).
  apply (pairValues_length _ _ (le_n _)).
Qed.

End PanoId.

(** ** Reading [gameState] behind its setters *)

Lemma roundLocations_set_guessCountry v (gs : GameState.t) :
  GameState.roundLocations (GameState.set_guessCountry v gs) = GameState.roundLocations gs.
Proof. reflexivity. Qed.

Lemma roundLocations_set_actualLocation v (gs : GameState.t) :
  GameState.roundLocations (GameState.set_actualLocation v gs) = GameState.roundLocations gs.
Proof. reflexivity. Qed.

Lemma roundLocations_set_actualCountry v (gs : GameState.t) :
  GameState.roundLocations (GameState.set_actualCountry v gs) = GameState.roundLocations gs.
Proof. reflexivity. Qed.

Lemma roundLocations_set_countryData v (gs : GameState.t) :
  GameState.roundLocations (GameState.set_countryData v gs) = GameState.roundLocations gs.
Proof. reflexivity. Qed.

Lemma roundLocations_set_guessCountryData v (gs : GameState.t) :
  GameState.roundLocations (GameState.set_guessCountryData v gs) = GameState.roundLocations gs.
Proof. reflexivity. Qed.

Lemma roundLocations_set_missedClues v (gs : GameState.t) :
  GameState.roundLocations (GameState.set_missedClues v gs) = GameState.roundLocations gs.
Proof. reflexivity. Qed.

Lemma roundLocations_set_locationOverview v (gs : GameState.t) :
  GameState.roundLocations (GameState.set_locationOverview v gs) = GameState.roundLocations gs.
Proof. reflexivity. Qed.

Lemma roundLocations_set_userMissedClues v (gs : GameState.t) :
  GameState.roundLocations (GameState.set_userMissedClues v gs) = GameState.roundLocations gs.
Proof. reflexivity. Qed.

Lemma roundLocations_set_userReminder v (gs : GameState.t) :
  GameState.roundLocations (GameState.set_userReminder v gs) = GameState.roundLocations gs.
Proof. reflexivity. Qed.

Lemma roundLocations_set_roundLocations v (gs : GameState.t) :
  GameState.roundLocations (GameState.set_roundLocations v gs) = v.
Proof. reflexivity. Qed.

Lemma roundLocations_set_currentRoundKey v (gs : GameState.t) :
  GameState.roundLocations (GameState.set_currentRoundKey v gs) = GameState.roundLocations gs.
Proof. reflexivity. Qed.

Lemma roundLocations_set_cardCreatedForRound v (gs : GameState.t) :
  GameState.roundLocations (GameState.set_cardCreatedForRound v gs) = GameState.roundLocations gs.
Proof. reflexivity. Qed.

Lemma roundLocations_set_cancelCardCreation v (gs : GameState.t) :
  GameState.roundLocations (GameState.set_cancelCardCreation v gs) = GameState.roundLocations gs.
Proof. reflexivity. Qed.

Lemma currentRoundKey_set_guessCountry v (gs : GameState.t) :
  GameState.currentRoundKey (GameState.set_guessCountry v gs) = GameState.currentRoundKey gs.
Proof. reflexivity. Qed.

Lemma currentRoundKey_set_actualLocation v (gs : GameState.t) :
  GameState.currentRoundKey (GameState.set_actualLocation v gs) = GameState.currentRoundKey gs.
Proof. reflexivity. Qed.

Lemma currentRoundKey_set_actualCountry v (gs : GameState.t) :
  GameState.currentRoundKey (GameState.set_actualCountry v gs) = GameState.currentRoundKey gs.
Proof. reflexivity. Qed.

Lemma currentRoundKey_set_countryData v (gs : GameState.t) :
  GameState.currentRoundKey (GameState.set_countryData v gs) = GameState.currentRoundKey gs.
Proof. reflexivity. Qed.

Lemma currentRoundKey_set_guessCountryData v (gs : GameState.t) :
  GameState.currentRoundKey (GameState.set_guessCountryData v gs) = GameState.currentRoundKey gs.
Proof. reflexivity. Qed.

Lemma currentRoundKey_set_missedClues v (gs : GameState.t) :
  GameState.currentRoundKey (GameState.set_missedClues v gs) = GameState.currentRoundKey gs.
Proof. reflexivity. Qed.

Lemma currentRoundKey_set_locationOverview v (gs : GameState.t) :
  GameState.currentRoundKey (GameState.set_locationOverview v gs) = GameState.currentRoundKey gs.
Proof. reflexivity. Qed.

Lemma currentRoundKey_set_userMissedClues v (gs : GameState.t) :
  GameState.currentRoundKey (GameState.set_userMissedClues v gs) = GameState.currentRoundKey gs.
Proof. reflexivity. Qed.

Lemma currentRoundKey_set_userReminder v (gs : GameState.t) :
  GameState.currentRoundKey (GameState.set_userReminder v gs) = GameState.currentRoundKey gs.
Proof. reflexivity. Qed.

Lemma currentRoundKey_set_roundLocations v (gs : GameState.t) :
  GameState.currentRoundKey (GameState.set_roundLocations v gs) = GameState.currentRoundKey gs.
Proof. reflexivity. Qed.

Lemma currentRoundKey_set_currentRoundKey v (gs : GameState.t) :
  GameState.currentRoundKey (GameState.set_currentRoundKey v gs) = v.
Proof. reflexivity. Qed.

Lemma currentRoundKey_set_cardCreatedForRound v (gs : GameState.t) :
  GameState.currentRoundKey (GameState.set_cardCreatedForRound v gs) = GameState.currentRoundKey gs.
Proof. reflexivity. Qed.

Lemma currentRoundKey_set_cancelCardCreation v (gs : GameState.t) :
  GameState.currentRoundKey (GameState.set_cancelCardCreation v gs) = GameState.currentRoundKey gs.
Proof. reflexivity. Qed.

Lemma roundLocations_updateRound (key : string) f (gs : GameState.t) :
  GameState.roundLocations (updateRound key f gs) = alter f key (GameState.roundLocations gs).
Proof. reflexivity. Qed.

Lemma currentRoundKey_updateRound (key : string) f (gs : GameState.t) :
  GameState.currentRoundKey (updateRound key f gs) = GameState.currentRoundKey gs.
Proof. reflexivity. Qed.

Create Rewrite HintDb gs.
#[global] Hint Rewrite
  roundLocations_set_guessCountry roundLocations_set_actualLocation
  roundLocations_set_actualCountry roundLocations_set_countryData
  roundLocations_set_guessCountryData roundLocations_set_missedClues
  roundLocations_set_locationOverview roundLocations_set_userMissedClues
  roundLocations_set_userReminder roundLocations_set_roundLocations
  roundLocations_set_currentRoundKey roundLocations_set_cardCreatedForRound
  roundLocations_set_cancelCardCreation currentRoundKey_set_guessCountry
  currentRoundKey_set_actualLocation currentRoundKey_set_actualCountry
  currentRoundKey_set_countryData currentRoundKey_set_guessCountryData
  currentRoundKey_set_missedClues currentRoundKey_set_locationOverview
  currentRoundKey_set_userMissedClues currentRoundKey_set_userReminder
  currentRoundKey_set_roundLocations currentRoundKey_set_currentRoundKey
  currentRoundKey_set_cardCreatedForRound currentRoundKey_set_cancelCardCreation
  roundLocations_updateRound currentRoundKey_updateRound : gs.

(** Pushes the two projections through every setter in sight. *)
Ltac gs_simpl := autorewrite with gs in *.

Section RoundKeys.

Lemma resolveRoundKey_Some_truthy (key : string) (gs : GameState.t) :
  truthy (Some key) = true -> resolveRoundKey (Some key) gs = Some key.
Proof. intros H. unfold resolveRoundKey. by rewrite H. Qed.


Lemma generateRoundKey_nonempty (page : Page) : nonempty (generateRoundKey page) = true.
Proof.
  unfold generateRoundKey. apply nonempty_app.
  destruct (truthy (gameId page)) eqn:E; [|reflexivity].
  destruct (gameId page); [exact E | discriminate].
Qed.

Example roundKey_of_page : generateRoundKey Examples.page1 = Examples.key1.
Proof. reflexivity. Qed.

End RoundKeys.

(** ** Clue synthesis *)

Section ClueProperties.

Lemma arraysHaveSameElements_true (arr1 arr2 : list string) :
  arraysHaveSameElements arr1 arr2 = true <->
  length arr1 = length arr2 /\ (forall x, x ∈ arr2 -> x ∈ arr1).
Proof.
  unfold arraysHaveSameElements.
  destruct (Nat.eqb_spec (length arr1) (length arr2)) as [Hlen|Hlen]; cbn [negb].
  - rewrite forallb_forall. split.
    + intros H. split; [assumption|]. intros x Hx.
      apply list_elem_of_In, H in Hx. apply bool_decide_eq_true in Hx.
      by apply elem_of_list_to_set in Hx.
    + intros [_ H] x Hx. apply bool_decide_eq_true, elem_of_list_to_set, H.
      by apply list_elem_of_In.
  - split; [discriminate | intros [? _]; contradiction].
Qed.

(** On arrays without repeated elements the function decides equality of
    the two sets. *)
Lemma arraysHaveSameElements_NoDup (arr1 arr2 : list string) :
  NoDup arr1 -> NoDup arr2 ->
  (arraysHaveSameElements arr1 arr2 = true <->
   list_to_set arr1 =@{gset string} list_to_set arr2).
Proof.
  intros Hd1 Hd2. rewrite arraysHaveSameElements_true. split.
  - intros [Hlen Hsub].
    assert (arr2 ≡ₚ arr1) as Hp.
    { apply submseteq_length_Permutation; [|lia]. by apply NoDup_submseteq. }
    apply set_eq. intros x. rewrite !elem_of_list_to_set. by rewrite Hp.
  - intros Heq.
    assert (forall x, x ∈ arr1 <-> x ∈ arr2) as Hiff.
    { intros x. rewrite <- !(elem_of_list_to_set (C:=gset string)). by rewrite Heq. }
    split; [|intros x; apply Hiff].
    apply Permutation_length, NoDup_Permutation; assumption.
Qed.

Lemma drivingSideClue_category (rd : RoundData.t) (c : Clue) :
  drivingSideClue rd = Some c -> category c = "Driving Side".
Proof.
  unfold drivingSideClue. destruct (bothInfos rd) as [[ai gai]|]; [|discriminate].
  destruct (strict_ne _ _); [|discriminate]. by intros [= <-].
Qed.

Lemma languageClue_category (rd : RoundData.t) (c : Clue) :
  languageClue rd = Some c -> category c = "Language".
Proof.
  unfold languageClue. destruct (bothInfos rd) as [[ai gai]|]; [|discriminate].
  destruct (languages ai), (languages gai); try discriminate.
  destruct (negb _); [|discriminate]. by intros [= <-].
Qed.

Lemma tldClue_category (rd : RoundData.t) (c : Clue) :
  tldClue rd = Some c -> category c = "Internet TLD".
Proof.
  unfold tldClue. destruct (bothInfos rd) as [[ai gai]|]; [|discriminate].
  destruct (strict_ne _ _); [|discriminate]. by intros [= <-].
Qed.

Lemma regionClue_category (rd : RoundData.t) (c : Clue) :
  regionClue rd = Some c -> category c = "Geographic Region".
Proof.
  unfold regionClue. destruct (RoundData.locationOverview rd); [|discriminate].
  destruct (truthy _); [|discriminate]. by intros [= <-].
Qed.

Lemma coverageClue_category (rd : RoundData.t) (c : Clue) :
  coverageClue rd = Some c -> category c = "Coverage Type".
Proof.
  unfold coverageClue. destruct (RoundData.locationOverview rd) as [ov|]; [|discriminate].
  destruct (coverage_type ov) as [ty|]; [|discriminate].
  destruct (truthy _); [|discriminate]. by intros [= <-].
Qed.

(** Names the category of each conditional push that pushed. *)
Ltac name_categories :=
  repeat match goal with
  | H : drivingSideClue _ = Some _ |- _ => apply drivingSideClue_category in H
  | H : languageClue _ = Some _ |- _ => apply languageClue_category in H
  | H : tldClue _ = Some _ |- _ => apply tldClue_category in H
  | H : regionClue _ = Some _ |- _ => apply regionClue_category in H
  | H : coverageClue _ = Some _ |- _ => apply coverageClue_category in H
  end.

Ltac case_pushes rd :=
  let E := fresh "E" in
  destruct (drivingSideClue rd) eqn:E;
  let E := fresh "E" in
  destruct (languageClue rd) eqn:E;
  let E := fresh "E" in
  destruct (tldClue rd) eqn:E;
  let E := fresh "E" in
  destruct (regionClue rd) eqn:E;
  let E := fresh "E" in
  destruct (coverageClue rd) eqn:E;
  name_categories.

Lemma languageClue_emitted (rd : RoundData.t) (ai gai : AdditionalInfo)
    (actualLangs guessLangs : list string) :
  bothInfos rd = Some (ai, gai) ->
  languages ai = Some actualLangs -> languages gai = Some guessLangs ->
  is_Some (languageClue rd) <-> arraysHaveSameElements actualLangs guessLangs = false.
Proof.
  intros Hb Ha Hg. unfold languageClue. rewrite Hb, Ha, Hg.
  destruct (arraysHaveSameElements actualLangs guessLangs); simpl.
  - split; [intros [? ?]; discriminate | discriminate].
  - split; [reflexivity | eauto].
Qed.

Lemma hasLanguageClue_generateClues (rd : RoundData.t) :
  countriesDiffer rd = true ->
  hasLanguageClue (generateClues rd None) = bool_decide (is_Some (languageClue rd)).
Proof.
  intros Hd. unfold generateClues. rewrite Hd.
  assert (hasLanguageClue (omap id (conditionalPushes rd))
          = bool_decide (is_Some (languageClue rd))) as Hpushed.
  { unfold conditionalPushes. case_pushes rd;
      cbn [omap list_omap id hasLanguageClue existsb];
      repeat match goal with H : category _ = _ |- _ => rewrite H; clear H end;
      reflexivity. }
  unfold withGeneric. destruct (_ <? 2)%nat; [|exact Hpushed].
  unfold hasLanguageClue in *. rewrite existsb_app, Hpushed. cbn. apply orb_false_r.
Qed.

(** The fallback clue of the [catch] handler is the only clue of its
    category. *)
Lemma general_clues_of_fault (rd : RoundData.t) (k : nat) :
  filter (fun c => category c = "General")
         (omap id (take k (conditionalPushes rd)) ++ [fallbackClue rd])%list
  = [fallbackClue rd].
Proof.
  rewrite filter_app.
  assert (filter (fun c => category c = "General")
                 (omap id (take k (conditionalPushes rd))) = []) as ->.
  { unfold conditionalPushes. case_pushes rd;
      do 6 (try destruct k as [|k]);
      cbn [take omap list_omap id];
      repeat (rewrite filter_cons_False
                by (match goal with H : category _ = _ |- _ => rewrite H end; discriminate));
      reflexivity. }
  reflexivity.
Qed.

Lemma withGeneric_nonempty (rd : RoundData.t) (pushed : list Clue) :
  withGeneric rd pushed <> [].
Proof. unfold withGeneric. destruct pushed as [|c1 [|c2 pushed]]; cbn; discriminate. Qed.

Lemma countriesDiffer_spec (rd : RoundData.t) :
  truthy (RoundData.country rd) = true -> truthy (RoundData.guessCountry rd) = true ->
  countriesDiffer rd = true <-> RoundData.country rd <> RoundData.guessCountry rd.
Proof.
  intros H1 H2. unfold countriesDiffer, strict_ne. rewrite H1, H2. cbn [andb].
  destruct (decide (RoundData.country rd = RoundData.guessCountry rd)); split; congruence.
Qed.

Lemma generateClues_empty_iff (rd : RoundData.t) (fault : option nat) :
  generateClues rd fault = [] <-> countriesDiffer rd = false.
Proof.
  unfold generateClues. destruct (countriesDiffer rd); [|split; reflexivity].
  split; [|discriminate]. intros H. exfalso.
  destruct fault as [k|]; [destruct (k <? 6)%nat|].
  - by apply app_eq_nil in H as [_ ?].
  - by apply withGeneric_nonempty in H.
  - by apply withGeneric_nonempty in H.
Qed.

(** What [prepareCountryClues] leaves under the key it worked on. *)
Lemma prepareCountryClues_record (fault : option nat) (roundKey : option string)
    (key : string) (rd : RoundData.t) (gs : GameState.t) :
  resolveRoundKey roundKey gs = Some key ->
  GameState.roundLocations gs !! key = Some rd ->
  GameState.roundLocations (prepareCountryClues fault roundKey gs) !! key
    = Some (RoundData.set_missedClues (Some (generateClues rd fault)) rd) /\
  GameState.missedClues (prepareCountryClues fault roundKey gs) = generateClues rd fault.
Proof.
  intros Hkey Hrd. unfold prepareCountryClues. rewrite Hkey, Hrd.
  split; [|reflexivity]. gs_simpl. rewrite lookup_alter_eq, Hrd. reflexivity.
Qed.

Lemma prepareCountryClues_other (fault : option nat) (roundKey : option string)
    (gs : GameState.t) (other : string) :
  resolveRoundKey roundKey gs <> Some other ->
  GameState.roundLocations (prepareCountryClues fault roundKey gs) !! other
    = GameState.roundLocations gs !! other.
Proof.
  intros Hne. unfold prepareCountryClues.
  destruct (resolveRoundKey roundKey gs) as [key|]; [|reflexivity].
  destruct (GameState.roundLocations gs !! key); [|reflexivity].
  gs_simpl. apply lookup_alter_ne. congruence.
Qed.

Lemma prepareCountryClues_key (fault : option nat) (roundKey : option string)
    (gs : GameState.t) :
  GameState.currentRoundKey (prepareCountryClues fault roundKey gs)
  = GameState.currentRoundKey gs.
Proof.
  unfold prepareCountryClues.
  destruct (resolveRoundKey roundKey gs) as [key|]; [|reflexivity].
  destruct (GameState.roundLocations gs !! key); reflexivity.
Qed.

Lemma countryAt_prepareCountryClues (fault : option nat) (roundKey : option string)
    (key : string) (gs : GameState.t) :
  countryAt key (prepareCountryClues fault roundKey gs) = countryAt key gs.
Proof.
  unfold countryAt, prepareCountryClues.
  destruct (resolveRoundKey roundKey gs) as [k|]; [|reflexivity].
  destruct (GameState.roundLocations gs !! k) as [rd|] eqn:Hrd; [|reflexivity].
  gs_simpl. destruct (decide (k = key)) as [->|Hne].
  - rewrite lookup_alter_eq, Hrd. reflexivity.
  - by rewrite lookup_alter_ne.
Qed.

(** C3.  For a record with both countries present, clue generation leaves a
    clue list that is empty exactly when the two countries are the same
    string.  When they differ the list is not empty, also when the guarded
    block throws: the handler then pushes one fallback clue, the only clue of
    category "General", which names the actual country. *)
Theorem clues_empty_iff_same_country (fault : option nat) (roundKey : option string)
    (key : string) (rd : RoundData.t) (gs : GameState.t) :
  resolveRoundKey roundKey gs = Some key ->
  GameState.roundLocations gs !! key = Some rd ->
  truthy (RoundData.country rd) = true ->
  truthy (RoundData.guessCountry rd) = true ->
  RoundData.missedClues <$> GameState.roundLocations (prepareCountryClues fault roundKey gs) !! key
    = Some (Some (generateClues rd fault)) /\
  GameState.missedClues (prepareCountryClues fault roundKey gs) = generateClues rd fault /\
  (generateClues rd fault = [] <-> RoundData.country rd = RoundData.guessCountry rd) /\
  (forall k : nat,
     fault = Some k -> (k < 6)%nat ->
     RoundData.country rd <> RoundData.guessCountry rd ->
     filter (fun c => category c = "General") (generateClues rd fault) = [fallbackClue rd] /\
     clue (fallbackClue rd)
       = "Pay attention to distinctive features in " ++ tpl (RoundData.country rd) ++ ".").
Proof.
  intros Hkey Hrd Hc Hg.
  destruct (prepareCountryClues_record fault roundKey key rd gs Hkey Hrd) as [Hrec Hgs].
  pose proof (countriesDiffer_spec rd Hc Hg) as Hspec.
  split; [by rewrite Hrec|]. split; [exact Hgs|]. split.
  - rewrite generateClues_empty_iff.
    destruct (countriesDiffer rd); split; intros H; try congruence.
    + exfalso. by apply Hspec.
    + destruct (decide (RoundData.country rd = RoundData.guessCountry rd)) as [|Hne];
        [assumption|]. apply Hspec in Hne. discriminate.
  - intros k -> Hk Hne. apply Hspec in Hne. apply Nat.ltb_lt in Hk.
    unfold generateClues. rewrite Hne, Hk. split; [apply general_clues_of_fault|].
    unfold fallbackClue. cbn [clue]. by rewrite Hc.
Qed.

Lemma clues_empty_iff_same_country_witness :
  resolveRoundKey (Some Examples.key1)
    (Examples.gsGuessed (Examples.guessedRound "France" ["French"] "Spain" ["Spanish"]))
    = Some Examples.key1 /\
  GameState.roundLocations
    (Examples.gsGuessed (Examples.guessedRound "France" ["French"] "Spain" ["Spanish"]))
    !! Examples.key1
    = Some (Examples.guessedRound "France" ["French"] "Spain" ["Spanish"]) /\
  (generateClues (Examples.guessedRound "France" ["French"] "Spain" ["Spanish"]) None = []
   <-> Some "France" = Some "Spain").
Proof.
  split; [reflexivity|]. split; [reflexivity|].
  apply (clues_empty_iff_same_country None (Some Examples.key1) Examples.key1
           (Examples.guessedRound "France" ["French"] "Spain" ["Spanish"])
           (Examples.gsGuessed (Examples.guessedRound "France" ["French"] "Spain" ["Spanish"])));
    reflexivity.
Defined.

(** C9.  For a record in which the actual country or the guess country is
    absent, clue generation sets the clue list of the record (and of
    [gameState]) to the empty list, whatever clues the record held before;
    the two countries of the record stay as they are. *)
Theorem clues_reset_when_country_missing (fault : option nat) (roundKey : option string)
    (key : string) (rd : RoundData.t) (gs : GameState.t) :
  resolveRoundKey roundKey gs = Some key ->
  GameState.roundLocations gs !! key = Some rd ->
  truthy (RoundData.country rd) = false \/ truthy (RoundData.guessCountry rd) = false ->
  RoundData.missedClues <$> GameState.roundLocations (prepareCountryClues fault roundKey gs) !! key
    = Some (Some []) /\
  GameState.missedClues (prepareCountryClues fault roundKey gs) = [] /\
  RoundData.country <$> GameState.roundLocations (prepareCountryClues fault roundKey gs) !! key
    = Some (RoundData.country rd) /\
  RoundData.guessCountry
    <$> GameState.roundLocations (prepareCountryClues fault roundKey gs) !! key
    = Some (RoundData.guessCountry rd).
Proof.
  intros Hkey Hrd Hmiss.
  destruct (prepareCountryClues_record fault roundKey key rd gs Hkey Hrd) as [Hrec Hgs].
  assert (generateClues rd fault = []) as Hnil.
  { apply generateClues_empty_iff. unfold countriesDiffer.
    destruct Hmiss as [-> | ->]; [reflexivity|]. by rewrite andb_false_r. }
  rewrite Hrec, Hgs, Hnil. repeat split; reflexivity.
Qed.

Lemma clues_reset_when_country_missing_witness :
  resolveRoundKey None (Examples.gsGuessed Examples.staleCluesRound) = Some Examples.key1 /\
  GameState.roundLocations (Examples.gsGuessed Examples.staleCluesRound) !! Examples.key1
    = Some Examples.staleCluesRound /\
  truthy (RoundData.country Examples.staleCluesRound) = false /\
  RoundData.missedClues Examples.staleCluesRound
    = Some [{| category := "Language"; clue := "France's language(s): French" |}] /\
  RoundData.missedClues
    <$> GameState.roundLocations
          (prepareCountryClues None None (Examples.gsGuessed Examples.staleCluesRound))
        !! Examples.key1
  = Some (Some []).
Proof.
  split; [reflexivity|]. split; [reflexivity|]. split; [reflexivity|]. split; [reflexivity|].
  exact (proj1 (clues_reset_when_country_missing None None Examples.key1
                  Examples.staleCluesRound (Examples.gsGuessed Examples.staleCluesRound)
                  eq_refl eq_refl (or_introl eq_refl))).
Defined.

(** C6 (amended).  For language lists without repeated entries (and with the
    countries different and both enrichments present), the language clue is
    emitted exactly when the two lists differ as sets. *)
Theorem language_clue_iff_sets_differ (rd : RoundData.t) (ai gai : AdditionalInfo)
    (actualLangs guessLangs : list string) :
  countriesDiffer rd = true ->
  bothInfos rd = Some (ai, gai) ->
  languages ai = Some actualLangs -> languages gai = Some guessLangs ->
  NoDup actualLangs -> NoDup guessLangs ->
  hasLanguageClue (generateClues rd None) = true <->
  list_to_set actualLangs <> (list_to_set guessLangs : gset string).
Proof.
  intros Hd Hb Ha Hg Hn1 Hn2.
  rewrite (hasLanguageClue_generateClues rd Hd), bool_decide_eq_true.
  rewrite (languageClue_emitted rd ai gai actualLangs guessLangs Hb Ha Hg).
  rewrite <- (arraysHaveSameElements_NoDup _ _ Hn1 Hn2).
  destruct (arraysHaveSameElements actualLangs guessLangs); split; congruence.
Qed.

Lemma language_clue_iff_sets_differ_witness :
  countriesDiffer (Examples.guessedRound "France" ["French"] "Spain" ["Spanish"]) = true /\
  NoDup ["French"] /\ NoDup ["Spanish"] /\
  (hasLanguageClue
     (generateClues (Examples.guessedRound "France" ["French"] "Spain" ["Spanish"]) None) = true
   <-> list_to_set ["French"] <> (list_to_set ["Spanish"] : gset string)).
Proof.
  split; [reflexivity|].
  split; [apply NoDup_singleton|]. split; [apply NoDup_singleton|].
  eapply (language_clue_iff_sets_differ
            (Examples.guessedRound "France" ["French"] "Spain" ["Spanish"]));
    [reflexivity | reflexivity | reflexivity | reflexivity
     | apply NoDup_singleton | apply NoDup_singleton].
Defined.

(** C6, counterexample.  With a repeated entry the claim fails in both
    directions: the lists [Spanish, English] and [Spanish, Spanish] differ as
    sets and no language clue is emitted; the lists [Spanish] and
    [Spanish, Spanish] are the same set and a language clue is emitted. *)
Lemma language_clue_with_repeated_entries :
  (list_to_set ["Spanish"; "English"] <> (list_to_set ["Spanish"; "Spanish"] : gset string) /\
   hasLanguageClue
     (generateClues
        (Examples.guessedRound "Spain" ["Spanish"; "English"] "Mexico" ["Spanish"; "Spanish"])
        None) = false) /\
  (list_to_set ["Spanish"] = (list_to_set ["Spanish"; "Spanish"] : gset string) /\
   hasLanguageClue
     (generateClues
        (Examples.guessedRound "Spain" ["Spanish"] "Mexico" ["Spanish"; "Spanish"])
        None) = true).
Proof.
  split; (split; [|reflexivity]).
  - intros H. assert ("English" ∈ (list_to_set ["Spanish"; "Spanish"] : gset string)) as Hin
      by (rewrite <- H; set_solver).
    set_solver.
  - set_solver.
Qed.

End ClueProperties.

(** ** The card compiler *)

Section CardProperties.

Lemma getSingleDistinctiveClue_frame (B : Builtins) (key : string) (gs1 gs2 : GameState.t) :
  nonempty key = true ->
  GameState.roundLocations gs1 !! key = GameState.roundLocations gs2 !! key ->
  getSingleDistinctiveClue B (Some key) gs1 = getSingleDistinctiveClue B (Some key) gs2.
Proof.
  intros Hk Heq. unfold getSingleDistinctiveClue.
  rewrite !(resolveRoundKey_Some_truthy key) by assumption. by rewrite Heq.
Qed.

(** The text of a card reads [gameState] only through the record of its
    round and the two fields of the user. *)
Lemma compileCard_frame (B : Builtins) (glyphs : Glyphs) (settings : Settings)
    (useDefaults : bool) (key : string) (rd : RoundData.t) (gs1 gs2 : GameState.t) :
  nonempty key = true ->
  GameState.roundLocations gs1 !! key = GameState.roundLocations gs2 !! key ->
  GameState.userMissedClues gs1 = GameState.userMissedClues gs2 ->
  GameState.userReminder gs1 = GameState.userReminder gs2 ->
  compileCard B glyphs settings useDefaults key rd gs1
  = compileCard B glyphs settings useDefaults key rd gs2.
Proof.
  intros Hk Hrec Hclues Hrem. unfold compileCard.
  rewrite Hclues, Hrem, (getSingleDistinctiveClue_frame B key gs1 gs2 Hk Hrec).
  reflexivity.
Qed.

(** C8.  Card compilation reads nothing but its inputs: two states with
    the same round key, the same record under it and the same user fields
    give, with the same settings, the same result, front and back text
    included. *)
Theorem buildAnkiCardData_deterministic (B : Builtins) (settings : Settings)
    (gs1 gs2 : GameState.t) :
  GameState.currentRoundKey gs1 = GameState.currentRoundKey gs2 ->
  currentRecord gs1 = currentRecord gs2 ->
  GameState.userMissedClues gs1 = GameState.userMissedClues gs2 ->
  GameState.userReminder gs1 = GameState.userReminder gs2 ->
  V100.buildAnkiCardData B settings gs1 = V100.buildAnkiCardData B settings gs2.
Proof.
  intros Hkey Hrec Hclues Hrem. unfold V100.buildAnkiCardData, currentRecord in *.
  rewrite <- Hkey in *.
  destruct (truthy (GameState.currentRoundKey gs1)) eqn:Ht; [|reflexivity].
  rewrite <- Hrec.
  destruct (GameState.roundLocations gs1 !! _) as [rd|] eqn:Hrd; [|reflexivity].
  destruct (_ || _); [reflexivity|]. f_equal.
  apply compileCard_frame; try assumption.
  - destruct (GameState.currentRoundKey gs1) as [k|]; [exact Ht | discriminate].
  - congruence.
Qed.

Lemma buildAnkiCardData_deterministic_witness :
  currentRecord
    (Examples.gsGuessed (Examples.guessedRound "France" ["French"] "Spain" ["Spanish"]))
  = currentRecord
      (GameState.set_actualCountry (Some "Italy")
         (Examples.gsGuessed (Examples.guessedRound "France" ["French"] "Spain" ["Spanish"]))) /\
  V100.buildAnkiCardData Examples.unusedBuiltins Examples.defaultSettings
    (Examples.gsGuessed (Examples.guessedRound "France" ["French"] "Spain" ["Spanish"]))
  = V100.buildAnkiCardData Examples.unusedBuiltins Examples.defaultSettings
      (GameState.set_actualCountry (Some "Italy")
         (Examples.gsGuessed (Examples.guessedRound "France" ["French"] "Spain" ["Spanish"]))).
Proof.
  split; [reflexivity|].
  apply buildAnkiCardData_deterministic; reflexivity.
Defined.

(** The same holds for the regular path of version 1.1.0, which moreover
    does not read the page. *)
Lemma buildAnkiCardData_regular_frame (B : Builtins) (settings : Settings)
    (page1 page2 : Page) (gs1 gs2 : GameState.t) :
  GameState.currentRoundKey gs1 = GameState.currentRoundKey gs2 ->
  currentRecord gs1 = currentRecord gs2 ->
  GameState.userMissedClues gs1 = GameState.userMissedClues gs2 ->
  GameState.userReminder gs1 = GameState.userReminder gs2 ->
  (V110.buildAnkiCardData B settings false page1 gs1).2
  = (V110.buildAnkiCardData B settings false page2 gs2).2.
Proof.
  intros Hkey Hrec Hclues Hrem. unfold V110.buildAnkiCardData, currentRecord in *.
  rewrite <- Hkey in *.
  destruct (truthy (GameState.currentRoundKey gs1)) eqn:Ht; [|reflexivity].
  rewrite <- Hrec.
  destruct (GameState.roundLocations gs1 !! _) as [rd|] eqn:Hrd; [|reflexivity].
  unfold V110.cardGuards. destruct (_ || _); [reflexivity|].
  rewrite <- Hrec, Hrd. cbn [snd]. f_equal.
  apply compileCard_frame; try assumption.
  - destruct (GameState.currentRoundKey gs1) as [k|]; [exact Ht | discriminate].
  - congruence.
Qed.

(** C4 (amended).  On the regular path (version 1.0.0, and version 1.1.0
    called without [useDefaults]) the card compiler returns the failure
    value whenever the current round has no record, no actual country or no
    guess country, and leaves the state as it is; a card it does build
    carries the actual country of the record. *)
Theorem card_refused_without_country (B : Builtins) (settings : Settings) (page : Page)
    (gs : GameState.t) :
  (countriesKnown gs = false ->
   V100.buildAnkiCardData B settings gs = None /\
   V110.buildAnkiCardData B settings false page gs = (gs, None)) /\
  (forall card : CardData,
     V100.buildAnkiCardData B settings gs = Some card \/
     V110.buildAnkiCardData B settings false page gs = (gs, Some card) ->
     exists rd, currentRecord gs = Some rd /\
                truthy (RoundData.country rd) = true /\
                card_actualCountry card = RoundData.country rd).
Proof.
  unfold countriesKnown, V100.buildAnkiCardData, V110.buildAnkiCardData, currentRecord.
  destruct (truthy (GameState.currentRoundKey gs));
    [|split; [split; reflexivity | intros card [H|H]; discriminate]].
  destruct (GameState.roundLocations gs !! _) as [rd|] eqn:Hrd;
    [|split; [split; reflexivity | intros card [H|H]; discriminate]].
  unfold V110.cardGuards.
  destruct (truthy (RoundData.country rd)) eqn:Hc;
    [|split; [split; reflexivity | intros card [H|H]; discriminate]].
  destruct (truthy (RoundData.guessCountry rd)) eqn:Hg;
    [|split; [split; reflexivity | intros card [H|H]; discriminate]].
  cbn [negb orb andb]. rewrite Hrd. split; [discriminate|].
  intros card [H|H]; exists rd; (split; [reflexivity|]); (split; [exact Hc|]).
  - by injection H as <-.
  - by injection H as <-.
Qed.

Lemma card_refused_without_country_witness :
  countriesKnown Examples.gsRound1 = false /\
  V100.buildAnkiCardData Examples.unusedBuiltins Examples.defaultSettings Examples.gsRound1
    = None.
Proof.
  split; [reflexivity|].
  apply (card_refused_without_country Examples.unusedBuiltins Examples.defaultSettings
           Examples.page1 Examples.gsRound1).
  reflexivity.
Defined.

(** C4, counterexample.  Round 1 has a record without any country and the
    page gives none; called with [useDefaults], the compiler of version
    1.1.0 still builds a card, for the actual country "Unknown Country". *)
Lemma instant_add_fabricates_country :
  currentRecord Examples.gsRound1 = Some Examples.emptyRound /\
  RoundData.country Examples.emptyRound = None /\
  domCountry Examples.page1 = None /\
  card_actualCountry <$>
    (V110.buildAnkiCardData Examples.unusedBuiltins Examples.defaultSettings true
       Examples.page1 Examples.gsRound1).2
  = Some (Some "Unknown Country").
Proof. repeat split. Qed.

End CardProperties.

(** ** The override table *)

Section OverrideProperties.

(** The country codes of the override table are ASCII, which is where
    [asciiToLowerCase] is the [toLowerCase] of JS. *)
Lemma override_codes_ascii :
  Forall (fun ov => allAscii (Override.countryCode ov) = true) COUNTRY_OVERRIDES.
Proof. repeat constructor. Qed.

Lemma withinTolerance_not_nan (ov : Override.t) (lat0 lng0 : number) :
  withinTolerance ov lat0 lng0 = true -> isNaN lat0 = false /\ isNaN lng0 = false.
Proof.
  unfold withinTolerance. intros [H1 H2]%andb_true_iff.
  split; [destruct lat0 | destruct lng0]; try reflexivity; discriminate.
Qed.

(** The loop returns the first entry of the table that is within
    tolerance. *)
Lemma checkCountryOverrideIn_Some (table : list Override.t) (lat0 lng0 : number)
    (ov : Override.t) :
  checkCountryOverrideIn table lat0 lng0 = Some ov <->
  exists before after,
    table = (before ++ ov :: after)%list /\
    withinTolerance ov lat0 lng0 = true /\
    Forall (fun o => withinTolerance o lat0 lng0 = false) before.
Proof.
  induction table as [|o table IH]; cbn [checkCountryOverrideIn].
  - split; [discriminate | intros (before & after & H & _); by destruct before].
  - destruct (withinTolerance o lat0 lng0) eqn:Ho.
    + split.
      * intros [= <-]. exists [], table. repeat split; [assumption | constructor].
      * intros (before & after & Heq & Hov & Hb). destruct before as [|b before].
        -- cbn in Heq. by injection Heq as -> _.
        -- cbn in Heq. injection Heq as -> _. apply Forall_cons in Hb as [Hb _]. congruence.
    + rewrite IH. split.
      * intros (before & after & -> & Hov & Hb). exists (o :: before), after.
        repeat split; [assumption | by constructor].
      * intros (before & after & Heq & Hov & Hb). destruct before as [|b before].
        -- cbn in Heq. injection Heq as -> _. congruence.
        -- cbn in Heq. injection Heq as -> ->. apply Forall_cons in Hb as [_ Hb]. eauto.
Qed.

Lemma sanitize_of_numbers (lat0 lng0 : number) :
  isNaN lat0 = false -> isNaN lng0 = false ->
  is_Some (sanitizeCoordinates (JNum lat0) (JNum lng0)).
Proof.
  intros H1 H2. unfold sanitizeCoordinates.
  assert (isNaN (parseFloat (JNum lat0)) = false) as -> by (destruct lat0; done).
  assert (isNaN (parseFloat (JNum lng0)) = false) as -> by (destruct lng0; done).
  cbn. eauto.
Qed.

Lemma checkCountryOverride_guatemala (lat0 lng0 : number) (ov : Override.t) :
  checkCountryOverride lat0 lng0 = Some ov -> ov = guatemala.
Proof.
  unfold checkCountryOverride, COUNTRY_OVERRIDES. cbn [checkCountryOverrideIn].
  destruct (withinTolerance guatemala lat0 lng0); congruence.
Qed.

Example override_near_centre :
  checkCountryOverride (parse_string "41.1") (parse_string "-67.4") = Some guatemala.
Proof. vm_compute. reflexivity. Qed.

Example override_out_of_reach :
  checkCountryOverride (parse_string "41.2") (parse_string "-67.5") = None.
Proof. vm_compute. reflexivity. Qed.

Lemma withinTolerance_guatemala (lat0 lng0 : number) :
  withinTolerance guatemala lat0 lng0
  = leb (abs (sub lat0 guatemala_lat)) n0_2 && leb (abs (sub lng0 guatemala_lng)) n0_2.
Proof. reflexivity. Qed.

(** The test of the loop is the comparison of the Chebyshev distance with
    the tolerance, also on NaN and on infinite differences. *)
Lemma withinTolerance_chebyshev (ov : Override.t) (lat0 lng0 : number) :
  withinTolerance ov lat0 lng0 = leb (chebyshev ov lat0 lng0) (toleranceOf ov).
Proof. unfold withinTolerance, chebyshev. by rewrite leb_Math_max. Qed.

(** C2 (amended).  For a coordinate whose Chebyshev distance from the centre
    of an entry of the override table is at most the tolerance of the entry,
    resolution for the Actual role uses the fact of that entry and sends no
    request: [getCountryInfoFromCoordinates] of version 1.0.0 resolves to the
    fact at once, and [getCountryFromCoordinates] of version 1.1.0, called
    without [isGuess], stores it as the actual country and leaves no call in
    flight.  The table has the one entry for Guatemala, with tolerance 0.2,
    so every such coordinate resolves to "Guatemala". *)
Theorem override_short_circuits_geocoding (lat0 lng0 : number) (ov : Override.t) :
  ov ∈ COUNTRY_OVERRIDES ->
  leb (chebyshev ov lat0 lng0) (toleranceOf ov) = true ->
  checkCountryOverride lat0 lng0 = Some ov /\
  V100.getCountryInfoFromCoordinates lat0 lng0
    = V100.Resolved (Some (overrideCountryData ov)) /\
  (forall gs : GameState.t,
     V110.getCountryFromCoordinates lat0 lng0 false gs
       = (V110.processCountryOverride ov None gs, []) /\
     GameState.actualCountry (V110.processCountryOverride ov None gs)
       = Some (Override.country ov) /\
     GameState.countryData (V110.processCountryOverride ov None gs)
       = Some (overrideCountryData ov)) /\
  Override.country ov = "Guatemala" /\
  Override.coordinates ov = {| lat := guatemala_lat; lng := guatemala_lng |} /\
  toleranceOf ov = n0_2.
Proof.
  intros Hin Hwithin. rewrite <- withinTolerance_chebyshev in Hwithin.
  apply list_elem_of_singleton in Hin as ->.
  assert (checkCountryOverride lat0 lng0 = Some guatemala) as Hov.
  { unfold checkCountryOverride, COUNTRY_OVERRIDES. cbn [checkCountryOverrideIn].
    by rewrite Hwithin. }
  destruct (withinTolerance_not_nan _ _ _ Hwithin) as [Hlat Hlng].
  destruct (sanitize_of_numbers _ _ Hlat Hlng) as [coords Hc].
  split; [exact Hov|]. split; [|split].
  - unfold V100.getCountryInfoFromCoordinates. by rewrite Hc, Hov.
  - intros gs. unfold V110.getCountryFromCoordinates. rewrite Hc, Hov. cbn [negb].
    repeat split.
  - repeat split.
Qed.

Lemma override_short_circuits_geocoding_witness :
  guatemala ∈ COUNTRY_OVERRIDES /\
  leb (chebyshev guatemala (parse_string "41.1") (parse_string "-67.4"))
      (toleranceOf guatemala) = true /\
  V100.getCountryInfoFromCoordinates (parse_string "41.1") (parse_string "-67.4")
    = V100.Resolved (Some (overrideCountryData guatemala)).
Proof.
  split; [apply list_elem_of_here|]. split; [vm_compute; reflexivity|].
  apply (override_short_circuits_geocoding (parse_string "41.1") (parse_string "-67.4")
           guatemala); [apply list_elem_of_here | vm_compute; reflexivity].
Defined.

(** C2, counterexample.  The centre of the Guatemala entry is within its
    tolerance, and for the Guess role version 1.1.0 still sends the
    reverse-geocoding request for it. *)
Lemma guess_role_skips_override :
  leb (chebyshev guatemala guatemala_lat guatemala_lng) (toleranceOf guatemala) = true /\
  V110.getCountryFromCoordinates guatemala_lat guatemala_lng true Examples.gsRound1
  = (Examples.gsRound1,
     [V110.PendingGeocoding
        (AwaitNominatim {| lat := guatemala_lat; lng := guatemala_lng |}) true]) /\
  V110.request
    (V110.PendingGeocoding (AwaitNominatim {| lat := guatemala_lat; lng := guatemala_lng |}) true)
  = NominatimReverse {| lat := guatemala_lat; lng := guatemala_lng |}.
Proof. repeat split. Qed.

End OverrideProperties.

(** ** Late answers and superseded rounds *)

Section StaleRounds.










(** The late answer lands in the record of the round that is current when
    it arrives: here round 2, whose actual country it sets. *)
Example late_answer_lands_in_current_round :
  countryAt Examples.key2
    (V110.afterNominatim Examples.unusedBuiltins false (Some Examples.australiaAnswer)
       Examples.page1 Examples.gsRound2).1
  = Some (Some "Australia") /\
  countryAt Examples.key1
    (V110.afterNominatim Examples.unusedBuiltins false (Some Examples.australiaAnswer)
       Examples.page1 Examples.gsRound2).1
  = Some (Some "France").
Proof. split; reflexivity. Qed.


End StaleRounds.

(** ** The end of a round *)

Section RoundEnd.

Lemma ensureRecord_lookup (key : string) (gs : GameState.t) :
  GameState.roundLocations (ensureRecord key gs) !! key
  = Some (match GameState.roundLocations gs !! key with
          | Some rd => rd
          | None => recordFromState gs
          end).
Proof.
  unfold ensureRecord. destruct (GameState.roundLocations gs !! key) eqn:E; [exact E|].
  gs_simpl. apply lookup_insert_eq.
Qed.

Lemma overrideAt_truthy (loc : option Coordinate) (ov : Override.t) :
  overrideAt loc = Some ov -> truthy (Some (Override.country ov)) = true.
Proof.
  unfold overrideAt. destruct (isValidCoordinate loc); [|discriminate].
  destruct loc as [c|]; [|discriminate].
  intros ->%checkCountryOverride_guatemala. reflexivity.
Qed.

(** The text of the page is used for the actual country only where the
    record has none. *)
Lemma domFallback_lookup (page : Page) (key : string) (gs : GameState.t) (rd : RoundData.t) :
  GameState.roundLocations gs !! key = Some rd ->
  countryAt key (domFallback page key gs)
  = Some (if truthy (RoundData.country rd) then RoundData.country rd
          else if truthy (domCountry page) then domCountry page
          else RoundData.country rd).
Proof.
  intros Hrd. unfold domFallback. rewrite Hrd.
  destruct (truthy (RoundData.country rd)) eqn:Hc; cbn [negb];
    [unfold countryAt; by rewrite Hrd|].
  destruct (truthy (domCountry page)) eqn:Hd; [|unfold countryAt; by rewrite Hrd].
  destruct (domCountry page) as [extracted|] eqn:Hdom; [|discriminate]. cbn [tpl].
  assert (forall g, countryAt key
            (match RoundData.missedClues rd with
             | Some (_ :: _) => g
             | _ => prepareCountryClues None (Some key) g
             end) = countryAt key g) as Hclues.
  { intros g. destruct (RoundData.missedClues rd) as [[|? ?]|];
      try reflexivity; apply countryAt_prepareCountryClues. }
  rewrite Hclues. unfold countryAt.
  destruct (domGuess page); destruct (RoundData.countryData rd);
    gs_simpl; rewrite ?lookup_alter_eq, Hrd; reflexivity.
Qed.

Lemma overrideAtRoundEnd_lookup (key : string) (gs : GameState.t) (rd : RoundData.t) :
  GameState.roundLocations gs !! key = Some rd ->
  exists rd',
    GameState.roundLocations (V100.overrideAtRoundEnd key gs) !! key = Some rd' /\
    RoundData.country rd' = match overrideAt (RoundData.location rd) with
                            | Some ov => Some (Override.country ov)
                            | None => RoundData.country rd
                            end.
Proof.
  intros Hrd. unfold V100.overrideAtRoundEnd, overrideAt. rewrite Hrd.
  destruct (isValidCoordinate (RoundData.location rd)); [|eauto].
  destruct (RoundData.location rd) as [loc|]; [|eauto].
  destruct (checkCountryOverride (lat loc) (lng loc)) as [ov|]; [|eauto].
  gs_simpl. rewrite lookup_alter_eq, Hrd. cbn. eauto.
Qed.

Lemma countryAfter_cases (page : Page) (rd rd' : RoundData.t) :
  RoundData.country rd' = match overrideAt (RoundData.location rd) with
                          | Some ov => Some (Override.country ov)
                          | None => RoundData.country rd
                          end ->
  (if truthy (RoundData.country rd') then RoundData.country rd'
   else if truthy (domCountry page) then domCountry page else RoundData.country rd')
  = countryAfterRoundEnd page rd.
Proof.
  intros ->. unfold countryAfterRoundEnd.
  destruct (overrideAt (RoundData.location rd)) as [ov|] eqn:E; [|reflexivity].
  by rewrite (overrideAt_truthy _ _ E).
Qed.

(** C1 (amended).  At the end of a round, in both versions, the actual
    country of the record follows a fixed order of precedence: a match of
    the record's location in the override table always replaces what the
    record holds; otherwise a country the record already holds is kept; the
    text extracted from the page is used only where the record holds none. *)
Theorem round_end_country_precedence (page : Page) (gs : GameState.t) :
  countryAt (generateRoundKey page) (V100.handleRoundEnd page gs)
    = Some (countryAfterRoundEnd page (recordAtRoundEnd page gs)) /\
  countryAt (generateRoundKey page) (V110.handleRoundEnd page gs)
    = Some (countryAfterRoundEnd page (recordAtRoundEnd page gs)).
Proof.
  set (key := generateRoundKey page). set (inc := recordAtRoundEnd page gs).
  assert (GameState.roundLocations
            (ensureRecord key (GameState.set_currentRoundKey (Some key) gs)) !! key
          = Some inc) as Hinc by apply ensureRecord_lookup.
  split.
  - unfold V100.handleRoundEnd. fold key.
    destruct (overrideAtRoundEnd_lookup key _ inc Hinc) as (rd' & Hrd' & Hc).
    rewrite (domFallback_lookup page key _ rd') by exact Hrd'.
    f_equal. by apply countryAfter_cases.
  - unfold V110.handleRoundEnd. fold key. rewrite Hinc.
    set (gs2 := ensureRecord key _) in *.
    assert (exists rd',
      GameState.roundLocations
        (if isValidCoordinate (RoundData.location inc)
         then match RoundData.location inc with
              | Some loc =>
                  match checkCountryOverride (lat loc) (lng loc) with
                  | Some override => V110.processCountryOverride override (Some key) gs2
                  | None => gs2
                  end
              | None => gs2
              end
         else gs2) !! key = Some rd' /\
      RoundData.country rd' = match overrideAt (RoundData.location inc) with
                              | Some ov => Some (Override.country ov)
                              | None => RoundData.country inc
                              end) as (rd' & Hrd' & Hc).
    { unfold overrideAt. destruct (isValidCoordinate (RoundData.location inc)); [|eauto].
      destruct (RoundData.location inc) as [loc|]; [|eauto].
      destruct (checkCountryOverride (lat loc) (lng loc)) as [ov|]; [|eauto].
      assert (nonempty key = true) as Hk by apply generateRoundKey_nonempty.
      unfold V110.processCountryOverride.
      repeat progress (cbn [truthy tpl]; rewrite ?Hk).
      gs_simpl. rewrite lookup_alter_eq, Hinc. cbn. eauto. }
    rewrite (domFallback_lookup page key _ rd') by exact Hrd'.
    f_equal. by apply countryAfter_cases.
Qed.

(** C1, counterexample.  The record of round 1 has its actual country from
    the override table, the highest rank.  The answer of a geocoding call
    started earlier for other coordinates then comes in, and
    [getCountryFromCoordinates] of version 1.1.0 writes its country over
    the one from the table. *)
Lemma geocoder_overwrites_override :
  countryAt Examples.key1 Examples.gsRound1 = Some None /\
  countryAt Examples.key1 Examples.gsOverridden = Some (Some "Guatemala") /\
  countryAt Examples.key1 Examples.gsLateAnswer = Some (Some "Australia").
Proof. repeat split. Qed.

End RoundEnd.

(** * Further properties of the code *)

(** ** Reading [gameState] behind the setters of the game loop *)

Lemma roundLocations_set_inGame v (gs : GameState.t) :
  GameState.roundLocations (GameState.set_inGame v gs) = GameState.roundLocations gs.
Proof. reflexivity. Qed.

Lemma roundLocations_set_inRound v (gs : GameState.t) :
  GameState.roundLocations (GameState.set_inRound v gs) = GameState.roundLocations gs.
Proof. reflexivity. Qed.

Lemma roundLocations_set_roundNumber v (gs : GameState.t) :
  GameState.roundLocations (GameState.set_roundNumber v gs) = GameState.roundLocations gs.
Proof. reflexivity. Qed.

Lemma roundLocations_set_guessLocation v (gs : GameState.t) :
  GameState.roundLocations (GameState.set_guessLocation v gs) = GameState.roundLocations gs.
Proof. reflexivity. Qed.

Lemma roundLocations_set_score v (gs : GameState.t) :
  GameState.roundLocations (GameState.set_score v gs) = GameState.roundLocations gs.
Proof. reflexivity. Qed.

Lemma currentRoundKey_set_inGame v (gs : GameState.t) :
  GameState.currentRoundKey (GameState.set_inGame v gs) = GameState.currentRoundKey gs.
Proof. reflexivity. Qed.

Lemma currentRoundKey_set_inRound v (gs : GameState.t) :
  GameState.currentRoundKey (GameState.set_inRound v gs) = GameState.currentRoundKey gs.
Proof. reflexivity. Qed.

Lemma currentRoundKey_set_roundNumber v (gs : GameState.t) :
  GameState.currentRoundKey (GameState.set_roundNumber v gs) = GameState.currentRoundKey gs.
Proof. reflexivity. Qed.

Lemma currentRoundKey_set_guessLocation v (gs : GameState.t) :
  GameState.currentRoundKey (GameState.set_guessLocation v gs) = GameState.currentRoundKey gs.
Proof. reflexivity. Qed.

Lemma currentRoundKey_set_score v (gs : GameState.t) :
  GameState.currentRoundKey (GameState.set_score v gs) = GameState.currentRoundKey gs.
Proof. reflexivity. Qed.

#[global] Hint Rewrite
  roundLocations_set_inGame roundLocations_set_inRound roundLocations_set_roundNumber
  roundLocations_set_guessLocation roundLocations_set_score
  currentRoundKey_set_inGame currentRoundKey_set_inRound currentRoundKey_set_roundNumber
  currentRoundKey_set_guessLocation currentRoundKey_set_score : gs.

Lemma inRound_set_round (b : bool) (n : nat) (gs : GameState.t) :
  GameState.inRound (GameState.set_roundNumber n (GameState.set_inRound b gs)) = b.
Proof. reflexivity. Qed.

Lemma inRound_resetRoundData (gs : GameState.t) :
  GameState.inRound (V110.resetRoundData gs) = GameState.inRound gs.
Proof. reflexivity. Qed.


(** ** Coordinates *)

Section CoordinateProperties.

Lemma SFcompare_opp (x y : spec_float) :
  SFcompare (SFopp x) (SFopp y) = SFcompare y x.
Proof.
  destruct x as [sx|sx| |sx mx ex], y as [sy|sy| |sy my ey]; simpl;
    try reflexivity; try (destruct sx; reflexivity); try (destruct sy; reflexivity);
    try (destruct sx, sy; reflexivity).
  pose proof (Pos.compare_cont_antisym mx my Eq) as Hm. simpl in Hm.
  destruct sx, sy; simpl; try reflexivity;
    rewrite (Z.compare_antisym ex ey); destruct (ex ?= ey)%Z; simpl;
    rewrite <- ?Hm, ?CompOpp_involutive; reflexivity.
Qed.

Lemma SFopp_involutive (x : spec_float) : SFopp (SFopp x) = x.
Proof. destruct x as [[]|[]| |[] ? ?]; reflexivity. Qed.

(** [-b <= x <= b] gives [|x| <= b]. *)
Lemma leb_abs (x b : number) :
  leb (SFopp b) x = true -> leb x b = true -> leb (abs x) b = true.
Proof.
  intros Hlo Hhi.
  assert (leb (SFopp x) b = true) as Hopp.
  { unfold leb, SFleb in *. rewrite <- (SFopp_involutive b), SFcompare_opp. exact Hlo. }
  destruct x as [[]|[]| |[] m e]; try exact Hhi; try exact Hopp; try discriminate.
Qed.

(** [|x| <= b] gives [-b <= x <= b], for a positive [b]. *)
Lemma abs_leb (x : number) (mb : positive) (eb : Z) :
  leb (abs x) (S754_finite false mb eb) = true ->
  leb (S754_finite true mb eb) x = true /\ leb x (S754_finite false mb eb) = true.
Proof.
  intros H.
  destruct x as [[]|[]| |[] m e]; try discriminate; try (split; [reflexivity | exact H]);
    try (split; reflexivity).
  split; [|reflexivity].
  unfold leb, SFleb in *.
  change (S754_finite true mb eb) with (SFopp (S754_finite false mb eb)).
  change (S754_finite true m e) with (SFopp (S754_finite false m e)).
  rewrite SFcompare_opp. exact H.
Qed.

Lemma clamp_not_nan (lo hi x : number) :
  isNaN lo = false -> isNaN hi = false -> isNaN x = false -> isNaN (clamp lo hi x) = false.
Proof.
  intros Hlo Hhi Hx. unfold clamp.
  destruct (Math_min_cases hi x Hhi Hx) as [Hm _].
  assert (isNaN (Math_min hi x) = false) as Hmn by (destruct Hm as [-> | ->]; assumption).
  destruct (Math_max_cases lo (Math_min hi x) Hlo Hmn) as [[-> | ->] _]; assumption.
Qed.

(** X1.  [sanitizeCoordinates] returns [null] exactly when one of its
    arguments does not parse to a number, and whatever coordinate it
    returns passes [isValidCoordinate]: no NaN component, a latitude
    within 90 and a longitude within 180 degrees of zero. *)
Theorem sanitized_coordinate_is_valid (lat0 lng0 : jsval) :
  match sanitizeCoordinates lat0 lng0 with
  | Some c =>
      isNaN (parseFloat lat0) = false /\ isNaN (parseFloat lng0) = false /\
      isValidCoordinate (Some c) = true
  | None => isNaN (parseFloat lat0) = true \/ isNaN (parseFloat lng0) = true
  end.
Proof.
  unfold sanitizeCoordinates.
  destruct (isNaN (parseFloat lat0)) eqn:Hlat; [by left|].
  destruct (isNaN (parseFloat lng0)) eqn:Hlng; [by right|].
  cbn [orb]. split; [reflexivity|]. split; [reflexivity|].
  cbn [isValidCoordinate lat lng].
  fold (clamp neg90 n90 (parseFloat lat0)). fold (clamp neg180 n180 (parseFloat lng0)).
  rewrite !clamp_not_nan by (reflexivity || assumption).
  destruct (clamp_bounds neg90 n90 (parseFloat lat0)) as [? ?];
    try reflexivity; try assumption.
  destruct (clamp_bounds neg180 n180 (parseFloat lng0)) as [? ?];
    try reflexivity; try assumption.
  rewrite (leb_abs _ n90), (leb_abs _ n180) by assumption. reflexivity.
Qed.

Lemma parseFloat_JNum_compare (x y : number) :
  SFcompare (parseFloat (JNum x)) y = SFcompare x y /\
  SFcompare y (parseFloat (JNum x)) = SFcompare y x.
Proof. destruct x as [[]|[]| |[] ? ?], y as [[]|[]| |[] ? ?]; split; reflexivity. Qed.

Lemma parseFloat_JNum_isNaN (x : number) : isNaN (parseFloat (JNum x)) = isNaN x.
Proof. by destruct x. Qed.

Lemma sanitize_in_range (x : number) (lo hi : number) (mb : positive) (eb : Z) :
  lo = S754_finite true mb eb -> hi = S754_finite false mb eb ->
  isNaN x = false -> leb (abs x) hi = true ->
  clamp lo hi (parseFloat (JNum x)) = parseFloat (JNum x).
Proof.
  intros -> -> Hx Habs. apply abs_leb in Habs as [H1 H2].
  apply clamp_in_range; try reflexivity.
  - by rewrite parseFloat_JNum_isNaN.
  - unfold leb, SFleb in *. by rewrite (proj2 (parseFloat_JNum_compare x _)).
  - unfold leb, SFleb in *. by rewrite (proj1 (parseFloat_JNum_compare x _)).
Qed.

Lemma sanitizeCoordinates_valid (c : Coordinate) :
  isValidCoordinate (Some c) = true ->
  sanitizeCoordinates (JNum (lat c)) (JNum (lng c))
  = Some {| lat := parseFloat (JNum (lat c)); lng := parseFloat (JNum (lng c)) |}.
Proof.
  unfold isValidCoordinate. intros H.
  apply andb_prop in H as [H H4]. apply andb_prop in H as [H H3].
  apply andb_prop in H as [H1 H2]. apply negb_true_iff in H1, H2.
  unfold sanitizeCoordinates. rewrite !parseFloat_JNum_isNaN, H1, H2. cbn [orb].
  fold (clamp neg90 n90 (parseFloat (JNum (lat c)))).
  fold (clamp neg180 n180 (parseFloat (JNum (lng c)))).
  rewrite (sanitize_in_range (lat c) neg90 n90 _ _ eq_refl eq_refl H1 H3).
  rewrite (sanitize_in_range (lng c) neg180 n180 _ _ eq_refl eq_refl H2 H4).
  reflexivity.
Qed.

(** X2.  A stored coordinate that passes [isValidCoordinate] goes through
    [sanitizeCoordinates] again without being rejected or moved: the result
    holds the two numbers as [parseFloat] reads them back, which is the
    coordinate itself unless a component is the negative zero. *)
Theorem valid_coordinate_passes_sanitizer (c : Coordinate) :
  isValidCoordinate (Some c) = true ->
  sanitizeCoordinates (JNum (lat c)) (JNum (lng c))
  = Some {| lat := parseFloat (JNum (lat c)); lng := parseFloat (JNum (lng c)) |} /\
  (lat c <> S754_zero true -> lng c <> S754_zero true ->
   sanitizeCoordinates (JNum (lat c)) (JNum (lng c)) = Some c).
Proof.
  intros H. pose proof (sanitizeCoordinates_valid c H) as Hs.
  split; [exact Hs|]. intros Hlat Hlng. rewrite Hs. destruct c as [la ln]. cbn in *.
  f_equal. f_equal.
  - destruct la as [[]| | |]; done.
  - destruct ln as [[]| | |]; done.
Qed.

Lemma valid_coordinate_passes_sanitizer_witness :
  isValidCoordinate (Some {| lat := guatemala_lat; lng := guatemala_lng |}) = true /\
  sanitizeCoordinates (JNum guatemala_lat) (JNum guatemala_lng)
  = Some {| lat := guatemala_lat; lng := guatemala_lng |}.
Proof.
  split; [reflexivity|].
  exact (proj2 (valid_coordinate_passes_sanitizer
                  {| lat := guatemala_lat; lng := guatemala_lng |} eq_refl)
               ltac:(discriminate) ltac:(discriminate)).
Defined.

End CoordinateProperties.

(** ** The link of a card *)

Section LinkProperties.

Lemma startsWith_app (p s : string) : startsWith p (p ++ s) = true.
Proof.
  induction p as [|a p IH]; [reflexivity|].
  rewrite string_app_cons. cbn [startsWith]. by rewrite Ascii.eqb_refl, IH.
Qed.

Lemma startsWith_app_l (q p s : string) :
  startsWith q p = true -> startsWith q (p ++ s) = true.
Proof.
  revert p. induction q as [|a q IH]; intros p; [reflexivity|].
  destruct p as [|b p]; [discriminate|]. rewrite string_app_cons. cbn [startsWith].
  intros [-> H]%andb_prop. by rewrite IH.
Qed.

Lemma createStreetViewLink_shape (B : Builtins) (lat0 lng0 : jsval) (panoId : option string)
    (heading pitch zoom : number) :
  createStreetViewLink B lat0 lng0 panoId heading pitch zoom = "#" \/
  startsWith mapsPrefix (createStreetViewLink B lat0 lng0 panoId heading pitch zoom) = true.
Proof.
  unfold createStreetViewLink, simpleLink.
  destruct (sanitizeCoordinates lat0 lng0); [right | by left].
  destruct (negb (truthy panoId)); [apply (startsWith_app mapsPrefix)|].
  destruct (negb (nonempty (panoIdDecoder panoId))); apply (startsWith_app mapsPrefix).
Qed.

(** X3.  The link of a card is a Google Maps address or the placeholder:
    for a record with a valid location the link [buildAnkiCardData] puts on
    the card starts with [https://www.google.com/maps/@], whatever the
    panorama id of the record decodes to, and for a record without one it
    is ["#"]. *)
Theorem card_link_is_maps_url (B : Builtins) (glyphs : Glyphs) (settings : Settings)
    (useDefaults : bool) (roundKey : string) (roundData : RoundData.t) (gs : GameState.t) :
  let link := mapsLink (compileCard B glyphs settings useDefaults roundKey roundData gs) in
  if isValidCoordinate (RoundData.location roundData)
  then startsWith mapsPrefix link = true
  else link = "#".
Proof.
  change (mapsLink (compileCard B glyphs settings useDefaults roundKey roundData gs))
    with (cardMapsLink B roundData). cbv zeta.
  unfold cardMapsLink.
  destruct (isValidCoordinate (RoundData.location roundData)) eqn:Hv; [|reflexivity].
  destruct (RoundData.location roundData) as [loc|]; [|discriminate].
  cbv zeta.
  match goal with
  | |- context [if ?c then _ else _] =>
      match c with
      | (_ || _ || _)%bool => destruct c eqn:Hc
      end
  end.
  - apply (startsWith_app mapsPrefix).
  - apply orb_false_elim in Hc as [Hc _]. apply orb_false_elim in Hc as [_ Hc].
    apply bool_decide_eq_false in Hc.
    destruct (truthy (RoundData.panoId roundData)).
    + destruct (createStreetViewLink_shape B (JStr (toFixed6 B (lat loc)))
                  (JStr (toFixed6 B (lng loc))) (RoundData.panoId roundData)
                  (or_default (RoundData.heading roundData) zero)
                  (or_default (RoundData.pitch roundData) zero)
                  (or_default (RoundData.zoom roundData) zero)) as [H|H]; [by destruct Hc | exact H].
    + apply (startsWith_app mapsPrefix).
Qed.

End LinkProperties.

(** ** Round keys name one round *)

Section RoundKeyInjective.









End RoundKeyInjective.

(** ** The debug log *)

Section DebugLog.

Lemma keepLast_all {A : Type} (n : nat) (l : list A) : (length l <= n)%nat -> keepLast n l = l.
Proof. intros H. unfold keepLast. by replace (length l - n)%nat with 0%nat by lia. Qed.

Lemma keepLast_length {A : Type} (n : nat) (l : list A) :
  (length (keepLast n l) <= n)%nat.
Proof. unfold keepLast. rewrite length_drop. lia. Qed.

Lemma keepLast_app {A : Type} (n : nat) (l k : list A) :
  keepLast n (keepLast n l ++ k)%list = keepLast n (l ++ k)%list.
Proof.
  destruct (Nat.le_gt_cases (length l) n) as [H|H]; [by rewrite (keepLast_all n l)|].
  unfold keepLast. rewrite !length_app, length_drop.
  rewrite <- (drop_app_le l k (length l - n)) by lia.
  rewrite drop_drop. f_equal. lia.
Qed.

Lemma trimLogs_keepLast (d : Debug.t) :
  (0 < Debug.maxLogs d)%nat ->
  Debug.logs (Debug.trimLogs d) = keepLast (Debug.maxLogs d) (Debug.logs d) /\
  Debug.enabled (Debug.trimLogs d) = Debug.enabled d /\
  Debug.maxLogs (Debug.trimLogs d) = Debug.maxLogs d.
Proof.
  intros Hmax. unfold Debug.trimLogs.
  destruct (Nat.ltb_spec (Debug.maxLogs d) (length (Debug.logs d))) as [H|H]; cbn.
  - unfold Debug.sliceFromEnd.
    destruct (Nat.eqb_spec (Debug.maxLogs d) 0) as [E|E]; [lia|]. done.
  - by rewrite keepLast_all.
Qed.

Lemma push_keepLast (e : Debug.Entry) (d : Debug.t) :
  (0 < Debug.maxLogs d)%nat ->
  Debug.logs (Debug.push e d) = keepLast (Debug.maxLogs d) (Debug.logs d ++ [e])%list /\
  Debug.enabled (Debug.push e d) = Debug.enabled d /\
  Debug.maxLogs (Debug.push e d) = Debug.maxLogs d.
Proof.
  intros Hmax. unfold Debug.push.
  apply (trimLogs_keepLast
           {| Debug.enabled := Debug.enabled d; Debug.logs := (Debug.logs d ++ [e])%list;
              Debug.maxLogs := Debug.maxLogs d |}).
  exact Hmax.
Qed.

(** X5.  The debug log is a bounded window: after any sequence of calls
    of [log], [warn], [error], [trimLogs] and of switching the flag, the
    log holds the last [maxLogs] of the entries it held and was asked to
    record, in order, and never more than [maxLogs] entries.  [error]
    records whatever the flag is; [log] and [warn] record only while it is
    set. *)
Theorem debug_log_keeps_latest_entries (calls : list DebugCall) (d : Debug.t) :
  (0 < Debug.maxLogs d)%nat ->
  (length (Debug.logs d) <= Debug.maxLogs d)%nat ->
  Debug.logs (foldl (fun d c => debugCall c d) d calls)
  = keepLast (Debug.maxLogs d) (Debug.logs d ++ requestedEntries (Debug.enabled d) calls)%list /\
  (length (Debug.logs (foldl (fun d c => debugCall c d) d calls)) <= Debug.maxLogs d)%nat.
Proof.
  intros Hmax Hlen.
  assert (Debug.logs (foldl (fun d c => debugCall c d) d calls)
          = keepLast (Debug.maxLogs d)
              (Debug.logs d ++ requestedEntries (Debug.enabled d) calls)%list) as ->;
    [|split; [reflexivity | apply keepLast_length]].
  revert d Hmax Hlen.
  assert (forall (calls : list DebugCall) (d : Debug.t) (history : list Debug.Entry),
            (0 < Debug.maxLogs d)%nat ->
            Debug.logs d = keepLast (Debug.maxLogs d) history ->
            Debug.logs (foldl (fun d c => debugCall c d) d calls)
            = keepLast (Debug.maxLogs d)
                (history ++ requestedEntries (Debug.enabled d) calls)%list) as Hgen.
  { clear calls. intros calls. induction calls as [|c calls IH]; intros d history Hmax Hd.
    - cbn. by rewrite app_nil_r.
    - cbn [foldl].
      assert (forall (e : Debug.Entry),
                Debug.logs (foldl (fun d c => debugCall c d) (Debug.push e d) calls)
                = keepLast (Debug.maxLogs d)
                    (history ++ e :: requestedEntries (Debug.enabled d) calls)%list) as Hpush.
      { intros e. destruct (push_keepLast e d Hmax) as (Hl & He & Hm).
        rewrite (IH (Debug.push e d) (history ++ [e])%list).
        - by rewrite Hm, He, <- app_assoc.
        - by rewrite Hm.
        - by rewrite Hl, Hm, Hd, keepLast_app. }
      destruct c as [t m data | t m err | t m data | | checked]; cbn [debugCall requestedEntries].
      + unfold Debug.log. destruct (Debug.enabled d) eqn:He; cbn [negb].
        * rewrite Hpush. reflexivity.
        * rewrite (IH d history Hmax Hd), He. reflexivity.
      + unfold Debug.error. apply Hpush.
      + unfold Debug.warn. destruct (Debug.enabled d) eqn:He; cbn [negb].
        * rewrite Hpush. reflexivity.
        * rewrite (IH d history Hmax Hd), He. reflexivity.
      + destruct (trimLogs_keepLast d Hmax) as (Hl & He & Hm).
        rewrite (IH (Debug.trimLogs d) history).
        * by rewrite Hm, He.
        * by rewrite Hm.
        * rewrite Hl, Hm, Hd. rewrite <- (app_nil_r (keepLast _ history)) at 1.
          rewrite keepLast_app, app_nil_r. reflexivity.
      + apply (IH (Debug.setEnabled checked d) history Hmax Hd). }
  intros d Hmax Hlen. apply Hgen; [exact Hmax | by rewrite keepLast_all].
Qed.

Lemma debug_log_keeps_latest_entries_witness :
  let calls := [CallLog "t1" "started" None; CallSetEnabled false;
                CallWarn "t2" "dropped" None; CallError "t3" "failed" (Some "stack")] in
  (0 < Debug.maxLogs Examples.debug0)%nat /\
  (length (Debug.logs Examples.debug0) <= Debug.maxLogs Examples.debug0)%nat /\
  Debug.logs (foldl (fun d c => debugCall c d) Examples.debug0 calls)
  = keepLast 100 [Debug.mkEntry "t1" "INFO" "started" (Debug.DataField None);
                  Debug.mkEntry "t3" "ERROR" "failed" (Debug.ErrorField (Some "stack"))].
Proof.
  split; [cbn; lia|]. split; [cbn; lia|].
  exact (proj1 (debug_log_keeps_latest_entries _ Examples.debug0
                  ltac:(cbn; lia) ltac:(cbn; lia))).
Defined.

End DebugLog.

(** ** Notes adapted to the note type *)

Section NoteProperties.
Variable toLowerCaseJs : string -> string.
Variables Front Back : string.

Lemma adaptFields_loop (availableFields : list string) :
  forall (adaptedFields : gmap string string) (field : string),
  foldl (fun adaptedFields field =>
           assignField field (fieldText toLowerCaseJs Front Back field) adaptedFields)
        adaptedFields availableFields !! field
  = if bool_decide (field ∈ availableFields /\ field <> "__proto__")
    then Some (fieldText toLowerCaseJs Front Back field)
    else adaptedFields !! field.
Proof.
  induction availableFields as [|f l IH]; intros acc field; cbn [foldl].
  - rewrite bool_decide_eq_false_2; [reflexivity|]. intros [H _]. by apply elem_of_nil in H.
  - rewrite IH. unfold assignField.
    destruct (decide (field ∈ l /\ field <> "__proto__")) as [[Hin Hne]|Hn].
    + rewrite !bool_decide_eq_true_2; [reflexivity | |]; split; try assumption.
      by apply elem_of_cons; right.
    + rewrite (bool_decide_eq_false_2 _ Hn).
      destruct (decide (f = "__proto__")) as [->|Hf].
      * rewrite bool_decide_eq_true_2 by reflexivity.
        rewrite bool_decide_eq_false_2; [reflexivity|].
        intros [[->|Hin]%elem_of_cons Hne]; [done|]. by apply Hn.
      * rewrite (bool_decide_eq_false_2 (f = "__proto__")) by assumption.
        destruct (decide (field = f)) as [->|Hne].
        -- rewrite lookup_insert_eq. rewrite bool_decide_eq_true_2; [reflexivity|].
           split; [apply elem_of_cons; by left | assumption].
        -- rewrite lookup_insert_ne by congruence.
           rewrite bool_decide_eq_false_2; [reflexivity|].
           intros [[->|Hin]%elem_of_cons Hp]; [done|]. by apply Hn.
Qed.

(** X6.  The fields [sendNoteToAnki] sends for a note type: when the
    type has both a field [Front] and a field [Back] the note goes out as
    it is; otherwise the note gets exactly the fields of the type (but for
    a field named [__proto__], which a JS object cannot hold), each with
    the text [fieldText] picks for its name, and no other field. *)
Theorem adapted_note_fields (availableFields : list string) :
  if bool_decide ("Front" ∈ availableFields) && bool_decide ("Back" ∈ availableFields)
  then adaptFields toLowerCaseJs Front Back availableFields
       = <["Back" := Back]> (<["Front" := Front]> ∅)
  else forall field : string,
         adaptFields toLowerCaseJs Front Back availableFields !! field
         = if bool_decide (field ∈ availableFields /\ field <> "__proto__")
           then Some (fieldText toLowerCaseJs Front Back field)
           else None.
Proof.
  unfold adaptFields.
  destruct (bool_decide ("Front" ∈ availableFields) && bool_decide ("Back" ∈ availableFields));
    [reflexivity|].
  intros field. rewrite adaptFields_loop. by rewrite lookup_empty.
Qed.

End NoteProperties.

(** ** The end of a round leaves the other rounds alone *)

Section RoundEndFrame.

Lemma prepareCountryClues_dialogFields fault roundKey (gs : GameState.t) :
  dialogFields (prepareCountryClues fault roundKey gs) = dialogFields gs.
Proof.
  unfold prepareCountryClues.
  destruct (resolveRoundKey roundKey gs) as [key|]; [|reflexivity].
  destruct (GameState.roundLocations gs !! key); reflexivity.
Qed.

Lemma domFallback_dialogFields (page : Page) (key : string) (gs : GameState.t) :
  dialogFields (domFallback page key gs) = dialogFields gs.
Proof.
  unfold domFallback.
  destruct (GameState.roundLocations gs !! key) as [rd|]; [|reflexivity].
  destruct (negb (truthy (RoundData.country rd))); [|reflexivity].
  destruct (truthy (domCountry page)); [|reflexivity].
  destruct (RoundData.missedClues rd) as [[|? ?]|];
    rewrite ?prepareCountryClues_dialogFields;
    destruct (domGuess page); destruct (RoundData.countryData rd); reflexivity.
Qed.

Lemma domFallback_key (page : Page) (key : string) (gs : GameState.t) :
  GameState.currentRoundKey (domFallback page key gs) = GameState.currentRoundKey gs.
Proof.
  unfold domFallback.
  destruct (GameState.roundLocations gs !! key) as [rd|]; [|reflexivity].
  destruct (negb (truthy (RoundData.country rd))); [|reflexivity].
  destruct (truthy (domCountry page)); [|reflexivity].
  destruct (RoundData.missedClues rd) as [[|? ?]|];
    rewrite ?prepareCountryClues_key;
    destruct (domGuess page); destruct (RoundData.countryData rd); reflexivity.
Qed.

Lemma domFallback_other (page : Page) (key other : string) (gs : GameState.t) :
  nonempty key = true -> other <> key ->
  GameState.roundLocations (domFallback page key gs) !! other
  = GameState.roundLocations gs !! other.
Proof.
  intros Hk Hne. unfold domFallback.
  destruct (GameState.roundLocations gs !! key) as [rd|]; [|reflexivity].
  destruct (negb (truthy (RoundData.country rd))); [|reflexivity].
  destruct (truthy (domCountry page)); [|reflexivity].
  assert (forall g, GameState.roundLocations
            (match RoundData.missedClues rd with
             | Some (_ :: _) => g
             | _ => prepareCountryClues None (Some key) g
             end) !! other = GameState.roundLocations g !! other) as ->.
  { intros g. destruct (RoundData.missedClues rd) as [[|? ?]|]; try reflexivity;
      apply prepareCountryClues_other; rewrite resolveRoundKey_Some_truthy by exact Hk;
      congruence. }
  destruct (domGuess page); destruct (RoundData.countryData rd);
    gs_simpl; rewrite ?lookup_alter_ne by congruence; reflexivity.
Qed.

Lemma domFallback_is_Some (page : Page) (key : string) (gs : GameState.t) :
  is_Some (GameState.roundLocations gs !! key) ->
  is_Some (GameState.roundLocations (domFallback page key gs) !! key).
Proof.
  intros [rd Hrd]. pose proof (domFallback_lookup page key gs rd Hrd) as H.
  unfold countryAt in H. destruct (GameState.roundLocations (domFallback page key gs) !! key);
    [eauto | discriminate].
Qed.

Lemma ensureRecord_other (key other : string) (gs : GameState.t) :
  other <> key ->
  GameState.roundLocations (ensureRecord key gs) !! other = GameState.roundLocations gs !! other.
Proof.
  intros Hne. unfold ensureRecord. destruct (GameState.roundLocations gs !! key); [reflexivity|].
  gs_simpl. by apply lookup_insert_ne.
Qed.

Lemma ensureRecord_key (key : string) (gs : GameState.t) :
  GameState.currentRoundKey (ensureRecord key gs) = GameState.currentRoundKey gs.
Proof. unfold ensureRecord. destruct (GameState.roundLocations gs !! key); reflexivity. Qed.

Lemma V100_overrideAtRoundEnd_frame (key : string) (gs : GameState.t) :
  GameState.currentRoundKey (V100.overrideAtRoundEnd key gs) = GameState.currentRoundKey gs /\
  (forall other, other <> key ->
     GameState.roundLocations (V100.overrideAtRoundEnd key gs) !! other
     = GameState.roundLocations gs !! other).
Proof.
  unfold V100.overrideAtRoundEnd.
  destruct (GameState.roundLocations gs !! key) as [rd|]; [|done].
  destruct (isValidCoordinate (RoundData.location rd)); [|done].
  destruct (RoundData.location rd) as [loc|]; [|done].
  destruct (checkCountryOverride (lat loc) (lng loc)); [|done].
  split; [reflexivity|]. intros other Hne. gs_simpl. by apply lookup_alter_ne.
Qed.

Lemma processCountryOverride_frame (ov : Override.t) (key : string) (gs : GameState.t) :
  nonempty key = true ->
  GameState.currentRoundKey (V110.processCountryOverride ov (Some key) gs)
  = GameState.currentRoundKey gs /\
  dialogFields (V110.processCountryOverride ov (Some key) gs) = dialogFields gs /\
  (forall other, other <> key ->
     GameState.roundLocations (V110.processCountryOverride ov (Some key) gs) !! other
     = GameState.roundLocations gs !! other).
Proof.
  intros Hk. unfold V110.processCountryOverride.
  repeat progress (cbn [truthy tpl]; rewrite ?Hk).
  split; [reflexivity|]. split; [reflexivity|].
  intros other Hne. gs_simpl. by apply lookup_alter_ne.
Qed.

Lemma V110_handleRoundEnd_done (page : Page) (gs : GameState.t) :
  roundEndDone page gs (V110.handleRoundEnd page gs) /\
  GameState.cancelCardCreation (V110.handleRoundEnd page gs) = false.
Proof.
  unfold roundEndDone.
  set (key := generateRoundKey page).
  assert (nonempty key = true) as Hk by apply generateRoundKey_nonempty.
    unfold V110.handleRoundEnd. fold key.
    set (gs1 := ensureRecord key (GameState.set_currentRoundKey (Some key) gs)).
    pose proof (ensureRecord_lookup key (GameState.set_currentRoundKey (Some key) gs)) as Hrec.
    fold gs1 in Hrec. rewrite Hrec.
    set (inc := match _ with Some rd => rd | None => _ end) in *.
    assert (exists gs2,
      (if isValidCoordinate (RoundData.location inc)
       then match RoundData.location inc with
            | Some loc =>
                match checkCountryOverride (lat loc) (lng loc) with
                | Some override => V110.processCountryOverride override (Some key) gs1
                | None => gs1
                end
            | None => gs1
            end
       else gs1) = gs2 /\
      GameState.currentRoundKey gs2 = GameState.currentRoundKey gs1 /\
      is_Some (GameState.roundLocations gs2 !! key) /\
      (forall other, other <> key ->
         GameState.roundLocations gs2 !! other = GameState.roundLocations gs1 !! other))
      as (gs2 & -> & Hkey & Hsome & Hother).
    { eexists; split; [reflexivity|].
      destruct (isValidCoordinate (RoundData.location inc)); [|by rewrite Hrec; eauto].
      destruct (RoundData.location inc) as [loc|]; [|by rewrite Hrec; eauto].
      destruct (checkCountryOverride (lat loc) (lng loc)) as [ov|]; [|by rewrite Hrec; eauto].
      destruct (processCountryOverride_frame ov key gs1 Hk) as (H1 & _ & H3).
      split; [exact H1|]. split; [|exact H3].
      unfold V110.processCountryOverride.
      repeat progress (cbn [truthy tpl]; rewrite ?Hk). gs_simpl.
      rewrite lookup_alter_eq, Hrec. cbn. eauto. }
    set (gs3 := GameState.set_cancelCardCreation false
                  (GameState.set_cardCreatedForRound false
                     (GameState.set_userReminder "" (GameState.set_userMissedClues "" gs2)))).
    pose proof (domFallback_dialogFields page key gs3) as Hd.
    unfold dialogFields in Hd. injection Hd as Hd1 Hd2 Hd3 Hd4.
    repeat split.
    + rewrite domFallback_key. subst gs3. gs_simpl. rewrite Hkey. subst gs1.
      by rewrite ensureRecord_key.
    + apply domFallback_is_Some. subst gs3. by gs_simpl.
    + by rewrite Hd1.
    + by rewrite Hd3.
    + by rewrite Hd4.
    + intros other Hne. rewrite domFallback_other by assumption. subst gs3. gs_simpl.
      rewrite Hother by assumption. subst gs1. rewrite ensureRecord_other by assumption.
      by gs_simpl.
    + by rewrite Hd2.
Qed.

(** X7.  [handleRoundEnd], in both versions, touches the round of the page
    only: when it returns, the key of the page is the current round key
    and has a record, the card flag and the two texts of the user are
    reset, and the record of every other round is what it was.  Version
    1.1.0 also lifts a cancellation of the card. *)
Theorem round_end_leaves_other_rounds (page : Page) (gs : GameState.t) :
  roundEndDone page gs (V100.handleRoundEnd page gs) /\
  roundEndDone page gs (V110.handleRoundEnd page gs) /\
  GameState.cancelCardCreation (V110.handleRoundEnd page gs) = false.
Proof.
  unfold roundEndDone.
  set (key := generateRoundKey page).
  assert (nonempty key = true) as Hk by apply generateRoundKey_nonempty.
  split; [|split].
  - unfold V100.handleRoundEnd. fold key.
    set (gs1 := ensureRecord key (GameState.set_currentRoundKey (Some key) gs)).
    destruct (V100_overrideAtRoundEnd_frame key gs1) as [Hkey Hother].
    assert (is_Some (GameState.roundLocations (V100.overrideAtRoundEnd key gs1) !! key)) as Hsome.
    { destruct (overrideAtRoundEnd_lookup key gs1 _ (ensureRecord_lookup key _))
        as (rd' & -> & _). eauto. }
    set (gs2 := V100.overrideAtRoundEnd key gs1) in *.
    set (gs3 := GameState.set_cardCreatedForRound false
                  (GameState.set_userReminder "" (GameState.set_userMissedClues "" gs2))).
    pose proof (domFallback_dialogFields page key gs3) as Hd.
    unfold dialogFields in Hd. injection Hd as Hd1 _ Hd3 Hd4.
    repeat split.
    + rewrite domFallback_key. subst gs3. gs_simpl. rewrite Hkey. subst gs1.
      by rewrite ensureRecord_key.
    + apply domFallback_is_Some. subst gs3. by gs_simpl.
    + by rewrite Hd1.
    + by rewrite Hd3.
    + by rewrite Hd4.
    + intros other Hne. rewrite domFallback_other by assumption. subst gs3. gs_simpl.
      rewrite Hother by assumption. subst gs1. rewrite ensureRecord_other by assumption.
      by gs_simpl.
  - apply V110_handleRoundEnd_done.
  - apply V110_handleRoundEnd_done.
Qed.

End RoundEndFrame.

(** ** The overview of a round *)

Section OverviewOnce.

(** X8.  The overview of a round is fetched once: when the answer to
    [fetchLocationOverview] has come in, the record of the round holds it,
    and a further call for the same round changes nothing and sends no
    request. *)
Theorem overview_requested_once (page : Page) (task : OverviewTask) (data : Overview)
    (gs : GameState.t) :
  nonempty (taskKey task) = true ->
  is_Some (GameState.roundLocations gs !! taskKey task) ->
  RoundData.locationOverview <$>
    GameState.roundLocations (resumeOverview task (Some data) gs) !! taskKey task
  = Some (Some data) /\
  fetchLocationOverview page (Some (taskKey task)) (resumeOverview task (Some data) gs)
  = (resumeOverview task (Some data) gs, None).
Proof.
  destruct task as [key token round]. cbn [taskKey]. intros Hk [rd Hrd].
  unfold resumeOverview.
  set (gs1 := GameState.set_locationOverview (Some data)
                (updateRound key (RoundData.set_locationOverview (Some data)) gs)).
  assert (GameState.roundLocations gs1 !! key
          = Some (RoundData.set_locationOverview (Some data) rd)) as Hrd1.
  { subst gs1. gs_simpl. by rewrite lookup_alter_eq, Hrd. }
  destruct (prepareCountryClues_record None (Some key) key _ gs1
              (resolveRoundKey_Some_truthy key gs1 Hk) Hrd1) as [Hrec _].
  split; [by rewrite Hrec|].
  unfold fetchLocationOverview.
  rewrite (resolveRoundKey_Some_truthy key _ Hk), Hrec.
  cbn [RoundData.country RoundData.guessCountry RoundData.locationOverview
       RoundData.set_missedClues RoundData.set_locationOverview].
  destruct (_ || _); [reflexivity|].
  rewrite bool_decide_eq_true_2 by eauto. reflexivity.
Qed.

Lemma overview_requested_once_witness :
  let gs := Examples.gsGuessed (Examples.guessedRound "France" ["French"] "Spain" ["Spanish"]) in
  let task := AwaitOverview Examples.key1 "abc123" 1 in
  let data := {| region := Some "Western Europe"; coverage_type := None |} in
  fetchLocationOverview Examples.page1 (Some Examples.key1) gs = (gs, Some task) /\
  nonempty (taskKey task) = true /\
  is_Some (GameState.roundLocations gs !! taskKey task) /\
  RoundData.locationOverview
    <$> GameState.roundLocations (resumeOverview task (Some data) gs) !! taskKey task
  = Some (Some data) /\
  fetchLocationOverview Examples.page1 (Some Examples.key1) (resumeOverview task (Some data) gs)
  = (resumeOverview task (Some data) gs, None).
Proof.
  split; [reflexivity|]. split; [reflexivity|]. split; [by eexists|].
  exact (overview_requested_once Examples.page1
           (AwaitOverview Examples.key1 "abc123" 1)
           {| region := Some "Western Europe"; coverage_type := None |}
           (Examples.gsGuessed (Examples.guessedRound "France" ["French"] "Spain" ["Spanish"]))
           eq_refl
           (ex_intro _ (Examples.guessedRound "France" ["French"] "Spain" ["Spanish"]) eq_refl)).
Defined.

End OverviewOnce.

(** ** The shape of a clue list *)

Section MoreClueProperties.

Ltac name_categories' :=
  repeat match goal with
  | H : drivingSideClue _ = Some _ |- _ => apply drivingSideClue_category in H
  | H : languageClue _ = Some _ |- _ => apply languageClue_category in H
  | H : tldClue _ = Some _ |- _ => apply tldClue_category in H
  | H : regionClue _ = Some _ |- _ => apply regionClue_category in H
  | H : coverageClue _ = Some _ |- _ => apply coverageClue_category in H
  end.

Ltac case_pushes' rd :=
  let E := fresh "E" in
  destruct (drivingSideClue rd) eqn:E;
  let E := fresh "E" in
  destruct (languageClue rd) eqn:E;
  let E := fresh "E" in
  destruct (tldClue rd) eqn:E;
  let E := fresh "E" in
  destruct (regionClue rd) eqn:E;
  let E := fresh "E" in
  destruct (coverageClue rd) eqn:E;
  name_categories'.

(** X9.  The shape of a clue list: for two different countries the clues
    come in the fixed order of the categories (driving side, language,
    TLD, region, coverage, general appearance), each category at most
    once; the list has two to five clues, or it is the one generic clue
    when no specific clue applies. *)
Theorem clue_list_shape (rd : RoundData.t) :
  countriesDiffer rd = true ->
  sublist (category <$> generateClues rd None) clueCategories /\
  ((2 <= length (generateClues rd None) <= 5)%nat \/
   generateClues rd None = [genericClue rd]).
Proof.
  intros Hd. unfold generateClues, withGeneric, conditionalPushes, clueCategories. rewrite Hd.
  case_pushes' rd; cbn [omap list_omap id length Nat.ltb Nat.leb app fmap list_fmap category genericClue];
    repeat match goal with H : category _ = _ |- _ => rewrite H; clear H end;
    (split;
     [ repeat first [apply sublist_nil | apply sublist_skip | apply sublist_cons]
     | first [by right | left; lia] ]).
Qed.

Lemma clue_list_shape_witness :
  let rd := Examples.guessedRound "France" ["French"] "Spain" ["Spanish"] in
  countriesDiffer rd = true /\
  sublist (category <$> generateClues rd None) clueCategories /\
  ((2 <= length (generateClues rd None) <= 5)%nat \/
   generateClues rd None = [genericClue rd]).
Proof.
  split; [reflexivity|].
  exact (clue_list_shape (Examples.guessedRound "France" ["French"] "Spain" ["Spanish"])
           eq_refl).
Defined.

End MoreClueProperties.

(** ** More on cards *)

Section MoreCardProperties.

(** X10.  With the setting [hideLocationInFrontCard] the front of a card
    depends on the two country names of the record only: neither the
    location, the panorama, the clues, the texts of the user nor the round
    key change it, so it shows no link to the place. *)
Theorem front_hides_location (B : Builtins) (glyphs : Glyphs) (settings : Settings)
    (useDefaults1 useDefaults2 : bool) (key1 key2 : string) (rd1 rd2 : RoundData.t)
    (gs1 gs2 : GameState.t) :
  hideLocationInFrontCard settings = true ->
  RoundData.country rd1 = RoundData.country rd2 ->
  RoundData.guessCountry rd1 = RoundData.guessCountry rd2 ->
  frontField (compileCard B glyphs settings useDefaults1 key1 rd1 gs1)
  = frontField (compileCard B glyphs settings useDefaults2 key2 rd2 gs2).
Proof.
  intros Hhide Hc Hg. unfold compileCard. cbn [frontField].
  rewrite Hhide, Hc, Hg. cbn [negb]. by rewrite !andb_false_r.
Qed.

Lemma front_hides_location_witness :
  let rd := Examples.guessedRound "France" ["French"] "Spain" ["Spanish"] in
  hideLocationInFrontCard Examples.defaultSettings = true /\
  frontField (compileCard Examples.unusedBuiltins V110.glyphs Examples.defaultSettings true
                Examples.key1 rd Examples.gsRound1)
  = frontField (compileCard Examples.unusedBuiltins V110.glyphs Examples.defaultSettings false
                  Examples.key2 (RoundData.set_locationOverview
                                   (Some {| region := None; coverage_type := None |}) rd)
                  Examples.gsRound2).
Proof.
  split; [reflexivity|].
  exact (front_hides_location Examples.unusedBuiltins V110.glyphs Examples.defaultSettings
           true false Examples.key1 Examples.key2 _ _ Examples.gsRound1 Examples.gsRound2
           eq_refl eq_refl eq_refl).
Defined.

(** With [useDefaults] the card text does not read the texts of the
    user. *)
Lemma compileCard_defaults_frame (B : Builtins) (glyphs : Glyphs) (settings : Settings)
    (key : string) (rd : RoundData.t) (gs1 gs2 : GameState.t) :
  nonempty key = true ->
  GameState.roundLocations gs1 !! key = GameState.roundLocations gs2 !! key ->
  compileCard B glyphs settings true key rd gs1 = compileCard B glyphs settings true key rd gs2.
Proof.
  intros Hk Hrec. unfold compileCard.
  rewrite (getSingleDistinctiveClue_frame B key gs1 gs2 Hk Hrec).
  cbn [negb]. by rewrite !andb_false_r.
Qed.

Lemma cardGuards_defaults (page : Page) (key : string) (rd : RoundData.t) (gs : GameState.t) :
  GameState.roundLocations gs !! key = Some rd ->
  exists gs' rd',
    V110.cardGuards true page key rd gs = Some gs' /\
    GameState.roundLocations gs' !! key = Some rd' /\
    truthy (RoundData.country rd') = true /\
    truthy (RoundData.guessCountry rd') = true /\
    (truthy (RoundData.country rd) = true -> RoundData.country rd' = RoundData.country rd) /\
    (truthy (RoundData.guessCountry rd) = true ->
     RoundData.guessCountry rd' = RoundData.guessCountry rd) /\
    (truthy (RoundData.country rd) = false ->
     RoundData.country rd' = Some (if truthy (domCountry page) then tpl (domCountry page)
                                   else "Unknown Country")) /\
    (truthy (RoundData.guessCountry rd) = false ->
     RoundData.guessCountry rd' = Some "Unknown Guess").
Proof.
  intros Hrd. unfold V110.cardGuards.
  assert (truthy (Some (if truthy (domCountry page) then tpl (domCountry page)
                        else "Unknown Country")) = true) as Hdom.
  { destruct (truthy (domCountry page)) eqn:E; [|reflexivity].
    destruct (domCountry page); [exact E | discriminate]. }
  destruct (truthy (RoundData.country rd)) eqn:Hc;
    destruct (truthy (RoundData.guessCountry rd)) eqn:Hg; cbn [negb];
    eexists; eexists; (split; [reflexivity|]); gs_simpl;
    rewrite ?lookup_alter_eq, ?Hrd; cbn [fmap option_fmap option_map];
    (split; [reflexivity|]); cbn; rewrite ?Hc, ?Hg; repeat split;
    solve [congruence | exact Hdom].
Qed.

(** X11.  Instant add of version 1.1.0 always builds a card for a round
    that has a record: [buildAnkiCardData(true)] never returns [null]
    there.  A country name the record has is the one on the card, and a
    missing one is filled in, so both names of the card are non-empty. *)
Theorem instant_add_always_builds_card (B : Builtins) (settings : Settings) (page : Page)
    (gs : GameState.t) (rd : RoundData.t) :
  currentRecord gs = Some rd ->
  exists card : CardData,
    (V110.buildAnkiCardData B settings true page gs).2 = Some card /\
    truthy (card_actualCountry card) = true /\
    truthy (card_guessCountry card) = true /\
    (truthy (RoundData.country rd) = true -> card_actualCountry card = RoundData.country rd) /\
    (truthy (RoundData.guessCountry rd) = true ->
     card_guessCountry card = RoundData.guessCountry rd).
Proof.
  unfold currentRecord, V110.buildAnkiCardData.
  destruct (truthy (GameState.currentRoundKey gs)); [|discriminate].
  intros Hrd. rewrite Hrd.
  destruct (cardGuards_defaults page _ rd gs Hrd)
    as (gs' & rd' & -> & Hrd' & Hc & Hg & Hc' & Hg' & _).
  rewrite Hrd'. cbn [snd]. eexists. split; [reflexivity|]. cbn [card_actualCountry card_guessCountry compileCard].
  auto.
Qed.

Lemma instant_add_always_builds_card_witness :
  currentRecord Examples.gsRound1 = Some Examples.emptyRound /\
  exists card : CardData,
    (V110.buildAnkiCardData Examples.unusedBuiltins Examples.defaultSettings true
       Examples.page1 Examples.gsRound1).2 = Some card /\
    truthy (card_actualCountry card) = true /\
    truthy (card_guessCountry card) = true.
Proof.
  split; [reflexivity|].
  destruct (instant_add_always_builds_card Examples.unusedBuiltins Examples.defaultSettings
              Examples.page1 Examples.gsRound1 Examples.emptyRound eq_refl)
    as (card & Hcard & Hc & Hg & _).
  exists card. auto.
Defined.

End MoreCardProperties.

(** ** The game loop of version 1.0.0 *)

Section GameLoopV100.

Lemma round_ended_not_active (dom : Dom) : isRoundEnded dom = true -> isInActiveRound dom = false.
Proof. intros H. unfold isInActiveRound. rewrite H. by destruct (negb (isInGame dom)). Qed.

Lemma trackGame_frame (dom : Dom) (gs : GameState.t) :
  GameState.inRound (V100.trackGame dom gs) = GameState.inRound gs /\
  GameState.roundLocations (V100.trackGame dom gs) = GameState.roundLocations gs /\
  GameState.inGame (V100.trackGame dom gs) = isInGame dom.
Proof.
  unfold V100.trackGame.
  destruct (isInGame dom), (GameState.inGame gs) eqn:E; cbn [negb andb]; repeat split;
    solve [reflexivity | exact E].
Qed.

Lemma trackGame_settled (dom : Dom) (gs : GameState.t) :
  GameState.inGame gs = isInGame dom -> V100.trackGame dom gs = gs.
Proof. intros H. unfold V100.trackGame. rewrite H. by destruct (isInGame dom). Qed.

Lemma trackRound_ended (dom : Dom) (page : Page) (gs : GameState.t) :
  isRoundEnded dom = true ->
  GameState.inRound (V100.trackRound dom page gs).1 = false /\
  (GameState.inRound gs = false -> V100.trackRound dom page gs = (gs, [])).
Proof.
  intros Hended. unfold V100.trackRound.
  rewrite Hended, (round_ended_not_active dom Hended), andb_false_r.
  destruct (GameState.inRound gs) eqn:E; cbn [andb fst]; split; done.
Qed.

(** X12.  The game loop of version 1.0.0 reacts to the end of a round
    once.  A run of [updateGameState] on a page that shows the end of a
    round starts the timer of [handleRoundEnd] exactly when a round was
    running.  A further run on any page that shows the end of a round
    starts no timer and leaves [inRound] cleared and the records as they
    are; all it can still do is note that the game was left or entered,
    and when the second page is in a game exactly if the first one is, it
    leaves [gameState] as it is. *)
Theorem round_end_scheduled_once (dom dom' : Dom) (page page' : Page) (gs : GameState.t) :
  isRoundEnded dom = true ->
  isRoundEnded dom' = true ->
  (V100.updateGameState dom page gs).2
  = (if GameState.inRound gs then [V100.RoundEndTimer] else []) /\
  V100.updateGameState dom' page' (V100.updateGameState dom page gs).1
  = (V100.trackGame dom' (V100.updateGameState dom page gs).1, []) /\
  GameState.inRound (V100.updateGameState dom' page' (V100.updateGameState dom page gs).1).1
  = false /\
  GameState.roundLocations
    (V100.updateGameState dom' page' (V100.updateGameState dom page gs).1).1
  = GameState.roundLocations (V100.updateGameState dom page gs).1 /\
  (isInGame dom' = isInGame dom ->
   V100.updateGameState dom' page' (V100.updateGameState dom page gs).1
   = ((V100.updateGameState dom page gs).1, [])).
Proof.
  intros Hended Hended'. unfold V100.updateGameState.
  destruct (V100.trackRound dom page gs) as [gs1 timers] eqn:E1. cbn [fst snd].
  assert (timers = if GameState.inRound gs then [V100.RoundEndTimer] else []) as Htimers.
  { unfold V100.trackRound in E1.
    rewrite Hended, (round_ended_not_active dom Hended), andb_false_r in E1.
    destruct (GameState.inRound gs); cbn [andb] in E1; by injection E1 as _ <-. }
  destruct (trackRound_ended dom page gs Hended) as [Hr _]. rewrite E1 in Hr. cbn [fst] in Hr.
  destruct (trackGame_frame dom gs1) as (H1 & _ & H3).
  destruct (trackRound_ended dom' page' (V100.trackGame dom gs1) Hended') as [_ ->];
    [|congruence].
  destruct (trackGame_frame dom' (V100.trackGame dom gs1)) as (H1' & H2' & _).
  cbn [fst]. split; [exact Htimers|]. split; [reflexivity|].
  split; [congruence|]. split; [exact H2'|].
  intros Hsame. rewrite trackGame_settled; [reflexivity | congruence].
Qed.

Lemma round_end_scheduled_once_witness :
  isRoundEnded Examples.resultDom = true /\
  isRoundEnded Examples.resultsPage = true /\
  (V100.updateGameState Examples.resultDom Examples.page1 Examples.gsPlaying).2
  = [V100.RoundEndTimer] /\
  (V100.updateGameState Examples.resultsPage Examples.page1
     (V100.updateGameState Examples.resultDom Examples.page1 Examples.gsPlaying).1).2
  = [].
Proof.
  split; [reflexivity|]. split; [reflexivity|].
  pose proof (round_end_scheduled_once Examples.resultDom Examples.resultsPage Examples.page1
                Examples.page1 Examples.gsPlaying eq_refl eq_refl) as (H1 & H2 & _).
  split; [exact H1|]. exact (f_equal snd H2).
Defined.

(** X13.  The game loop of version 1.0.0 never drops or changes the record
    of a round: every record is still there after [updateGameState], and
    the only record that can be new is a fresh one under the round key of
    the page. *)
Theorem game_loop_keeps_records (dom : Dom) (page : Page) (gs : GameState.t) :
  (forall (key : string) (rd : RoundData.t),
     GameState.roundLocations gs !! key = Some rd ->
     GameState.roundLocations (V100.updateGameState dom page gs).1 !! key = Some rd) /\
  (forall key : string,
     is_Some (GameState.roundLocations (V100.updateGameState dom page gs).1 !! key) ->
     is_Some (GameState.roundLocations gs !! key) \/
     key = generateRoundKey page /\
     GameState.roundLocations (V100.updateGameState dom page gs).1 !! key = Some newRoundRecord).
Proof.
  unfold V100.updateGameState.
  destruct (V100.trackRound dom page gs) as [gs1 timers] eqn:E1. cbn [fst].
  destruct (trackGame_frame dom gs1) as (_ & -> & _).
  assert (GameState.roundLocations gs1 = GameState.roundLocations gs \/
          GameState.roundLocations gs !! generateRoundKey page = None /\
          GameState.roundLocations gs1
          = <[generateRoundKey page := newRoundRecord]> (GameState.roundLocations gs)) as Hcases.
  { unfold V100.trackRound in E1.
    destruct (isRoundEnded dom && GameState.inRound gs); [injection E1 as <- _; by left|].
    destruct (isInGame dom && negb (GameState.inRound gs) && isInActiveRound dom);
      [|injection E1 as <- _; by left].
    injection E1 as <- _. gs_simpl.
    destruct (GameState.roundLocations gs !! generateRoundKey page) eqn:Hk; gs_simpl; auto. }
  destruct Hcases as [-> | [Hnone ->]]; [split; [auto | by left]|].
  split.
  - intros key rd Hrd. rewrite lookup_insert_ne; [exact Hrd | congruence].
  - intros key. destruct (decide (key = generateRoundKey page)) as [->|Hne].
    + rewrite lookup_insert_eq. by right.
    + rewrite lookup_insert_ne by congruence. by left.
Qed.

End GameLoopV100.

(** ** The card dialog of version 1.0.0 *)

Section CardDialogV100.

Lemma answered_truthy (answer : option string) (text : string) :
  V100.answered answer = Some text -> nonempty text = true.
Proof.
  unfold V100.answered. destruct answer as [t|]; [|discriminate].
  destruct (nonempty t); [|discriminate]. cbn [andb].
  destruct (nonempty (trim t)) eqn:E; [|discriminate]. by intros [= <-].
Qed.

Lemma countryFromDom_spec (page : Page) (key : string) (rd : RoundData.t) (gs : GameState.t) :
  GameState.roundLocations gs !! key = Some rd ->
  match countryFromDom page key rd gs with
  | Some gs' =>
      exists rd',
        GameState.roundLocations gs' !! key = Some rd' /\
        RoundData.country rd' = countryForCard page rd /\
        truthy (RoundData.country rd') = true /\
        GameState.currentRoundKey gs' = GameState.currentRoundKey gs /\
        GameState.cardCreatedForRound gs' = GameState.cardCreatedForRound gs
  | None => countryForCard page rd = None
  end.
Proof.
  intros Hrd. unfold countryFromDom, countryForCard.
  destruct (truthy (RoundData.country rd)) eqn:Hc; cbn [negb]; [by exists rd|].
  destruct (truthy (domCountry page)) eqn:Hd; [|reflexivity].
  assert (truthy (Some (tpl (domCountry page))) = true) as Hd'
    by (destruct (domCountry page); [exact Hd | discriminate]).
  destruct (RoundData.countryData rd); eexists; gs_simpl;
    rewrite ?lookup_alter_eq, Hrd; cbn [fmap option_fmap option_map];
    (split; [reflexivity|]); cbn; rewrite ?Hd'; done.
Qed.

Lemma buildAnkiCardData_Some (B : Builtins) (settings : Settings) (key : string)
    (rd : RoundData.t) (gs : GameState.t) :
  GameState.currentRoundKey gs = Some key -> nonempty key = true ->
  GameState.roundLocations gs !! key = Some rd ->
  truthy (RoundData.country rd) = true -> truthy (RoundData.guessCountry rd) = true ->
  V100.buildAnkiCardData B settings gs
  = Some (compileCard B V100.glyphs settings false key rd gs).
Proof.
  intros Hkey Hk Hrd Hc Hg. unfold V100.buildAnkiCardData.
  rewrite Hkey. cbn [truthy tpl]. by rewrite Hk, Hrd, Hc, Hg.
Qed.

(** The state [prepareAndCreateAnkiCard] builds the card from, once the
    guess is answered with [guess]. *)
Lemma card_state (key guess : string) (rd rd1 : RoundData.t) (answers : V100.Answers)
    (gs1 : GameState.t) :
  nonempty key = true ->
  GameState.roundLocations gs1 !! key = Some rd1 ->
  let guessData := match RoundData.guessCountryData rd with
                   | Some data => data
                   | None => typedGuessData guess
                   end in
  let gs2 := GameState.set_guessCountry (Some guess)
               (updateRound key (RoundData.set_guessCountry (Some guess)) gs1) in
  let gs3 := GameState.set_guessCountryData (Some guessData)
               (updateRound key (RoundData.set_guessCountryData (Some guessData)) gs2) in
  let gs4 := match V100.answered (V100.missedCluesAnswer answers) with
             | Some text => GameState.set_userMissedClues text gs3
             | None => gs3
             end in
  let gs5 := match V100.answered (V100.reminderAnswer answers) with
             | Some text => GameState.set_userReminder text gs4
             | None => gs4
             end in
  let gs6 := match RoundData.missedClues rd with
             | Some (_ :: _) => gs5
             | _ => prepareCountryClues None (Some key) gs5
             end in
  GameState.currentRoundKey gs6 = GameState.currentRoundKey gs1 /\
  exists rd6,
    GameState.roundLocations gs6 !! key = Some rd6 /\
    RoundData.country rd6 = RoundData.country rd1 /\
    RoundData.guessCountry rd6 = Some guess.
Proof.
  intros Hk Hrd1 guessData gs2 gs3 gs4 gs5 gs6.
  assert (GameState.currentRoundKey gs5 = GameState.currentRoundKey gs1 /\
          GameState.roundLocations gs5 !! key
          = Some (RoundData.set_guessCountryData (Some guessData)
                    (RoundData.set_guessCountry (Some guess) rd1))) as [Hkey5 Hrd5].
  { subst gs5 gs4 gs3 gs2.
    destruct (V100.answered (V100.reminderAnswer answers));
      destruct (V100.answered (V100.missedCluesAnswer answers));
      gs_simpl; rewrite !lookup_alter_eq, Hrd1; done. }
  subst gs6. destruct (RoundData.missedClues rd) as [[|? ?]|].
  - rewrite prepareCountryClues_key. split; [exact Hkey5|].
    destruct (prepareCountryClues_record None (Some key) key _ gs5
                (resolveRoundKey_Some_truthy key gs5 Hk) Hrd5) as [-> _]. eauto.
  - split; [exact Hkey5|]. eauto.
  - rewrite prepareCountryClues_key. split; [exact Hkey5|].
    destruct (prepareCountryClues_record None (Some key) key _ gs5
                (resolveRoundKey_Some_truthy key gs5 Hk) Hrd5) as [-> _]. eauto.
Qed.

(** X14.  When [prepareAndCreateAnkiCard] of version 1.0.0 creates a
    card: exactly when the integration is enabled, no round is active, a
    card that exists already was confirmed to be repeated, the guess was
    answered with a text that is not blank, and the current round has a
    record with a country, its own or the one read from the page.  The
    card then carries the answered guess and that country, and the flag
    [cardCreatedForRound] is set. *)
Theorem prepareAndCreateAnkiCard_creates_iff (B : Builtins) (settings : Settings)
    (enableAnkiIntegration : bool) (dom : Dom) (page : Page) (answers : V100.Answers)
    (gs : GameState.t) :
  (is_Some (V100.prepareAndCreateAnkiCard B settings enableAnkiIntegration dom page answers gs).2
   <->
   enableAnkiIntegration = true /\
   isInActiveRound dom = false /\
   (GameState.cardCreatedForRound gs = true -> V100.confirmAnother answers = true) /\
   is_Some (V100.answered (V100.guessedLocation answers)) /\
   exists rd, currentRecord gs = Some rd /\ is_Some (countryForCard page rd)) /\
  (forall card : CardData,
     (V100.prepareAndCreateAnkiCard B settings enableAnkiIntegration dom page answers gs).2
     = Some card ->
     card_guessCountry card = V100.answered (V100.guessedLocation answers) /\
     (exists rd, currentRecord gs = Some rd /\
                 card_actualCountry card = countryForCard page rd) /\
     GameState.cardCreatedForRound
       (V100.prepareAndCreateAnkiCard B settings enableAnkiIntegration dom page answers gs).1
     = true).
Proof.
  unfold V100.prepareAndCreateAnkiCard, currentRecord.
  destruct enableAnkiIntegration; cbn [negb];
    [|split; [split; [intros [? [=]] | intros ([=] & _)] | intros ? [=]]].
  destruct (isInActiveRound dom);
    [split; [split; [intros [? [=]] | intros (_ & [=] & _)] | intros ? [=]]|].
  destruct (truthy (GameState.currentRoundKey gs)) eqn:Htk; cbn [negb];
    [|split; [split; [intros [? [=]] | intros (_ & _ & _ & _ & rd & [=] & _)] | intros ? [=]]].
  destruct (GameState.currentRoundKey gs) as [key|] eqn:Hkey; [|discriminate].
  cbn [tpl truthy] in *.
  destruct (GameState.cardCreatedForRound gs && negb (V100.confirmAnother answers)) eqn:Hconf.
  { apply andb_prop in Hconf as [Hcc Hno]. apply negb_true_iff in Hno.
    split; [split; [intros [? [=]] | intros (_ & _ & Himp & _)] | intros ? [=]].
    rewrite (Himp Hcc) in Hno. discriminate. }
  assert (GameState.cardCreatedForRound gs = true -> V100.confirmAnother answers = true) as Himp.
  { intros Hcc. rewrite Hcc in Hconf. cbn in Hconf. by apply negb_false_iff in Hconf. }
  set (gs0 := if GameState.cardCreatedForRound gs
              then GameState.set_cardCreatedForRound false gs else gs).
  assert (GameState.roundLocations gs0 = GameState.roundLocations gs /\
          GameState.currentRoundKey gs0 = Some key) as [Hrl0 Hkey0].
  { subst gs0. destruct (GameState.cardCreatedForRound gs); gs_simpl; done. }
  rewrite Hrl0.
  destruct (GameState.roundLocations gs !! key) as [rd|] eqn:Hrd;
    [|split; [split; [intros [? [=]] | intros (_ & _ & _ & _ & rd & [=] & _)] | intros ? [=]]].
  assert (GameState.roundLocations gs0 !! key = Some rd) as Hrd0 by (by rewrite Hrl0).
  pose proof (countryFromDom_spec page key rd gs0 Hrd0) as Hdom.
  destruct (countryFromDom page key rd gs0) as [gs1|].
  2:{ split; [split; [intros [? [=]] | intros (_ & _ & _ & _ & rd' & [= <-] & Hsome)] | intros ? [=]].
      rewrite Hdom in Hsome. by destruct Hsome. }
  destruct Hdom as (rd1 & Hrd1 & Hc1 & Htc1 & Hkey1 & _).
  destruct (V100.answered (V100.guessedLocation answers)) as [guess|] eqn:Hguess;
    [|split; [split; [intros [? [=]] | intros (_ & _ & _ & [? [=]] & _)] | intros ? [=]]].
  pose proof (answered_truthy _ _ Hguess) as Htg.
  pose proof (card_state key guess rd rd1 answers gs1 Htk Hrd1) as Hstate.
  cbv zeta in Hstate. destruct Hstate as (Hkey6 & rd6 & Hrd6 & Hc6 & Hg6).
  match type of Hrd6 with GameState.roundLocations ?g !! _ = _ => set (gs6 := g) in * end.
  rewrite (buildAnkiCardData_Some B settings key rd6 gs6);
    [| by rewrite Hkey6, Hkey1 | exact Htk | exact Hrd6 | by rewrite Hc6 | by rewrite Hg6].
  cbn [fst snd]. split.
  - split; [intros _ | eauto].
    repeat split; eauto. exists rd. split; [reflexivity|]. rewrite <- Hc1.
    destruct (RoundData.country rd1); [eauto | discriminate].
  - intros card [= <-]. cbn [card_guessCountry card_actualCountry compileCard fmap option_fmap option_map].
    repeat split.
    + by rewrite Hg6.
    + exists rd. split; [reflexivity|]. by rewrite Hc6.
Qed.

End CardDialogV100.

(** ** The round detection of version 1.1.0 *)

Section RoundDetectionV110.
Variable interceptLocationData : GameState.t -> GameState.t.

Ltac not_in_list :=
  let H := fresh in
  intros H;
  repeat (apply elem_of_cons in H as [H|H]; [discriminate|]);
  by apply elem_of_nil in H.

Lemma inRound_gameLoop_inGame (dom : Dom) (forceCheck : bool) (gs : GameState.t) :
  GameState.inRound
    (if negb (Bool.eqb (isInGame dom) (GameState.inGame gs)) || forceCheck
     then if negb (isInGame dom)
          then V110.resetRoundData (GameState.set_inGame (isInGame dom) gs)
          else GameState.set_inGame (isInGame dom) gs
     else gs)
  = GameState.inRound gs.
Proof. destruct (_ || _); [|reflexivity]. by destruct (negb (isInGame dom)). Qed.

Lemma gameLoop_inactive (dom : Dom) (page : Page) (forceCheck lucky : bool)
    (s : V110.Tracker) :
  isInActiveRound dom = false ->
  (V110.gameLoop interceptLocationData dom page forceCheck lucky s).2 = [] /\
  GameState.inRound
    (V110.state (V110.gameLoop interceptLocationData dom page forceCheck lucky s).1) = false /\
  V110.isProcessingRound (V110.gameLoop interceptLocationData dom page forceCheck lucky s).1
  = V110.isProcessingRound s.
Proof.
  intros Hact. unfold V110.gameLoop. rewrite Hact.
  cbn [negb andb orb]. rewrite inRound_set_round, inRound_gameLoop_inGame.
  destruct (GameState.inRound (V110.state s)) eqn:E, forceCheck;
    cbn [Bool.eqb negb orb fst snd V110.state V110.isProcessingRound];
    rewrite ?inRound_set_round, ?inRound_gameLoop_inGame; auto.
Qed.

(** X15.  [gameLoop] of version 1.1.0 never handles the end of a round:
    it stores the new value of [inRound] before it tests the old one, so
    no run of it calls [handleRoundEnd] or sets [isProcessingRound].  On a
    page that shows no active round it calls nothing at all and leaves
    [inRound] cleared. *)
Theorem gameLoop_never_handles_round_end (dom : Dom) (page : Page) (forceCheck lucky : bool)
    (s : V110.Tracker) :
  (V110.RoundEndHandled ∉ (V110.gameLoop interceptLocationData dom page forceCheck lucky s).2) /\
  V110.isProcessingRound (V110.gameLoop interceptLocationData dom page forceCheck lucky s).1
  = V110.isProcessingRound s /\
  (isInActiveRound dom = false ->
   (V110.gameLoop interceptLocationData dom page forceCheck lucky s).2 = [] /\
   GameState.inRound
     (V110.state (V110.gameLoop interceptLocationData dom page forceCheck lucky s).1) = false).
Proof.
  destruct (isInActiveRound dom) eqn:Hact.
  - unfold V110.gameLoop. rewrite Hact. cbn [negb andb orb].
    destruct (_ || _ || _); cbn [V110.state V110.isProcessingRound].
    all: destruct (negb (bool_decide _)); try destruct lucky; cbn [fst snd app].
    all: (split; [not_in_list|]); (split; [reflexivity|discriminate]).
  - destruct (gameLoop_inactive dom page forceCheck lucky s Hact) as (He & Hin & Hp).
    rewrite He. split; [not_in_list|]. auto.
Qed.

Hypothesis intercept_keeps_inRound :
  forall gs, GameState.inRound (interceptLocationData gs) = GameState.inRound gs.

Lemma react_inactive (t : Trigger) (s : V110.Tracker) :
  inactive t = true ->
  GameState.inRound (V110.state s) = false ->
  GameState.inRound (V110.state (react interceptLocationData t s).1) = false /\
  (forall e, e ∈ (react interceptLocationData t s).2 -> e = V110.InterceptTimer).
Proof.
  intros Ht Hin. destruct t as [dom page forceCheck lucky|dom page rid lucky|];
    cbn [inactive react] in *.
  - apply negb_true_iff in Ht.
    destruct (gameLoop_inactive dom page forceCheck lucky s Ht) as (He & Hi & _).
    rewrite He. split; [exact Hi|]. intros e H. by apply elem_of_nil in H.
  - apply negb_true_iff in Ht. unfold V110.checkForRoundTransition.
    destruct (truthy rid && strict_ne rid (V110.lastRoundId s)).
    + set (s0 := V110.mkTracker _ _ _).
      destruct (gameLoop_inactive dom page true lucky s0 Ht) as (He & Hi & _).
      destruct (V110.gameLoop interceptLocationData dom page true lucky s0) as [s1 e1].
      cbn [fst snd] in *. subst e1. rewrite Hi, andb_false_r. cbn [fst snd app].
      split; [exact Hi|]. intros e H. apply list_elem_of_singleton in H. exact H.
    + rewrite Hin, andb_false_r. cbn [fst snd]. split; [exact Hin|].
      intros e H. by apply elem_of_nil in H.
  - cbn [fst snd V110.state]. rewrite intercept_keeps_inRound. split; [exact Hin|].
    intros e H. by apply elem_of_nil in H.
Qed.

(** X16.  In version 1.1.0 the end of a round is handled only where the
    game loop has seen the round running: from a state in which [inRound]
    is not set, no sequence of runs of the game loop, of
    [checkForRoundTransition] and of the delayed [interceptLocationData]
    on pages that show no active round handles a round end or sets the
    timer for it; all it can start is the timer of the interception.
    [interceptLocationData] does not assign [inRound], which is what the
    hypothesis on it says. *)
Theorem no_round_end_while_inactive (ts : list Trigger) (s : V110.Tracker) :
  GameState.inRound (V110.state s) = false ->
  Forall (fun t => inactive t = true) ts ->
  forall e, e ∈ reactAll interceptLocationData ts s -> e = V110.InterceptTimer.
Proof.
  intros Hin Hts. revert s Hin.
  induction Hts as [|t ts Ht _ IH]; intros s Hin e He; cbn [reactAll] in He.
  - by apply elem_of_nil in He.
  - destruct (react_inactive t s Ht Hin) as [Hin' Hev].
    apply elem_of_app in He as [He|He]; [by apply Hev|by apply (IH _ Hin')].
Qed.

End RoundDetectionV110.

Lemma no_round_end_while_inactive_witness :
  let ts := [Tick Examples.resultDom Examples.page1 false true;
             Changed Examples.resultDom Examples.page1 (Some "url-1") false;
             InterceptDue;
             Changed Examples.resultDom Examples.page1 (Some "url-1") false] in
  (forall gs, GameState.inRound ((fun gs => gs) gs) = GameState.inRound gs) /\
  GameState.inRound (V110.state Examples.tracker0) = false /\
  Forall (fun t => inactive t = true) ts /\
  forall e, e ∈ reactAll (fun gs => gs) ts Examples.tracker0 -> e = V110.InterceptTimer.
Proof.
  split; [reflexivity|]. split; [reflexivity|].
  split; [repeat constructor|].
  exact (no_round_end_while_inactive (fun gs => gs) (fun _ => eq_refl)
           [Tick Examples.resultDom Examples.page1 false true;
            Changed Examples.resultDom Examples.page1 (Some "url-1") false;
            InterceptDue;
            Changed Examples.resultDom Examples.page1 (Some "url-1") false]
           Examples.tracker0 eq_refl ltac:(repeat constructor)).
Defined.


(** ** Cancelling a card *)

Section CardFlowV110.

(** X17.  Cancelling the dialog of version 1.1.0 blocks every further
    card for the round: after [handleCancel], [createCardWithOptions]
    returns without a card or a dialog whatever its argument and the
    settings are, and [promptForCardCreation] shows nothing.  The records
    stay as they are, and [resetRoundData] lifts the block. *)
Theorem cancel_blocks_card_creation (B : Builtins) (settings : Settings) (cfg : AnkiConfig)
    (enableAnkiIntegration instantAddEnabled : bool) (dom : Dom) (page : Page)
    (confirmAnother useInstantAdd : bool) (gs : GameState.t) :
  V110.createCardWithOptions B settings cfg enableAnkiIntegration instantAddEnabled dom page
    confirmAnother useInstantAdd (V110.handleCancel gs)
  = (V110.handleCancel gs, V110.NoCard) /\
  V110.promptForCardCreation (V110.handleCancel gs) = None /\
  GameState.roundLocations (V110.handleCancel gs) = GameState.roundLocations gs /\
  GameState.cancelCardCreation (V110.resetRoundData (V110.handleCancel gs)) = false.
Proof.
  assert (GameState.cancelCardCreation (V110.handleCancel gs) = true) as Hc by reflexivity.
  split; [|by split].
  unfold V110.createCardWithOptions. rewrite Hc.
  by destruct (negb enableAnkiIntegration), (isInActiveRound dom),
    (negb (truthy (GameState.currentRoundKey (V110.handleCancel gs)))).
Qed.

End CardFlowV110.

(** ** Location data of a round *)

Section LocationData.

Lemma getCountryFromCoordinates_valid (c : Coordinate) (isGuess : bool) (gs : GameState.t) :
  isValidCoordinate (Some c) = true ->
  (isGuess = false -> checkCountryOverride (lat c) (lng c) = None) ->
  V110.getCountryFromCoordinates (lat c) (lng c) isGuess gs
  = (gs, geocodeCall isGuess (Some c)).
Proof.
  intros Hv Hov. unfold V110.getCountryFromCoordinates, geocodeCall.
  rewrite Hv, (sanitizeCoordinates_valid c Hv).
  destruct (checkCountryOverride (lat c) (lng c)) as [ov|]; [|reflexivity].
  destruct isGuess; [reflexivity|]. by discriminate Hov.
Qed.

(** X18.  What [processLocationData] of version 1.1.0 does for a round
    with a record: it starts a geocoding call for the guess when the guess
    location is valid, also where the override table knows the place; for
    the actual location the override table goes first, and its entry is
    written to the record without a call, while a valid location the table
    does not know gets a geocoding call of its own.  Without an override
    match [gameState] is left as it is. *)
Theorem processLocationData_calls (roundKey : option string) (gs : GameState.t)
    (key : string) (rd : RoundData.t) :
  resolveRoundKey roundKey gs = Some key ->
  GameState.roundLocations gs !! key = Some rd ->
  V110.processLocationData roundKey gs =
    match overrideAt (RoundData.location rd) with
    | Some override =>
        (V110.processCountryOverride override (Some key) gs,
         geocodeCall true (RoundData.guessLocation rd))
    | None =>
        (gs, (geocodeCall true (RoundData.guessLocation rd)
              ++ geocodeCall false (RoundData.location rd))%list)
    end.
Proof.
  intros Hk Hrd. unfold V110.processLocationData. rewrite Hk, Hrd.
  assert ((if isValidCoordinate (RoundData.guessLocation rd)
           then match RoundData.guessLocation rd with
                | Some c => V110.getCountryFromCoordinates (lat c) (lng c) true gs
                | None => (gs, [])
                end
           else (gs, [])) = (gs, geocodeCall true (RoundData.guessLocation rd))) as ->.
  { destruct (RoundData.guessLocation rd) as [c|] eqn:Hg; [|reflexivity].
    destruct (isValidCoordinate (Some c)) eqn:Hv.
    - apply getCountryFromCoordinates_valid; [exact Hv | discriminate].
    - unfold geocodeCall. by rewrite Hv. }
  unfold overrideAt.
  destruct (RoundData.location rd) as [c|] eqn:Hl.
  - destruct (isValidCoordinate (Some c)) eqn:Hv.
    + destruct (checkCountryOverride (lat c) (lng c)) as [ov|] eqn:Hov; [reflexivity|].
      by rewrite (getCountryFromCoordinates_valid c false gs Hv (fun _ => Hov)).
    + unfold geocodeCall at 3. rewrite Hv. by rewrite app_nil_r.
  - cbn [isValidCoordinate]. unfold geocodeCall at 3. cbn [isValidCoordinate].
    by rewrite app_nil_r.
Qed.

Lemma processLocationData_calls_witness :
  let gs := Examples.gsGuessed Examples.guatemalaRound in
  resolveRoundKey None gs = Some Examples.key1 /\
  GameState.roundLocations gs !! Examples.key1 = Some Examples.guatemalaRound /\
  V110.processLocationData None gs
  = (V110.processCountryOverride guatemala (Some Examples.key1) gs,
     [V110.PendingGeocoding (AwaitNominatim {| lat := zero; lng := n90 |}) true]).
Proof.
  split; [reflexivity|]. split; [reflexivity|].
  exact (processLocationData_calls None (Examples.gsGuessed Examples.guatemalaRound)
           Examples.key1 Examples.guatemalaRound eq_refl eq_refl).
Defined.

End LocationData.

(** ** Decoding an encoded panorama id *)

Section PanoIdRoundTrip.

Lemma hexDigit_spec (q : N) :
  (q < 16)%N -> isHexDigit (hexDigit q) = true /\ hexDigitValue (hexDigit q) = q.
Proof.
  intros Hq. destruct q as [|p]; [split; reflexivity|].
  repeat (match goal with p : positive |- _ => destruct p; try lia end);
    split; reflexivity.
Qed.

Lemma allHex_hexEncode (t : string) : allHex (hexEncode t) = true.
Proof.
  induction t as [|a r IH]; [reflexivity|]. cbn [hexEncode allHex].
  pose proof (N_ascii_bounded a) as Ha. unfold code.
  destruct (hexDigit_spec (N_of_ascii a / 16)) as [-> _].
  { apply N.Div0.div_lt_upper_bound. lia. }
  destruct (hexDigit_spec (N_of_ascii a mod 16)) as [-> _].
  { apply N.mod_lt. lia. }
  exact IH.
Qed.

Lemma decodePairs_hexEncode (t : string) :
  allAscii t = true -> decodePairs (hexEncode t) = t.
Proof.
  induction t as [|a r IH]; [reflexivity|]. cbn [hexEncode allAscii].
  intros [Ha Hr]%andb_true_iff. apply N.ltb_lt in Ha.
  rewrite decodePairs_step, (IH Hr). unfold code in *.
  destruct (hexDigit_spec (N_of_ascii a / 16)) as [_ ->].
  { apply N.Div0.div_lt_upper_bound. lia. }
  destruct (hexDigit_spec (N_of_ascii a mod 16)) as [_ ->].
  { apply N.mod_lt. lia. }
  rewrite <- (N.div_mod (N_of_ascii a) 16) by lia.
  unfold fromCharCode. apply N.ltb_lt in Ha. rewrite Ha.
  by rewrite ascii_N_embedding.
Qed.

(** X19.  The decoder inverts the hexadecimal encoding: an ASCII text
    written as two hexadecimal digits per character is decoded to the text
    itself. *)
Theorem panoIdDecoder_hexEncode (t : string) :
  allAscii t = true -> panoIdDecoder (Some (hexEncode t)) = t.
Proof.
  intros Ht. unfold panoIdDecoder, isHexString.
  destruct t as [|a r]; [reflexivity|].
  rewrite allHex_hexEncode. cbn [hexEncode nonempty negb andb].
  pose proof (decodeLoop_spec (String.length (hexEncode (String a r))) ""
                (hexEncode (String a r)) "") as H.
  rewrite !string_app_nil_l in H. change (String.length "") with 0%nat in H.
  cbn [hexEncode] in H. rewrite H by lia.
  by apply (decodePairs_hexEncode (String a r)).
Qed.

Lemma panoIdDecoder_hexEncode_witness :
  allAscii "CAoSLEFGMVFpcE" = true /\
  hexEncode "CAoSLEFGMVFpcE" = "43416f534c4546474d5646706345" /\
  panoIdDecoder (Some (hexEncode "CAoSLEFGMVFpcE")) = "CAoSLEFGMVFpcE".
Proof.
  split; [reflexivity|]. split; [reflexivity|].
  exact (panoIdDecoder_hexEncode "CAoSLEFGMVFpcE" eq_refl).
Defined.

End PanoIdRoundTrip.

(** ** The dialog of version 1.1.0 *)

Section DialogV110.





(** X21.  A guess typed into the dialog of the current round is the guess
    of the card: when the record of the round has a country and the typed
    guess is not blank, [handleCreateCard] stores the trimmed guess in the
    record, keeps the country, and sends the note compiled from that
    record under the current round key. *)
Theorem dialog_guess_reaches_card (B : Builtins) (settings : Settings) (cfg : AnkiConfig)
    (page : Page) (guessInput cluesInput reminderInput : string) (gs : GameState.t)
    (rd : RoundData.t) :
  currentRecord gs = Some rd ->
  truthy (RoundData.country rd) = true ->
  nonempty (trim guessInput) = true ->
  let key := tpl (GameState.currentRoundKey gs) in
  let result :=
    V110.handleCreateCard B settings cfg page key guessInput cluesInput reminderInput gs in
  exists rd' : RoundData.t,
    GameState.roundLocations result.1 !! key = Some rd' /\
    RoundData.guessCountry rd' = Some (trim guessInput) /\
    RoundData.country rd' = RoundData.country rd /\
    result.2 =
      let card := compileCard B V110.glyphs settings false key rd' result.1 in
      Some ({| deckName := DECK_NAME cfg; modelName := MODEL_NAME cfg;
               fields := <["Back" := backField card]> (<["Front" := frontField card]> ∅) |},
            key).
Proof.
  intros Hrd Hc Hg key result. unfold currentRecord in Hrd.
  destruct (truthy (GameState.currentRoundKey gs)) eqn:Hk; [|discriminate]. fold key in Hrd.
  set (f := fun r : RoundData.t =>
              RoundData.set_guessCountryData
                (Some match RoundData.guessCountryData r with
                      | Some data => data
                      | None => typedGuessData (trim guessInput)
                      end)
                (RoundData.set_guessCountry (Some (trim guessInput)) r)).
  set (gs1 := updateRound key f (GameState.set_guessCountry (Some (trim guessInput)) gs)).
  set (gs2 := if nonempty (trim cluesInput)
              then GameState.set_userMissedClues (trim cluesInput) gs1 else gs1).
  set (gs3 := if nonempty (trim reminderInput)
              then GameState.set_userReminder (trim reminderInput) gs2 else gs2).
  assert (GameState.currentRoundKey gs3 = GameState.currentRoundKey gs) as Hkey3.
  { subst gs3 gs2 gs1.
    destruct (nonempty (trim cluesInput)), (nonempty (trim reminderInput)); by gs_simpl. }
  assert (GameState.roundLocations gs3 !! key = Some (f rd)) as Hrd3.
  { subst gs3 gs2 gs1.
    destruct (nonempty (trim cluesInput)), (nonempty (trim reminderInput)); gs_simpl;
      by rewrite lookup_alter_eq, Hrd. }
  assert (result = V110.createAnkiCard B settings cfg None false page gs3) as Hres.
  { subst result. unfold V110.handleCreateCard. by rewrite Hg. }
  assert (truthy (RoundData.guessCountry (f rd)) = true) as Hg'.
  { exact Hg. }
  assert (RoundData.country (f rd) = RoundData.country rd) as Hc' by reflexivity.
  assert (result = (gs3,
            Some ({| deckName := DECK_NAME cfg; modelName := MODEL_NAME cfg;
                     fields := <["Back" := backField
                                             (compileCard B V110.glyphs settings false key (f rd) gs3)]>
                                 (<["Front" := frontField
                                             (compileCard B V110.glyphs settings false key (f rd) gs3)]> ∅) |},
                  key))) as ->.
  { rewrite Hres. unfold V110.createAnkiCard, V110.buildAnkiCardData.
    rewrite Hkey3, Hk. fold key. rewrite Hrd3. unfold V110.cardGuards.
    rewrite Hg', Hc', Hc. cbn [negb orb]. rewrite Hrd3. reflexivity. }
  exists (f rd). cbn [fst snd]. auto.
Qed.

Lemma dialog_guess_reaches_card_witness :
  let rd := Examples.guessedRound "France" ["French"] "Spain" ["Spanish"] in
  let gs := Examples.gsGuessed rd in
  currentRecord gs = Some rd /\
  truthy (RoundData.country rd) = true /\
  nonempty (trim " Portugal ") = true /\
  exists rd' : RoundData.t,
    GameState.roundLocations
      (V110.handleCreateCard Examples.unusedBuiltins Examples.defaultSettings
         Examples.ankiConfig Examples.page1 Examples.key1 " Portugal " "" "" gs).1
      !! Examples.key1 = Some rd' /\
    RoundData.guessCountry rd' = Some "Portugal".
Proof.
  split; [reflexivity|]. split; [reflexivity|]. split; [reflexivity|].
  destruct (dialog_guess_reaches_card Examples.unusedBuiltins Examples.defaultSettings
              Examples.ankiConfig Examples.page1 " Portugal " "" ""
              (Examples.gsGuessed (Examples.guessedRound "France" ["French"] "Spain" ["Spanish"]))
              (Examples.guessedRound "France" ["French"] "Spain" ["Spanish"])
              eq_refl eq_refl eq_refl) as (rd' & Hrd' & Hg & _).
  exists rd'. split; [exact Hrd' | exact Hg].
Defined.

End DialogV110.
